(** * Resilient GitHub access layer and repository comparison

    A shallow embedding of

    - [retry_github_request] of [mcp-server-1/tools/utils.py] and of
      [mcp-server-6/tools/utils.py] (the retrying, rate-limited HTTP call),
    - [fetch_repository_data] and [compare_repositories] of
      [mcp-server-2/tools/comparison_tool.py] (the concurrent fan-out and
      its aggregation),

    together with the helpers they call, and of the code around them:

    - [retry_request], [format_api_error], [handle_github_error] and
      [format_repository_health_text] of [mcp-server-1/tools/utils.py], and
      [handle_github_error] of [mcp-server-6/tools/utils.py],
    - three tools that call these helpers: [compare_release_versions] of
      [mcp-server-6/tools/version_comparison.py],
      [get_repository_contributors] of [mcp-server-1/tools/contributors.py]
      and [get_repository_health] of [mcp-server-1/tools/github_health.py].

    The definitions come first: payloads, responses and effects, the two
    retry loops, the comparison tool, sample upstreams, the observations the
    statements are written with, then the error helpers and the three
    tools.  The facts follow: the retry loop, the comparison, and then the
    facts on the code around them.

    Conventions.

    - Python [int] is [Z].  Delays are seconds; [RETRY_DELAY_BASE] is the
      float [1.0], and [RETRY_DELAY_BASE * (2 ** attempt)] is the power of
      two [2 ^ attempt] while [2 ** attempt] converts to a float, that is
      for [attempt < 1024]; from attempt 1024 on the product raises
      [OverflowError].
    - The upstream API is a fixed external contract: a response carries a
      status code, the integer of the [X-RateLimit-Remaining] header when
      the header is present, and a body: one of the JSON objects the tools
      read, with integer counters, a list of commits, another JSON value,
      or a text that is not JSON.
    - [client.request] is an oracle: the reply to the request of each
      attempt.  [response.raise_for_status()] is the one of httpx: it raises
      [HTTPStatusError] unless the status is 2xx.
    - Awaited effects are recorded in a trace, in program order: entering
      the rate limiter, the HTTP request, [ctx.info] notifications and
      [asyncio.sleep].
    - A supplied context behaves as a [Sink]: [await ctx.info(...)] returns
      or raises.  The functions [retry_github_request_on] take the sink;
      [retry_github_request] is the function with a context that accepts
      every notification.  The tools and the error helpers are given a
      context that accepts every call made on it. *)

From Stdlib Require Import ZArith List String Ascii Bool Lia DecimalString.
Import ListNotations.
Open Scope string_scope.
Open Scope list_scope.
Open Scope Z_scope.

(* ================================================================= *)
(** ** GitHub payloads *)

Module Payload.

(** The fields [fetch_repository_data] reads from [GET /repos/{owner}/{repo}];
    [None] is a key that is absent. *)
Record RepoJson := mkRepoJson {
  open_issues_count : option Z;
  stargazers_count : option Z;
  forks_count : option Z;
  watchers_count : option Z;
  language : option string;
  archived : option bool;
  disabled : option bool;
  pushed_at : option string
}.

(** [GET /search/issues]: the [total_count] key. *)
Record SearchJson := mkSearchJson {
  total_count : option Z
}.

(** One element of [GET /repos/{owner}/{repo}/commits]: the value reached by
    [commit.get("commit", {}).get("author", {}).get("date")]. *)
Record CommitJson := mkCommitJson {
  author_date : option string
}.

(** The body of a response, as [response.json()] reads it: an object, read
    as a repository or as a search result (a key that the object lacks is
    [None] in its record, and a search result has none of the keys of a
    repository); the list of commits; another JSON value (null, a number, a
    string, a boolean); or a text that is not JSON, for which
    [response.json()] raises [json.JSONDecodeError], a [ValueError], with
    the message [error]. *)
Inductive Json :=
| JRepo (d : RepoJson)
| JSearch (d : SearchJson)
| JCommits (d : list CommitJson)
| JOther
| JInvalid (error : string).

End Payload.

(* ================================================================= *)
(** ** HTTP responses, exceptions and effects *)

(** [httpx.Response]: [rate_limit_remaining] is the integer value of the
    [X-RateLimit-Remaining] header, [None] when the header is absent. *)
Record Response := mkResponse {
  status_code : Z;
  rate_limit_remaining : option Z;
  json : Payload.Json
}.

(** Python exceptions.  [HTTPStatusError (Some r)] is what
    [r.raise_for_status()] raises; [HTTPStatusError None] is
    [httpx.HTTPStatusError("All retries exhausted", request=None, response=None)]. *)
Inductive Exception :=
| HTTPStatusError (response : option Response)
| TimeoutException
| NetworkError
| ValueError (message : string)
| IndexError
| AttributeError
| OtherException (name : string).

(** What [await client.request(method, url, **kwargs)] does at one attempt. *)
Inductive Reply :=
| Responds (response : Response)
| TimesOut
| NetworkFails
| Fails (name : string).

(** The argument [ctx] of a function: a [fastmcp.Context] is supplied, or
    [ctx=None].  How the supplied context behaves is a [Sink], below. *)
Inductive Context := TheContext.

Definition truthy (ctx : option Context) : bool :=
  match ctx with Some _ => true | None => false end.

(** The texts passed to [ctx.info], by the data they are formatted from. *)
Inductive Notice :=
| LowQuota (remaining : Z)
| RetryStatus (status attempt_number max_retries delay : Z)
| RetryHttpError (status attempt_number max_retries delay : Z)
| RetryNetworkError (attempt_number max_retries delay : Z)
| RetryNotice (attempt_number max_retries delay : Z).

(** The behaviour of the supplied context: what [await ctx.info(...)] raises
    for a notification, [None] when it returns.  The answer depends on the
    notification alone. *)
Definition Sink := Notice -> option Exception.

(** A context that accepts every notification. *)
Definition reliable : Sink := fun _ => None.

Inductive Event :=
| Acquire
| Request (attempt : Z)
| CtxInfo (n : Notice)
| Sleep (delay : Z).

Definition Trace := list Event.

Inductive Outcome :=
| Returns (response : Response)
| Raises (e : Exception).

(** One pass through the body of [for attempt in range(max_retries)]. *)
Inductive Step :=
| Continue (last_exception : option Exception)
| Done (o : Outcome).

(** How the [for] loop is left. *)
Inductive LoopExit :=
| Exited (o : Outcome)
| Exhausted (last_exception : option Exception).

Definition MAX_RETRIES : Z := 3.
Definition RETRY_DELAY_BASE : Z := 1.
Definition RETRYABLE_STATUS_CODES : list Z := [429; 500; 502; 503; 504].

Definition retryable (status : Z) : bool :=
  existsb (Z.eqb status) RETRYABLE_STATUS_CODES.

(** [httpx.Response.is_success]. *)
Definition is_success (status : Z) : bool :=
  (200 <=? status) && (status <=? 299).

(** [response.raise_for_status()]: [Some e] when it raises [e]. *)
Definition raise_for_status (response : Response) : option Exception :=
  if is_success (status_code response) then None
  else Some (HTTPStatusError (Some response)).

(** Python's [OverflowError]. *)
Definition OverflowError : Exception := OtherException "OverflowError".

(** The integer [2 ** n] converts to a float for [n < FLOAT_MAX_EXP]. *)
Definition FLOAT_MAX_EXP : Z := 1024.

(** [delay = RETRY_DELAY_BASE * (2 ** attempt)]: the product of the float
    [1.0] and the integer [2 ** attempt].  The integer is converted to a
    float, which raises [OverflowError] from [2 ** 1024] on; below, the
    product is the power of two itself. *)
Definition backoff (attempt : Z) : Exception + Z :=
  if attempt <? FLOAT_MAX_EXP then inr (RETRY_DELAY_BASE * 2 ^ attempt)
  else inl OverflowError.

(** [if ctx: await ctx.info(...)]: the call made, and the exception it
    raises, if any. *)
Definition notify (sink : Sink) (ctx : option Context) (n : Notice)
  : Trace * option Exception :=
  if truthy ctx then ([CtxInfo n], sink n) else ([], None).

(** [range(a, a + n)], and Python's [range(n)]. *)
Fixpoint range_from (a : Z) (n : nat) : list Z :=
  match n with
  | O => []
  | S n' => a :: range_from (a + 1) n'
  end.

Definition range (n : Z) : list Z := range_from 0 (Z.to_nat n).

(** Sequencing of traced computations. *)
Definition after {A} (tr : Trace) (m : Trace * A) : Trace * A :=
  (tr ++ fst m, snd m).

(** The branch that retries: [delay = ...], the notification,
    [await asyncio.sleep(delay)] and [continue]; [inl e] when computing the
    delay or sending the notification raises [e]. *)
Definition back_off (sink : Sink) (ctx : option Context) (attempt : Z)
  (notice : Z -> Notice) (last_exception : option Exception)
  : Trace * (Exception + Step) :=
  match backoff attempt with
  | inl e => ([], inl e)
  | inr delay =>
      let told := notify sink ctx (notice delay) in
      match snd told with
      | Some e => (fst told, inl e)
      | None => (fst told ++ [Sleep delay], inr (Continue last_exception))
      end
  end.

(** An exception raised inside an [except] clause leaves the function. *)
Definition in_handler (m : Trace * (Exception + Step)) : Trace * Step :=
  (fst m,
   match snd m with
   | inl e => Done (Raises e)
   | inr step => step
   end).

(** [try: ... except ...]: an exception raised inside the [try] goes to the
    [except] clauses. *)
Definition try_except (m : Trace * (Exception + Step))
  (handlers : Exception -> Trace * Step) : Trace * Step :=
  match snd m with
  | inr step => (fst m, step)
  | inl e => after (fst m) (handlers e)
  end.

(** The statements after the loop:
    [if last_exception: raise last_exception] and the synthesized
    [raise httpx.HTTPStatusError("All retries exhausted", ...)]. *)
Definition after_loop (exit : LoopExit) : Outcome :=
  match exit with
  | Exited o => o
  | Exhausted (Some e) => Raises e
  | Exhausted None => Raises (HTTPStatusError None)
  end.

(** The [for] loop over the attempts still to run. *)
Fixpoint for_attempts (body : Z -> option Exception -> Trace * Step)
  (attempts : list Z) (last_exception : option Exception) : Trace * LoopExit :=
  match attempts with
  | [] => ([], Exhausted last_exception)
  | attempt :: rest =>
      match body attempt last_exception with
      | (tr, Continue le) => after tr (for_attempts body rest le)
      | (tr, Done o) => (tr, Exited o)
      end
  end.

(* ----------------------------------------------------------------- *)
(** *** mcp-server-1/tools/utils.py *)

Module Server1.

(** Lines 243-247: the quota advisory, sent when the header is present. *)
Definition check_rate_limit (sink : Sink) (ctx : option Context)
  (response : Response) : Trace * option Exception :=
  match rate_limit_remaining response with
  | Some remaining =>
      if (remaining <? 100) && truthy ctx then
        ([CtxInfo (LowQuota remaining)], sink (LowQuota remaining))
      else ([], None)
  | None => ([], None)
  end.

(** Lines 267-269: [response.raise_for_status(); return response]. *)
Definition finish (response : Response) : Trace * (Exception + Step) :=
  match raise_for_status response with
  | Some e => ([], inl e)
  | None => ([], inr (Done (Returns response)))
  end.

(** The [try] block (lines 238-269). *)
Definition try_block (sink : Sink) (request : Z -> Reply) (ctx : option Context)
  (max_retries attempt : Z) (last_exception : option Exception)
  : Trace * (Exception + Step) :=
  after [Acquire; Request attempt]
    match request attempt with
    | Responds response =>
        let advisory := check_rate_limit sink ctx response in
        after (fst advisory)
          match snd advisory with
          | Some e => ([], inl e)
          | None =>
              if retryable (status_code response) then
                if attempt <? max_retries - 1 then
                  back_off sink ctx attempt
                    (RetryStatus (status_code response) (attempt + 1) max_retries)
                    last_exception
                else
                  match raise_for_status response with
                  | Some e => ([], inl e)
                  | None => finish response
                  end
              else finish response
          end
    | TimesOut => ([], inl TimeoutException)
    | NetworkFails => ([], inl NetworkError)
    | Fails name => ([], inl (OtherException name))
    end.

(** [except httpx.HTTPStatusError as e] (lines 271-284); with no response,
    [e.response.status_code] raises [AttributeError]. *)
Definition on_status_error (sink : Sink) (ctx : option Context)
  (max_retries attempt : Z) (response : option Response) : Trace * Step :=
  match response with
  | Some r =>
      let e := HTTPStatusError (Some r) in
      if retryable (status_code r) then
        if attempt <? max_retries - 1 then
          in_handler
            (back_off sink ctx attempt
               (RetryHttpError (status_code r) (attempt + 1) max_retries)
               (Some e))
        else ([], Done (Raises e))
      else ([], Done (Raises e))
  | None => ([], Done (Raises AttributeError))
  end.

(** [except (httpx.TimeoutException, httpx.NetworkError) as e] (lines 286-296). *)
Definition on_transport_error (sink : Sink) (ctx : option Context)
  (max_retries attempt : Z) (e : Exception) : Trace * Step :=
  if attempt <? max_retries - 1 then
    in_handler
      (back_off sink ctx attempt (RetryNetworkError (attempt + 1) max_retries)
         (Some e))
  else ([], Done (Raises e)).

(** The [except] clauses; any other exception leaves the function. *)
Definition handlers (sink : Sink) (ctx : option Context)
  (max_retries attempt : Z) (e : Exception) : Trace * Step :=
  match e with
  | HTTPStatusError response =>
      on_status_error sink ctx max_retries attempt response
  | TimeoutException | NetworkError =>
      on_transport_error sink ctx max_retries attempt e
  | _ => ([], Done (Raises e))
  end.

(** The body of the loop (lines 238-296). *)
Definition body_on (sink : Sink) (request : Z -> Reply) (ctx : option Context)
  (max_retries : Z) (attempt : Z) (last_exception : option Exception)
  : Trace * Step :=
  try_except (try_block sink request ctx max_retries attempt last_exception)
    (handlers sink ctx max_retries attempt).

Definition retry_loop_on (sink : Sink) (request : Z -> Reply)
  (ctx : option Context) (max_retries : Z) : Trace * LoopExit :=
  for_attempts (body_on sink request ctx max_retries) (range max_retries) None.

(** [retry_github_request], with a context that behaves as [sink]. *)
Definition retry_github_request_on (sink : Sink) (request : Z -> Reply)
  (ctx : option Context) (max_retries : Z) : Trace * Outcome :=
  let r := retry_loop_on sink request ctx max_retries in
  (fst r, after_loop (snd r)).

(** The same with a context that accepts every notification. *)
Definition body : (Z -> Reply) -> option Context -> Z -> Z ->
                  option Exception -> Trace * Step :=
  body_on reliable.

Definition retry_loop : (Z -> Reply) -> option Context -> Z -> Trace * LoopExit :=
  retry_loop_on reliable.

Definition retry_github_request
  : (Z -> Reply) -> option Context -> Z -> Trace * Outcome :=
  retry_github_request_on reliable.

End Server1.

(* ----------------------------------------------------------------- *)
(** *** mcp-server-6/tools/utils.py *)

Module Server6.

(** Lines 60-63: [remaining = int(response.headers.get("X-RateLimit-Remaining", 0))]. *)
Definition check_rate_limit (sink : Sink) (ctx : option Context)
  (response : Response) : Trace * option Exception :=
  let remaining :=
    match rate_limit_remaining response with Some n => n | None => 0 end in
  if (remaining <? 10) && truthy ctx then
    ([CtxInfo (LowQuota remaining)], sink (LowQuota remaining))
  else ([], None).

(** Lines 74-75: [response.raise_for_status(); return response]. *)
Definition finish (response : Response) : Trace * (Exception + Step) :=
  match raise_for_status response with
  | Some e => ([], inl e)
  | None => ([], inr (Done (Returns response)))
  end.

(** The [try] block (lines 56-75). *)
Definition try_block (sink : Sink) (request : Z -> Reply) (ctx : option Context)
  (max_retries attempt : Z) (last_exception : option Exception)
  : Trace * (Exception + Step) :=
  after [Acquire; Request attempt]
    match request attempt with
    | Responds response =>
        let advisory := check_rate_limit sink ctx response in
        after (fst advisory)
          match snd advisory with
          | Some e => ([], inl e)
          | None =>
              if retryable (status_code response) && (attempt <? max_retries - 1)
              then
                back_off sink ctx attempt (RetryNotice (attempt + 1) max_retries)
                  last_exception
              else finish response
          end
    | TimesOut => ([], inl TimeoutException)
    | NetworkFails => ([], inl NetworkError)
    | Fails name => ([], inl (OtherException name))
    end.

(** [except httpx.HTTPStatusError as e] (lines 77-85); with no response,
    [e.response.status_code] raises [AttributeError]. *)
Definition on_status_error (sink : Sink) (ctx : option Context)
  (max_retries attempt : Z) (response : option Response) : Trace * Step :=
  match response with
  | Some r =>
      let e := HTTPStatusError (Some r) in
      if retryable (status_code r) && (attempt <? max_retries - 1) then
        in_handler
          (back_off sink ctx attempt (RetryNotice (attempt + 1) max_retries)
             (Some e))
      else ([], Done (Raises e))
  | None => ([], Done (Raises AttributeError))
  end.

(** [except (httpx.TimeoutException, httpx.NetworkError) as e] (lines 86-94). *)
Definition on_transport_error (sink : Sink) (ctx : option Context)
  (max_retries attempt : Z) (e : Exception) : Trace * Step :=
  if attempt <? max_retries - 1 then
    in_handler
      (back_off sink ctx attempt (RetryNotice (attempt + 1) max_retries)
         (Some e))
  else ([], Done (Raises e)).

(** The [except] clauses; any other exception leaves the function. *)
Definition handlers (sink : Sink) (ctx : option Context)
  (max_retries attempt : Z) (e : Exception) : Trace * Step :=
  match e with
  | HTTPStatusError response =>
      on_status_error sink ctx max_retries attempt response
  | TimeoutException | NetworkError =>
      on_transport_error sink ctx max_retries attempt e
  | _ => ([], Done (Raises e))
  end.

(** The body of the loop (lines 56-94). *)
Definition body_on (sink : Sink) (request : Z -> Reply) (ctx : option Context)
  (max_retries : Z) (attempt : Z) (last_exception : option Exception)
  : Trace * Step :=
  try_except (try_block sink request ctx max_retries attempt last_exception)
    (handlers sink ctx max_retries attempt).

Definition retry_loop_on (sink : Sink) (request : Z -> Reply)
  (ctx : option Context) (max_retries : Z) : Trace * LoopExit :=
  for_attempts (body_on sink request ctx max_retries) (range max_retries) None.

(** [retry_github_request], with a context that behaves as [sink]. *)
Definition retry_github_request_on (sink : Sink) (request : Z -> Reply)
  (ctx : option Context) (max_retries : Z) : Trace * Outcome :=
  let r := retry_loop_on sink request ctx max_retries in
  (fst r, after_loop (snd r)).

(** The same with a context that accepts every notification. *)
Definition body : (Z -> Reply) -> option Context -> Z -> Z ->
                  option Exception -> Trace * Step :=
  body_on reliable.

Definition retry_loop : (Z -> Reply) -> option Context -> Z -> Trace * LoopExit :=
  retry_loop_on reliable.

Definition retry_github_request
  : (Z -> Reply) -> option Context -> Z -> Trace * Outcome :=
  retry_github_request_on reliable.

End Server6.

(* ================================================================= *)
(** ** mcp-server-2/tools/comparison_tool.py *)

Module Comparison.

(** The tool imports its helpers from the [utils] module of its own package.
    [_require_env_vars], [parse_github_datetime] and [calculate_days_ago] are
    embedded below as [mcp-server-1/tools/utils.py] has them
    ([mcp-server-6/tools/utils.py] has the same three definitions);
    [retry_github_request] and [handle_github_error] are fields of
    [Externals].  [ctx] is the context that the server passes to the tool: it
    is present.  One reading of the clock serves a whole comparison. *)

(** Python's insertion-ordered [dict] with string keys: assigning to a key
    that is present keeps its position, a new key goes to the end. *)
Definition Dict (V : Type) := list (string * V).

Fixpoint dict_set {V} (d : Dict V) (key : string) (v : V) : Dict V :=
  match d with
  | [] => [(key, v)]
  | (k, w) :: d' =>
      if String.eqb k key then (k, v) :: d' else (k, w) :: dict_set d' key v
  end.

Fixpoint dict_get {V} (d : Dict V) (key : string) : option V :=
  match d with
  | [] => None
  | (k, w) :: d' => if String.eqb k key then Some w else dict_get d' key
  end.

Definition keys {V} (d : Dict V) : list string := map fst d.
Definition values {V} (d : Dict V) : list V := map snd d.

(** [d.get(key, default)] on an optional field. *)
Definition get {A} (field : option A) (default : A) : A :=
  match field with Some v => v | None => default end.

(** [str(n)] for an [int]. *)
Definition str_int (n : Z) : string :=
  NilZero.string_of_int (Z.to_int n).

(** One element of the argument [repositories], a [Dict[str, str]], by the
    two keys the tool reads. *)
Record Repository := mkRepository {
  owner_key : option string;
  repo_key : option string
}.

(** One upstream call: the arguments [method], [url] and [params] passed to
    [retry_github_request]. *)
Record Call := mkCall {
  method : string;
  url : string;
  params : list (string * string)
}.

(** A [datetime], as microseconds since the epoch; a naive value is read as
    UTC, which is what [calculate_days_ago] does with it. *)
Definition Datetime := Z.

(** [mcp.shared.exceptions.McpError(ErrorData(code, message))]. *)
Record McpError := mkMcpError {
  code : Z;
  message : string
}.

(** What the tool uses and this file does not define: the standard library's
    date functions and clock, [str] of an exception, and the two helpers that
    [comparison_tool.py] imports from its own [utils] module:
    [retry_github_request], called with [ctx=None] on the shared client and
    seen here by its outcome for each call, and [handle_github_error], which
    raises the [McpError] it builds.  [fromisoformat] gives [None] where
    [datetime.fromisoformat] raises [ValueError]. *)
Record Externals := mkExternals {
  retry_github_request : Call -> Outcome;
  handle_github_error : Exception -> McpError;
  fromisoformat : string -> option Datetime;
  isoformat : Datetime -> string;
  strftime : Datetime -> string;
  str : Exception -> string;
  now : Datetime
}.

(** The dictionary returned by [fetch_repository_data]. *)
Record RepoData := mkRepoData {
  owner : string;
  repo : string;
  open_issues_count : Z;
  open_prs_count : Z;
  stars_count : Z;
  forks_count : Z;
  watchers_count : Z;
  last_commit_date : option string;
  last_commit_age_days : option Z;
  language : option string;
  is_archived : bool;
  is_disabled : bool;
  pushed_at : option string
}.

(** [date_str.replace('Z', '+00:00')]. *)
Fixpoint replace_Z (s : string) : string :=
  match s with
  | EmptyString => EmptyString
  | String c s' =>
      if Ascii.eqb c "Z"%char then ("+00:00" ++ replace_Z s')%string
      else String c (replace_Z s')
  end.

(** [parse_github_datetime] of [utils.py]. *)
Definition parse_github_datetime (X : Externals) (date_str : option string)
  : option Datetime :=
  match date_str with
  | None => None
  | Some s =>
      if String.eqb s "" then None else fromisoformat X (replace_Z s)
  end.

Definition MICROSECONDS_PER_DAY : Z := 86400000000.

(** [calculate_days_ago] of [utils.py]: [(now - date).days]. *)
Definition calculate_days_ago (X : Externals) (date : option Datetime)
  : option Z :=
  match date with
  | None => None
  | Some d => Some ((now X - d) / MICROSECONDS_PER_DAY)
  end.

(** The three calls of [fetch_repository_data]. *)
Definition repo_call (owner repo : string) : Call :=
  mkCall "GET" ("/repos/" ++ owner ++ "/" ++ repo)%string [].

Definition search_call (owner repo : string) : Call :=
  mkCall "GET" "/search/issues"
    [("q", ("repo:" ++ owner ++ "/" ++ repo ++ " type:pr state:open")%string);
     ("per_page", "1")].

Definition commits_call (owner repo : string) : Call :=
  mkCall "GET" ("/repos/" ++ owner ++ "/" ++ repo ++ "/commits")%string
    [("per_page", "1")].

(** Lines 65-80: the first [try]; every exception gives [0]. *)
Definition fetch_open_prs_count (search : Outcome) : Z :=
  match search with
  | Returns search_pr_response =>
      match json search_pr_response with
      | Payload.JSearch search_pr_data =>
          get (Payload.total_count search_pr_data) 0
      | _ => 0
      end
  | Raises _ => 0
  end.

(** Lines 83-101: the second [try]; every exception gives [None]. *)
Definition fetch_last_commit_date (X : Externals) (commits : Outcome)
  : option Datetime :=
  match commits with
  | Returns commits_response =>
      match json commits_response with
      | Payload.JCommits (commit :: _) =>
          parse_github_datetime X (Payload.author_date commit)
      | _ => None
      end
  | Raises _ => None
  end.

(** The value of the key ["pushed_at"] (line 120): [AttributeError] when the
    string is not empty and does not parse. *)
Definition fetch_pushed_at (X : Externals) (field : option string)
  : Exception + option string :=
  match field with
  | None => inr None
  | Some s =>
      if String.eqb s "" then inr None
      else match parse_github_datetime X (Some s) with
           | Some dt => inr (Some (isoformat X dt))
           | None => inl AttributeError
           end
  end.

(** [response.json()] (line 62): the decoded body, or the
    [json.JSONDecodeError], a [ValueError], of a text that is not JSON. *)
Definition decode (response : Response) : Exception + Payload.Json :=
  match json response with
  | Payload.JInvalid error => inl (ValueError error)
  | body => inr body
  end.

(** A [dict] that has none of the keys of a repository. *)
Definition no_fields : Payload.RepoJson :=
  Payload.mkRepoJson None None None None None None None None.

(** What [repo_data.get] reads: the keys of a JSON object, and nothing of a
    value that is no [dict] (a list, null, a number, a string, a boolean),
    on which [.get] raises [AttributeError]. *)
Definition repo_fields (repo_data : Payload.Json) : option Payload.RepoJson :=
  match repo_data with
  | Payload.JRepo d => Some d
  | Payload.JSearch _ => Some no_fields
  | Payload.JCommits _ | Payload.JOther | Payload.JInvalid _ => None
  end.

(** Lines 106-121: the dictionary built from the three answers. *)
Definition build_repo_data (X : Externals) (owner repo : string)
  (repo_data : Payload.Json) (open_prs_count : Z)
  (last_commit_date : option Datetime) : Exception + RepoData :=
  match repo_fields repo_data with
  | Some d =>
      match fetch_pushed_at X (Payload.pushed_at d) with
      | inl e => inl e
      | inr pushed =>
          inr {| owner := owner;
                 repo := repo;
                 open_issues_count :=
                   Z.max 0 (get (Payload.open_issues_count d) 0 - open_prs_count);
                 open_prs_count := open_prs_count;
                 stars_count := get (Payload.stargazers_count d) 0;
                 forks_count := get (Payload.forks_count d) 0;
                 watchers_count := get (Payload.watchers_count d) 0;
                 last_commit_date :=
                   match last_commit_date with
                   | Some dt => Some (isoformat X dt)
                   | None => None
                   end;
                 last_commit_age_days := calculate_days_ago X last_commit_date;
                 language := Payload.language d;
                 is_archived := get (Payload.archived d) false;
                 is_disabled := get (Payload.disabled d) false;
                 pushed_at := pushed |}
      end
  | None => inl AttributeError
  end.

(** [fetch_repository_data]: the calls it makes, and the dictionary it
    returns or the exception it raises.  The body of the metadata answer is
    decoded (line 62) before the two other calls are made, outside any
    [try]; the dictionary is built after them. *)
Definition fetch_repository_data (X : Externals) (owner repo : string)
  : list Call * (Exception + RepoData) :=
  match retry_github_request X (repo_call owner repo) with
  | Raises e => ([repo_call owner repo], inl e)
  | Returns repo_response =>
      match decode repo_response with
      | inl e => ([repo_call owner repo], inl e)
      | inr repo_data =>
          ([repo_call owner repo; search_call owner repo;
            commits_call owner repo],
           build_repo_data X owner repo repo_data
             (fetch_open_prs_count
                (retry_github_request X (search_call owner repo)))
             (fetch_last_commit_date X
                (retry_github_request X (commits_call owner repo))))
      end
  end.

(** Computations that raise: [inl e] is [raise e]. *)
Definition bind {A B} (m : Exception + A) (k : A -> Exception + B)
  : Exception + B :=
  match m with
  | inl e => inl e
  | inr a => k a
  end.

Notation "x <- m ;; k" := (bind m (fun x => k))
  (at level 61, m at next level, right associativity).

(** [os.getenv]. *)
Definition Environ := string -> option string.

(** The loop of [_require_env_vars] (lines 44-49 of [utils.py]). *)
Fixpoint scan_env (environ : Environ) (required_vars : list string)
  (missing : list string) (env : Dict string) : list string * Dict string :=
  match required_vars with
  | [] => (missing, env)
  | var :: rest =>
      match environ var with
      | None => scan_env environ rest (missing ++ [var]) env
      | Some value => scan_env environ rest missing (dict_set env var value)
      end
  end.

(** [_require_env_vars] of [utils.py]. *)
Definition _require_env_vars (environ : Environ) (required_vars : list string)
  : Exception + Dict string :=
  match scan_env environ required_vars [] [] with
  | ([], env) => inr env
  | (missing, _) =>
      inl (ValueError
             ("Отсутствуют обязательные переменные окружения: "
                ++ String.concat ", " missing)%string)
  end.

(** [f"{r.get('owner', '')}/{r.get('repo', '')}"]. *)
Definition repo_name (r : Repository) : string :=
  (get (owner_key r) "" ++ "/" ++ get (repo_key r) "")%string.

(** Lines 192-194.  The result holds, for each repository, the values that
    the later subscripts [repo["owner"]] and [repo["repo"]] read. *)
Fixpoint check_keys (repositories : list Repository)
  : Exception + list (string * string) :=
  match repositories with
  | [] => inr []
  | r :: rest =>
      match owner_key r, repo_key r with
      | Some o, Some n =>
          targets <- check_keys rest ;; inr ((o, n) :: targets)
      | _, _ =>
          inl (ValueError "Каждый репозиторий должен содержать 'owner' и 'repo'")
      end
  end.

(** Lines 183-194: the checks made before anything is sent. *)
Definition validate (environ : Environ) (repositories : list Repository)
  : Exception + list (string * string) :=
  env <- _require_env_vars environ ["GITHUB_TOKEN"] ;;
  if (Z.of_nat (List.length repositories) <? 2) then
    inl (ValueError "Необходимо указать минимум 2 репозитория для сравнения")
  else if (5 <? Z.of_nat (List.length repositories)) then
    inl (ValueError "Максимум 5 репозиториев для сравнения")
  else check_keys repositories.

(** The texts of [ctx.info]. *)
Inductive Notification :=
| Starting
| Preparing (count : nat)
| Sending
| Analysing
| Completed.

(** What the tool does besides computing: notifications to [ctx], and the
    calls of [retry_github_request] made under [asyncio.gather].
    [Gathered tasks] has one element per task, in the order of the arguments
    of [gather]: the calls of that task, in its program order.  The tasks
    run concurrently: no order in time is recorded between the calls of two
    tasks. *)
Inductive Effect :=
| CtxNote (n : Notification)
| CtxProgress (progress : Z)
| CtxFetchError (repo_name error : string)
| CtxValidationError (message : string)
| Gathered (tasks : list (list Call)).

(** The calls among the effects, those of a [gather] listed by task. *)
Fixpoint calls (log : list Effect) : list Call :=
  match log with
  | [] => []
  | Gathered tasks :: log' => List.concat tasks ++ calls log'
  | _ :: log' => calls log'
  end.

(** An element of [repo_data_list]: a fetched dictionary, or the dictionary
    [{"owner": ..., "repo": ..., "error": str(result)}]. *)
Inductive Entry :=
| Fetched (d : RepoData)
| ErrorMarker (owner repo error : string).

(** Lines 216-229, for one result of [asyncio.gather]. *)
Definition collect_one (X : Externals) (target : string * string)
  (result : Exception + RepoData) : list Effect * Entry :=
  match result with
  | inl e =>
      ([CtxFetchError (fst target ++ "/" ++ snd target)%string (str X e)],
       ErrorMarker (fst target) (snd target) (str X e))
  | inr d => ([], Fetched d)
  end.

Fixpoint collect (X : Externals) (targets : list (string * string))
  (results : list (Exception + RepoData)) : list Effect * list Entry :=
  match targets, results with
  | target :: targets', result :: results' =>
      let one := collect_one X target result in
      let more := collect X targets' results' in
      (fst one ++ fst more, snd one :: snd more)
  | _, _ => ([], [])
  end.

Definition DEFAULT_METRICS : list string :=
  ["open_issues"; "open_prs"; "stars"; "forks"; "watchers"; "last_commit_age"].

(** [metrics or [...]]. *)
Definition metrics_to_compare (metrics : option (list string)) : list string :=
  match metrics with
  | Some (m :: ms) => m :: ms
  | _ => DEFAULT_METRICS
  end.

(** [x or default] for an optional [int]: [None] and [0] are falsy. *)
Definition or_default (x : option Z) (default : Z) : Z :=
  match x with
  | Some v => if v =? 0 then default else v
  | None => default
  end.

(** Lines 257-268: the value stored for [metric], when it is a known one. *)
Definition metric_value (metric : string) (repo_data : RepoData) : option Z :=
  if String.eqb metric "open_issues" then Some (open_issues_count repo_data)
  else if String.eqb metric "open_prs" then Some (open_prs_count repo_data)
  else if String.eqb metric "stars" then Some (stars_count repo_data)
  else if String.eqb metric "forks" then Some (forks_count repo_data)
  else if String.eqb metric "watchers" then Some (watchers_count repo_data)
  else if String.eqb metric "last_commit_age" then
    Some (or_default (last_commit_age_days repo_data) 9999)
  else None.

(** Lines 251-268: one pass of the inner loop. *)
Definition record_metric (metric : string) (table : Dict Z) (entry : Entry)
  : Dict Z :=
  match entry with
  | ErrorMarker _ _ _ => table
  | Fetched repo_data =>
      match metric_value metric repo_data with
      | Some v => dict_set table (owner repo_data ++ "/" ++ repo repo_data)%string v
      | None => table
      end
  end.

Definition metric_table (metric : string) (repo_data_list : list Entry) : Dict Z :=
  fold_left (record_metric metric) repo_data_list [].

(** Lines 249-268. *)
Definition build_metrics (metrics : option (list string))
  (repo_data_list : list Entry) : Dict (Dict Z) :=
  fold_left
    (fun comparison_metrics metric =>
       dict_set comparison_metrics metric (metric_table metric repo_data_list))
    (metrics_to_compare metrics) [].

(** The texts of the [ValueError] that [min] and [max] raise on an empty
    sequence, in the wording of CPython up to 3.11 (3.12 words them
    differently). *)
Definition MIN_EMPTY : string := "min() arg is an empty sequence".
Definition MAX_EMPTY : string := "max() arg is an empty sequence".

(** [min(values)] and [max(values)]: [ValueError] on an empty sequence. *)
Definition python_min (l : list Z) : Exception + Z :=
  match l with
  | [] => inl (ValueError MIN_EMPTY)
  | x :: l' => inr (fold_left Z.min l' x)
  end.

Definition python_max (l : list Z) : Exception + Z :=
  match l with
  | [] => inl (ValueError MAX_EMPTY)
  | x :: l' => inr (fold_left Z.max l' x)
  end.

(** The pattern of lines 275-279, 284-288 and 293-297:
    [best = min_or_max(table.values())], then
    [[k for k, v in table.items() if v == best][0] if table else None]. *)
Definition leader (min_or_max : list Z -> Exception + Z) (table : Dict Z)
  : Exception + option string :=
  best <- min_or_max (values table) ;;
  match table with
  | [] => inr None
  | _ :: _ =>
      match filter (fun kv => snd kv =? best) table with
      | kv :: _ => inr (Some (fst kv))
      | [] => inl IndexError
      end
  end.

(** One of the three [if "..." in comparison_metrics:] blocks. *)
Definition rank (comparison_metrics : Dict (Dict Z)) (metric : string)
  (min_or_max : list Z -> Exception + Z) (title : string)
  (summary : Dict (option string)) : Exception + Dict (option string) :=
  match dict_get comparison_metrics metric with
  | Some table =>
      winner <- leader min_or_max table ;; inr (dict_set summary title winner)
  | None => inr summary
  end.

(** Lines 270-298. *)
Definition build_summary (comparison_metrics : Dict (Dict Z))
  : Exception + Dict (option string) :=
  summary <- rank comparison_metrics "last_commit_age" python_min "most_active" [] ;;
  summary <- rank comparison_metrics "stars" python_max "most_popular" summary ;;
  rank comparison_metrics "forks" python_max "most_forked" summary.

Definition newline : string := String (ascii_of_nat 10) EmptyString.

(** A block of lines 330-352: a heading, one line per repository, a blank. *)
Definition metric_lines (comparison_metrics : Dict (Dict Z)) (metric : string)
  (heading : string) (show : Z -> string) : list string :=
  match dict_get comparison_metrics metric with
  | Some table =>
      [heading]
        ++ map (fun kv => ("  - " ++ fst kv ++ ": " ++ show (snd kv))%string) table
        ++ [""]
  | None => []
  end.

(** [f"{value}"] for a value of [summary]. *)
Definition show_winner (winner : option string) : string :=
  match winner with Some name => name | None => "None" end.

Definition summary_line (summary : Dict (option string)) (title : string)
  (label : string) : list string :=
  match dict_get summary title with
  | Some winner => [(label ++ show_winner winner)%string]
  | None => []
  end.

(** Lines 320-373: the human-readable text. *)
Definition format_text (X : Externals) (repo_names : list string)
  (comparison_date : Datetime) (comparison_metrics : Dict (Dict Z))
  (summary : Dict (option string)) : string :=
  String.concat newline
    (["📊 **Сравнение репозиториев**";
      "";
      ("Сравниваемые репозитории: " ++ String.concat ", " repo_names)%string;
      ("Дата сравнения: " ++ strftime X comparison_date)%string;
      ""]
       ++ metric_lines comparison_metrics "open_issues" "🔴 Открытые issues:" str_int
       ++ metric_lines comparison_metrics "open_prs" "🟡 Открытые PR:" str_int
       ++ metric_lines comparison_metrics "stars" "⭐ Звезды:" str_int
       ++ metric_lines comparison_metrics "forks" "🍴 Форки:" str_int
       ++ metric_lines comparison_metrics "last_commit_age"
            "📅 Возраст последнего коммита (дни):"
            (fun age => if age =? 9999 then "нет данных"
                        else (str_int age ++ " дней")%string)
       ++ match summary with
          | [] => []
          | _ :: _ =>
              ["📈 Сводка:"]
                ++ summary_line summary "most_active" "  🏃 Самый активный: "
                ++ summary_line summary "most_popular" "  ⭐ Самый популярный: "
                ++ summary_line summary "most_forked"
                     "  🍴 Наибольшее количество форков: "
          end).

(** The fields of the pydantic model [RepositoryComparison]. *)
Record RepositoryComparison := mkRepositoryComparison {
  repositories : list Repository;
  comparison_date : Datetime;
  metrics : Dict (Dict Z);
  summary : Dict (option string)
}.

Record Meta := mkMeta {
  meta_repositories : list string;
  operation : string;
  metrics_compared : list string
}.

(** [fastmcp.tools.tool.ToolResult]: the text of [content], the dumped model
    and [meta]. *)
Record ToolResult := mkToolResult {
  content : string;
  structured_content : RepositoryComparison;
  meta : Meta
}.

(** The [except] clauses (lines 391-409): a [ValueError] becomes the
    invalid-params [McpError], anything else goes to [handle_github_error]. *)
Definition on_exception (X : Externals) (log : list Effect) (e : Exception)
  : list Effect * (McpError + ToolResult) :=
  match e with
  | ValueError msg =>
      (log ++ [CtxValidationError msg],
       inl (mkMcpError (-32602) ("Ошибка валидации параметров: " ++ msg)%string))
  | _ => (log, inl (handle_github_error X e))
  end.

(** Lines 204-212: one task per repository, gathered in input order with
    [return_exceptions=True]. *)
Definition gather (X : Externals) (targets : list (string * string))
  : list (list Call * (Exception + RepoData)) :=
  map (fun target => fetch_repository_data X (fst target) (snd target)) targets.

(** [compare_repositories]. *)
Definition compare_repositories (X : Externals) (environ : Environ)
  (repositories : list Repository) (metrics : option (list string))
  : list Effect * (McpError + ToolResult) :=
  let repo_names := map repo_name repositories in
  let started := [CtxNote Starting; CtxProgress 0] in
  match validate environ repositories with
  | inl e => on_exception X started e
  | inr targets =>
      let tasks := gather X targets in
      let collected := collect X targets (map snd tasks) in
      let repo_data_list := snd collected in
      let log :=
        started
          ++ [CtxNote (Preparing (List.length repositories)); CtxProgress 10;
              CtxNote Sending; CtxProgress 20]
          ++ [Gathered (map fst tasks)]
          ++ [CtxProgress 70]
          ++ fst collected
          ++ [CtxProgress 80; CtxNote Analysing] in
      let comparison_metrics := build_metrics metrics repo_data_list in
      match build_summary comparison_metrics with
      | inl e => on_exception X log e
      | inr summary =>
          (log ++ [CtxProgress 95; CtxProgress 100; CtxNote Completed],
           inr {| content :=
                    format_text X repo_names (now X) comparison_metrics summary;
                  structured_content :=
                    {| repositories := repositories;
                       comparison_date := now X;
                       metrics := comparison_metrics;
                       summary := summary |};
                  meta :=
                    {| meta_repositories := repo_names;
                       operation := "compare_repositories";
                       metrics_compared := keys comparison_metrics |} |})
      end
  end.

End Comparison.

(* ================================================================= *)
(** ** Sample upstreams for the comparison scenarios *)

Module Sample.
Import Comparison.

Definition DAY : Z := MICROSECONDS_PER_DAY.

(** A clock that reads 2024-02-01T00:00:00Z, day 31 of the year. *)
Definition today : Datetime := 31 * DAY.

(** The few timestamps the scenarios use. *)
Definition sample_fromisoformat (s : string) : option Datetime :=
  if String.eqb s "2024-02-01T00:00:00+00:00" then Some (31 * DAY)
  else if String.eqb s "2024-01-30T00:00:00+00:00" then Some (29 * DAY)
  else if String.eqb s "2024-01-27T00:00:00+00:00" then Some (26 * DAY)
  else if String.eqb s "2024-01-02T00:00:00+00:00" then Some (1 * DAY)
  else None.

Definition sample_str (e : Exception) : string :=
  match e with
  | HTTPStatusError (Some r) =>
      ("HTTP status " ++ str_int (status_code r))%string
  | HTTPStatusError None => "All retries exhausted"
  | TimeoutException => "timed out"
  | NetworkError => "network error"
  | ValueError msg => msg
  | IndexError => "list index out of range"
  | AttributeError => "'NoneType' object has no attribute 'isoformat'"
  | OtherException name => name
  end.

(** Answers of [retry_github_request] by URL; a URL that is not listed
    fails with a network error. *)
Definition sample_externals (answers : Dict Outcome) : Externals :=
  {| retry_github_request :=
       fun c => match dict_get answers (url c) with
                | Some o => o
                | None => Raises NetworkError
                end;
     handle_github_error := fun e => mkMcpError (-32603) (sample_str e);
     fromisoformat := sample_fromisoformat;
     isoformat := str_int;
     strftime := str_int;
     str := sample_str;
     now := today |}.

Definition repo_response (stars forks : Z) : Outcome :=
  Returns (mkResponse 200 (Some 4000)
             (Payload.JRepo
                (Payload.mkRepoJson (Some 12) (Some stars) (Some forks) (Some 3)
                   (Some "Python") (Some false) (Some false) None))).

Definition search_response (count : Z) : Outcome :=
  Returns (mkResponse 200 (Some 29)
             (Payload.JSearch (Payload.mkSearchJson (Some count)))).

Definition commits_response (date : string) : Outcome :=
  Returns (mkResponse 200 (Some 3999)
             (Payload.JCommits [Payload.mkCommitJson (Some date)])).

Definition not_found : Outcome :=
  Raises (HTTPStatusError (Some (mkResponse 404 (Some 3998) Payload.JOther))).

Definition with_token : Environ :=
  fun var => if String.eqb var "GITHUB_TOKEN" then Some "token" else None.

Definition target (owner repo : string) : Repository :=
  mkRepository (Some owner) (Some repo).

(** Target 1 has 100 stars and a commit 2 days old, target 2 has 500 stars
    and a commit 30 days old. *)
Definition scenario_two_targets : Externals :=
  sample_externals
    [("/repos/org/one", repo_response 100 10);
     ("/repos/org/one/commits", commits_response "2024-01-30T00:00:00Z");
     ("/repos/org/two", repo_response 500 40);
     ("/repos/org/two/commits", commits_response "2024-01-02T00:00:00Z");
     ("/search/issues", search_response 2)].

(** Target 1 was committed to today, target 2 five days ago. *)
Definition scenario_commit_today : Externals :=
  sample_externals
    [("/repos/org/one", repo_response 100 10);
     ("/repos/org/one/commits", commits_response "2024-02-01T00:00:00Z");
     ("/repos/org/two", repo_response 100 10);
     ("/repos/org/two/commits", commits_response "2024-01-27T00:00:00Z");
     ("/search/issues", search_response 2)].

(** Every metadata call answers 404. *)
Definition scenario_all_fail : Externals :=
  sample_externals
    [("/repos/org/one", not_found); ("/repos/org/two", not_found)].

(** Target A fails, with the given outcome of its metadata call; B and C
    succeed. *)
Definition scenario_partial (failure : Outcome) : Externals :=
  sample_externals
    [("/repos/org/a", failure);
     ("/repos/org/b", repo_response 100 10);
     ("/repos/org/b/commits", commits_response "2024-01-30T00:00:00Z");
     ("/repos/org/c", repo_response 500 40);
     ("/repos/org/c/commits", commits_response "2024-01-02T00:00:00Z");
     ("/search/issues", search_response 2)].

Definition three_targets : list Repository :=
  [target "org" "a"; target "org" "b"; target "org" "c"].

Definition two_targets : list Repository :=
  [target "org" "one"; target "org" "two"].

(** The metadata call succeeds; the search and the commits calls fail. *)
Definition scenario_sub_calls_fail : Externals :=
  sample_externals [("/repos/org/one", repo_response 100 10)].

(** A 2xx metadata answer with the given value of ["pushed_at"]. *)
Definition pushed_response (pushed : string) : Outcome :=
  Returns (mkResponse 200 (Some 4000)
             (Payload.JRepo
                (Payload.mkRepoJson (Some 12) (Some 100) (Some 10) (Some 3)
                   (Some "Python") (Some false) (Some false) (Some pushed)))).

(** The three calls of target 1 return; its ["pushed_at"] is no ISO
    timestamp. *)
Definition scenario_unparsed_push : Externals :=
  sample_externals
    [("/repos/org/one", pushed_response "yesterday");
     ("/repos/org/one/commits", commits_response "2024-01-30T00:00:00Z");
     ("/search/issues", search_response 2)].

(** The metadata call of target 1 returns a 2xx page that is not JSON. *)
Definition scenario_not_json : Externals :=
  sample_externals
    [("/repos/org/one",
      Returns (mkResponse 200 None
                 (Payload.JInvalid "Expecting value: line 1 column 1 (char 0)")));
     ("/repos/org/one/commits", commits_response "2024-01-30T00:00:00Z");
     ("/search/issues", search_response 2)].

End Sample.

(* ================================================================= *)
(** ** Observations on traces *)

Definition is_notice (e : Event) : bool :=
  match e with CtxInfo _ => true | _ => false end.

(** The trace without the [ctx.info] notifications. *)
Definition effects (tr : Trace) : Trace :=
  filter (fun e => negb (is_notice e)) tr.

(** The attempts at which an HTTP request was sent. *)
Fixpoint requests (tr : Trace) : list Z :=
  match tr with
  | [] => []
  | Request a :: tr' => a :: requests tr'
  | _ :: tr' => requests tr'
  end.

(** The delays slept, in order. *)
Fixpoint sleeps (tr : Trace) : list Z :=
  match tr with
  | [] => []
  | Sleep d :: tr' => d :: sleeps tr'
  | _ :: tr' => sleeps tr'
  end.

(** [k] attempts from attempt [a] on, each followed by its backoff delay. *)
Fixpoint retried (a : Z) (k : nat) : Trace :=
  match k with
  | O => []
  | S k' =>
      Acquire :: Request a :: Sleep (RETRY_DELAY_BASE * 2 ^ a)
        :: retried (a + 1) k'
  end.

(** The status of a reply, when it is a response. *)
Definition status_of (reply : Reply) : option Z :=
  match reply with
  | Responds response => Some (status_code response)
  | _ => None
  end.

(** A reply after which an attempt that is not the last one is retried. *)
Definition transient (reply : Reply) : Prop :=
  match reply with
  | Responds response => retryable (status_code response) = true
  | TimesOut | NetworkFails => True
  | Fails _ => False
  end.

(** The exception that a failed request raises inside the [try]: a timeout
    or a network failure. *)
Definition exception_of (reply : Reply) : option Exception :=
  match reply with
  | TimesOut => Some TimeoutException
  | NetworkFails => Some NetworkError
  | Responds _ | Fails _ => None
  end.

(** [transient], as a test. *)
Definition transientb (reply : Reply) : bool :=
  match reply with
  | Responds response => retryable (status_code response)
  | TimesOut | NetworkFails => true
  | Fails _ => false
  end.

(** The attempt [a] of a call with budget [N] is followed by another one:
    its reply is a transient failure, it is not the last attempt, and the
    delay that follows it is a float. *)
Definition goes_on (request : Z -> Reply) (N a : Z) : bool :=
  transientb (request a) && (a <? N - 1) && (a <? FLOAT_MAX_EXP).

(** What the reply to the deciding attempt makes of the call. *)
Definition verdict (reply : Reply) : Outcome :=
  match reply with
  | Responds response =>
      if is_success (status_code response) then Returns response
      else Raises (HTTPStatusError (Some response))
  | TimesOut => Raises TimeoutException
  | NetworkFails => Raises NetworkError
  | Fails name => Raises (OtherException name)
  end.

(** The outcome of a call that ends at attempt [a]: the verdict on the
    reply, or [OverflowError] when the attempt was to be retried and its
    delay is no float. *)
Definition outcome_at (request : Z -> Reply) (N a : Z) : Outcome :=
  if transientb (request a) && (a <? N - 1) then Raises OverflowError
  else verdict (request a).

(** A body retries at attempt [i]: whatever exception was captured before,
    it sends the request, sleeps the backoff delay and goes on. *)
Definition retries_at (body : Z -> option Exception -> Trace * Step)
  (i : Z) : Prop :=
  forall le,
    (exists le', snd (body i le) = Continue le') /\
    effects (fst (body i le))
      = [Acquire; Request i; Sleep (RETRY_DELAY_BASE * 2 ^ i)].

(** A body ends the call at attempt [i] with outcome [o], after the request. *)
Definition ends_at (body : Z -> option Exception -> Trace * Step)
  (i : Z) (o : Outcome) : Prop :=
  forall le,
    snd (body i le) = Done o /\
    effects (fst (body i le)) = [Acquire; Request i].

(** The two implementations, seen from outside. *)
Definition Primitive := (Z -> Reply) -> option Context -> Z -> Trace * Outcome.

(** The call sent attempts [0..k], slept [RETRY_DELAY_BASE * 2 ^ i] after
    each attempt [i < k] and nowhere else, and ended with [o] right after
    attempt [k]. *)
Definition ran (f : Primitive) (request : Z -> Reply) (ctx : option Context)
  (N k : Z) (o : Outcome) : Prop :=
  snd (f request ctx N) = o /\
  effects (fst (f request ctx N))
    = retried 0 (Z.to_nat k) ++ [Acquire; Request k] /\
  requests (fst (f request ctx N)) = range (k + 1) /\
  sleeps (fst (f request ctx N))
    = map (fun i => RETRY_DELAY_BASE * 2 ^ i) (range k).

(** The upstream of the scenario: 503, 503, then 200. *)
Definition flaky_upstream (attempt : Z) : Reply :=
  if attempt <? 2 then Responds (mkResponse 503 None Payload.JOther)
  else Responds (mkResponse 200 (Some 4999) Payload.JOther).

(** An upstream that answers 503 to every attempt. *)
Definition unavailable_upstream (attempt : Z) : Reply :=
  Responds (mkResponse 503 None Payload.JOther).

(** An upstream that does not know the resource. *)
Definition missing_upstream (attempt : Z) : Reply :=
  Responds (mkResponse 404 (Some 57) Payload.JOther).




(** The context returned from every notification of the trace. *)
Definition accepts (sink : Sink) (tr : Trace) : Prop :=
  forall n, In (CtxInfo n) tr -> sink n = None.

(** A context that raises on the quota advisory alone. *)
Definition quota_deaf : Sink :=
  fun n =>
    match n with
    | LowQuota _ => Some (OtherException "ClosedResourceError")
    | _ => None
    end.

(** A context whose channel is closed: every notification raises. *)
Definition closed : Sink :=
  fun _ => Some (OtherException "ClosedResourceError").

(** Two loop bodies that agree, at every attempt, on the step taken and on
    the effects other than notifications. *)
Definition same_control (b1 b2 : Z -> option Exception -> Trace * Step) : Prop :=
  forall a le,
    snd (b1 a le) = snd (b2 a le) /\
    effects (fst (b1 a le)) = effects (fst (b2 a le)).

(** Every request is sent right after the rate limiter was entered: the
    check accepts a trace in which each [Request] follows an [Acquire]. *)
Fixpoint permits_precede_requests (tr : Trace) : bool :=
  match tr with
  | [] => true
  | Acquire :: Request _ :: tr' => permits_precede_requests tr'
  | Request _ :: _ => false
  | _ :: tr' => permits_precede_requests tr'
  end.

(** Notifications and sleeps only. *)
Definition quiet (tr : Trace) : bool :=
  forallb (fun e => match e with
                    | CtxInfo _ | Sleep _ => true
                    | _ => false
                    end) tr.

(** A loop body that enters the limiter, sends its request and then only
    notifies and sleeps. *)
Definition limited (body : Z -> option Exception -> Trace * Step) : Prop :=
  forall a le,
    exists rest,
      fst (body a le) = Acquire :: Request a :: rest /\ quiet rest = true.

(* ================================================================= *)
(** ** Proof automation for the loop bodies *)

(** The definitions that a pass of a loop body is made of. *)
Ltac unfold_body :=
  unfold Server1.body, Server6.body, Server1.body_on, Server6.body_on,
    try_except, Server1.try_block, Server6.try_block, Server1.handlers,
    Server6.handlers, Server1.on_status_error, Server6.on_status_error,
    Server1.on_transport_error, Server6.on_transport_error,
    Server1.check_rate_limit, Server6.check_rate_limit, Server1.finish,
    Server6.finish, back_off, in_handler, notify, backoff, raise_for_status,
    after, reliable, OverflowError.

(** Decides, innermost first, the tests that a pass of a loop body makes:
    the quota header, [ctx], the comparisons, the status classes and the
    answers of the context. *)
Ltac decide_tests :=
  cbn [fst snd app andb truthy] in *;
  repeat (match goal with
          | |- context [rate_limit_remaining ?r] =>
              destruct (rate_limit_remaining r) eqn:?
          | |- context [truthy ?c] => is_var c; destruct c as [[]|]
          | |- context [?x <? ?y] => destruct (x <? y) eqn:?
          | |- context [retryable ?s] => destruct (retryable s) eqn:?
          | |- context [is_success ?s] => destruct (is_success s) eqn:?
          | sink : Sink |- context [?f ?n] =>
              constr_eq f sink; destruct (sink n) eqn:?
          | |- context [match ?e with HTTPStatusError _ => _ | _ => _ end] =>
              is_var e; destruct e as [[?|]| | |?| | |?]
          end;
          try match goal with
              | H : true = false |- _ => discriminate H
              | H : false = true |- _ => discriminate H
              end;
          cbn [fst snd app andb truthy] in *).

(** Unfolds one pass of a loop body on a known reply and decides the
    remaining tests. *)
Ltac run_body Hreq :=
  unfold retries_at, ends_at; unfold_body;
  intros ?le;
  rewrite Hreq;
  repeat match goal with
         | H : ?l = ?b |- _ =>
             match b with true => idtac | false => idtac end;
             match l with true => fail 1 | false => fail 1 | _ => idtac end;
             rewrite H
         end;
  decide_tests;
  first [ split; reflexivity
        | split; [eexists; reflexivity|reflexivity] ].

(** Decides every test of a loop body by cases. *)
Ltac body_cases :=
  unfold_body;
  repeat match goal with
         | |- context [match ?x with Responds _ => _ | _ => _ end] =>
             destruct x eqn:?
         end;
  decide_tests.

(** Closes a case in which the context raised on a notification that the
    trace shows as accepted. *)
Ltac refused H :=
  exfalso;
  match goal with
  | Hs : ?sink ?n = Some _ |- _ =>
      rewrite (H n) in Hs by (cbn [In]; auto 12); discriminate Hs
  end.

(* ================================================================= *)
(** ** Observations on a comparison *)

Module ComparisonSpec.
Import Comparison.

(** The key under which a fetched repository is recorded in a metric table. *)
Definition key_of (d : RepoData) : string :=
  (owner d ++ "/" ++ repo d)%string.

(** The dictionaries of the targets that were fetched, in input order. *)
Definition fetched (entries : list Entry) : list RepoData :=
  flat_map (fun entry => match entry with
                         | Fetched d => [d]
                         | ErrorMarker _ _ _ => []
                         end) entries.

(** The list [repo_data_list] that [compare_repositories] builds for the
    validated targets. *)
Definition repo_data_list (X : Externals) (targets : list (string * string))
  : list Entry :=
  snd (collect X targets (map snd (gather X targets))).

(** The entry of one target: its dictionary, or its error marker. *)
Definition entry_of (X : Externals) (target : string * string) : Entry :=
  snd (collect_one X target
         (snd (fetch_repository_data X (fst target) (snd target)))).

(** The metadata answer can be turned into a dictionary: its body is a JSON
    object whose [pushed_at] is absent, empty or a timestamp that parses. *)
Definition usable_metadata (X : Externals) (response : Response) : Prop :=
  exists d pushed,
    repo_fields (json response) = Some d /\
    fetch_pushed_at X (Payload.pushed_at d) = inr pushed.

(** The body of the metadata answer is JSON. *)
Definition decodes (response : Response) : Prop :=
  forall error, json response <> Payload.JInvalid error.

(** The key [key] is absent from every metric table of the result. *)
Definition no_slot (res : ToolResult) (key : string) : bool :=
  forallb (fun table => negb (existsb (String.eqb key) (keys (snd table))))
    (metrics (structured_content res)).

(** The winners recorded in a summary are keys of the tables compared. *)
Definition winners_from (cm : Dict (Dict Z)) (s : Dict (option string)) : Prop :=
  forall title w,
    In (title, w) s ->
    exists metric table k,
      dict_get cm metric = Some table /\ w = Some k /\ In k (keys table).

End ComparisonSpec.

(* ================================================================= *)
(** ** Further observations on the retry loop *)

(** The number of times the rate limiter was entered. *)
Fixpoint permits (tr : Trace) : nat :=
  match tr with
  | [] => O
  | Acquire :: tr' => S (permits tr')
  | _ :: tr' => permits tr'
  end.

(** The sum of a list of delays. *)
Definition total (delays : list Z) : Z := fold_right Z.add 0 delays.

(* ================================================================= *)
(** ** mcp-server-1/tools/utils.py: [retry_request] *)

(** The older helper of the same file (lines 112-207).  Its budget is the
    constant [MAX_RETRIES], it has no quota advisory, and the whole body of
    the [try] stands inside [async with GITHUB_RATE_LIMITER].  Its three
    notifications are formatted from the same data as those of
    [retry_github_request] at the same places, in other words; they are
    recorded with the same constructors. *)
Module RetryRequest.

(** Lines 162-164: [response.raise_for_status(); return response]. *)
Definition finish (response : Response) : Trace * (Exception + Step) :=
  match raise_for_status response with
  | Some e => ([], inl e)
  | None => ([], inr (Done (Returns response)))
  end.

(** The [try] block (lines 138-164). *)
Definition try_block (sink : Sink) (request : Z -> Reply) (ctx : option Context)
  (attempt : Z) (last_exception : option Exception)
  : Trace * (Exception + Step) :=
  after [Acquire; Request attempt]
    match request attempt with
    | Responds response =>
        if retryable (status_code response) then
          if attempt <? MAX_RETRIES - 1 then
            back_off sink ctx attempt
              (RetryStatus (status_code response) (attempt + 1) MAX_RETRIES)
              last_exception
          else
            match raise_for_status response with
            | Some e => ([], inl e)
            | None => finish response
            end
        else finish response
    | TimesOut => ([], inl TimeoutException)
    | NetworkFails => ([], inl NetworkError)
    | Fails name => ([], inl (OtherException name))
    end.

(** [except httpx.HTTPStatusError as e] (lines 166-184), with
    [status_code = e.response.status_code if e.response else 0]. *)
Definition on_status_error (sink : Sink) (ctx : option Context) (attempt : Z)
  (response : option Response) : Trace * Step :=
  let e := HTTPStatusError response in
  let status := match response with Some r => status_code r | None => 0 end in
  if retryable status && (attempt <? MAX_RETRIES - 1) then
    in_handler
      (back_off sink ctx attempt (RetryHttpError status (attempt + 1) MAX_RETRIES)
         (Some e))
  else ([], Done (Raises e)).

(** [except (httpx.TimeoutException, httpx.NetworkError) as e] (lines 186-201). *)
Definition on_transport_error (sink : Sink) (ctx : option Context) (attempt : Z)
  (e : Exception) : Trace * Step :=
  if attempt <? MAX_RETRIES - 1 then
    in_handler
      (back_off sink ctx attempt (RetryNetworkError (attempt + 1) MAX_RETRIES)
         (Some e))
  else ([], Done (Raises e)).

(** The [except] clauses; any other exception leaves the function. *)
Definition handlers (sink : Sink) (ctx : option Context) (attempt : Z)
  (e : Exception) : Trace * Step :=
  match e with
  | HTTPStatusError response => on_status_error sink ctx attempt response
  | TimeoutException | NetworkError => on_transport_error sink ctx attempt e
  | _ => ([], Done (Raises e))
  end.

(** The body of the loop (lines 138-201). *)
Definition body_on (sink : Sink) (request : Z -> Reply) (ctx : option Context)
  (attempt : Z) (last_exception : option Exception) : Trace * Step :=
  try_except (try_block sink request ctx attempt last_exception)
    (handlers sink ctx attempt).

Definition retry_loop_on (sink : Sink) (request : Z -> Reply)
  (ctx : option Context) : Trace * LoopExit :=
  for_attempts (body_on sink request ctx) (range MAX_RETRIES) None.


(** The same with a context that accepts every notification. *)
Definition body : (Z -> Reply) -> option Context -> Z -> option Exception ->
                  Trace * Step :=
  body_on reliable.

Definition retry_loop : (Z -> Reply) -> option Context -> Trace * LoopExit :=
  retry_loop_on reliable.


End RetryRequest.

(* ================================================================= *)
(** ** The error helpers of the two [utils.py] *)

(** What the helpers read of their arguments and this file does not define:
    [response.text], [str(error)], and the slice [s[:n]] of a [str], which
    is taken by characters. *)
Record Reading := mkReading {
  text_of : Response -> string;
  str_of : Exception -> string;
  slice : nat -> string -> string
}.

(** [error.response.status_code if error.response else 0]. *)
Definition status_or_zero (response : option Response) : Z :=
  match response with Some r => status_code r | None => 0 end.

(* ----------------------------------------------------------------- *)
(** *** mcp-server-1/tools/utils.py *)

Module Errors1.

(** [format_api_error] (lines 59-81). *)
Definition format_api_error (R : Reading) (response_text : string)
  (status_code : Z) : string :=
  if status_code =? 401 then "Ошибка аутентификации. Проверьте GITHUB_TOKEN."
  else if status_code =? 403 then
    "Доступ запрещен. Проверьте права доступа токена GitHub."
  else if status_code =? 404 then
    "Ресурс не найден. Проверьте правильность owner и repo."
  else if status_code =? 429 then
    "Превышен лимит запросов к GitHub API. Попробуйте позже."
  else if 500 <=? status_code then
    ("Ошибка сервера GitHub API (код " ++ Comparison.str_int status_code ++ ").")%string
  else ("Ошибка API: " ++ slice R 200 response_text)%string.

(** Lines 329-341: the MCP code for an HTTP status. *)
Definition error_code (status_code : Z) : Z :=
  if status_code =? 400 then -32602
  else if status_code =? 401 then -32602
  else if status_code =? 403 then -32602
  else if status_code =? 404 then -32602
  else if status_code =? 429 then -32603
  else -32603.

(** [if ctx: await ctx.error(message)]. *)
Definition report (ctx : option Context) (message : string) : list string :=
  if truthy ctx then [message] else [].

(** [handle_github_error] (lines 304-379): the texts given to [ctx.error]
    and the [McpError] raised. *)
Definition handle_github_error (R : Reading) (error : Exception)
  (ctx : option Context) (operation : string)
  : list string * Comparison.McpError :=
  match error with
  | HTTPStatusError response =>
      let status_code := status_or_zero response in
      let response_text :=
        match response with Some r => text_of R r | None => "" end in
      let error_message := format_api_error R response_text status_code in
      (report ctx ("❌ HTTP ошибка при " ++ operation ++ ": " ++ error_message)%string,
       Comparison.mkMcpError (error_code status_code)
         ("Не удалось выполнить " ++ operation ++ "." ++ Comparison.newline
            ++ Comparison.newline ++ error_message)%string)
  | TimeoutException =>
      let error_message :=
        ("Таймаут при выполнении " ++ operation
           ++ ". GitHub API не ответил вовремя.")%string in
      (report ctx ("⏱️ " ++ error_message)%string,
       Comparison.mkMcpError (-32603) error_message)
  | NetworkError =>
      let error_message :=
        ("Сетевая ошибка при выполнении " ++ operation
           ++ ". Проверьте подключение к интернету.")%string in
      (report ctx ("🌐 " ++ error_message)%string,
       Comparison.mkMcpError (-32603) error_message)
  | _ =>
      let error_message :=
        ("Неожиданная ошибка при выполнении " ++ operation ++ ": "
           ++ str_of R error)%string in
      (report ctx ("💥 " ++ error_message)%string,
       Comparison.mkMcpError (-32603) error_message)
  end.

End Errors1.

(* ----------------------------------------------------------------- *)
(** *** mcp-server-6/tools/utils.py *)

Module Errors6.

(** Lines 126-135: the message for an HTTP status. *)
Definition status_message (status_code : Z) (operation : string) : string :=
  if status_code =? 404 then
    ("Репозиторий или ресурс не найден при " ++ operation)%string
  else if status_code =? 403 then
    ("Доступ запрещен при " ++ operation
       ++ ". Проверьте GITHUB_TOKEN и права доступа")%string
  else if status_code =? 401 then
    ("Ошибка аутентификации при " ++ operation ++ ". Проверьте GITHUB_TOKEN")%string
  else if status_code =? 429 then
    ("Превышен лимит запросов к GitHub API при " ++ operation
       ++ ". Подождите и попробуйте позже")%string
  else
    ("HTTP ошибка " ++ Comparison.str_int status_code ++ " при " ++ operation)%string.

(** [handle_github_error] (lines 119-174). *)
Definition handle_github_error (R : Reading) (e : Exception)
  (ctx : option Context) (operation : string)
  : list string * Comparison.McpError :=
  match e with
  | HTTPStatusError response =>
      let error_message := status_message (status_or_zero response) operation in
      (Errors1.report ctx
         ("❌ HTTP ошибка при " ++ operation ++ ": " ++ error_message)%string,
       Comparison.mkMcpError (-32603) error_message)
  | TimeoutException =>
      let error_message :=
        ("Таймаут при " ++ operation ++ ". GitHub API не ответил вовремя")%string in
      (Errors1.report ctx ("⏱️ " ++ error_message)%string,
       Comparison.mkMcpError (-32603) error_message)
  | NetworkError =>
      let error_message :=
        ("Сетевая ошибка при " ++ operation
           ++ ". Проверьте подключение к интернету")%string in
      (Errors1.report ctx ("🌐 " ++ error_message)%string,
       Comparison.mkMcpError (-32603) error_message)
  | _ =>
      let error_message := str_of R e in
      (Errors1.report ctx
         ("💥 Неожиданная ошибка при " ++ operation ++ ": " ++ error_message)%string,
       Comparison.mkMcpError (-32603)
         ("Неожиданная ошибка: " ++ error_message)%string)
  end.

End Errors6.

(** The statuses that [handle_github_error] of [mcp-server-1] reports as
    invalid parameters. *)
Definition caller_fault (status_code : Z) : bool :=
  (status_code =? 400) || (status_code =? 401) || (status_code =? 403)
  || (status_code =? 404).

(** The statuses whose message [format_api_error] takes from a fixed text. *)
Definition fixed_message (status_code : Z) : bool :=
  (status_code =? 401) || (status_code =? 403) || (status_code =? 404)
  || (status_code =? 429) || (500 <=? status_code).

(** The character [Z]. *)
Definition is_Z (c : ascii) : bool := Ascii.eqb c "Z"%char.

(** A string without the character [Z]. *)
Fixpoint free_of_Z (s : string) : bool :=
  match s with
  | EmptyString => true
  | String c s' => negb (is_Z c) && free_of_Z s'
  end.

(* ================================================================= *)
(** ** Further observations on the comparison tool *)

Module ComparisonObs.
Import Comparison.

(** [os.getenv(var) is None]. *)
Definition unset (environ : Environ) (var : string) : bool :=
  match environ var with None => true | Some _ => false end.

(** [key in keys]. *)
Definition mem (key : string) (l : list string) : bool :=
  existsb (String.eqb key) l.

(** The distinct elements of a list, each at its first occurrence. *)
Definition first_occurrences (l : list string) : list string :=
  fold_left (fun seen key => if mem key seen then seen else seen ++ [key]) l [].

(** The metrics that [compare_repositories] ranks, with the title of each
    ranking in [summary] (lines 270-298). *)
Definition RANKINGS : list (string * string) :=
  [("last_commit_age", "most_active"); ("stars", "most_popular");
   ("forks", "most_forked")].

(** Some ranked metric is among the metrics compared. *)
Definition ranking_requested (metrics : option (list string)) : bool :=
  existsb (fun ranking => mem (fst ranking) (metrics_to_compare metrics)) RANKINGS.

(** The values given to [ctx.report_progress]. *)
Fixpoint progress_of (log : list Effect) : list Z :=
  match log with
  | [] => []
  | CtxProgress p :: log' => p :: progress_of log'
  | _ :: log' => progress_of log'
  end.

(** The [gather]s among the effects: for each one, the calls of its tasks. *)
Fixpoint gathers (log : list Effect) : list (list (list Call)) :=
  match log with
  | [] => []
  | Gathered tasks :: log' => tasks :: gathers log'
  | _ :: log' => gathers log'
  end.

(** Both keys that the tool reads are present in an element of
    [repositories]. *)
Definition has_keys (r : Repository) : bool :=
  match owner_key r, repo_key r with
  | Some _, Some _ => true
  | _, _ => false
  end.

(** The dictionary fetched last under the key [key], if any. *)
Definition last_fetched (key : string) (entries : list Entry) : option RepoData :=
  find (fun d => String.eqb (owner d ++ "/" ++ repo d)%string key)
       (rev (ComparisonSpec.fetched entries)).

End ComparisonObs.

(* ================================================================= *)
(** ** The tools that call the helpers *)

(** What a tool does besides computing, in the order in which it does it:
    [ctx.info], [ctx.report_progress], the events of a call of
    [retry_github_request], a request sent with [client.get] outside
    [retry_github_request], and [ctx.error]. *)
Module Tool.

Inductive Effect :=
| Note (text : string)
| Progress (progress : Z)
| Upstream (c : Comparison.Call) (e : Event)
| Direct (c : Comparison.Call)
| ErrorNote (text : string).

(** The events of [retry_github_request] among the effects. *)
Fixpoint upstream (log : list Effect) : Trace :=
  match log with
  | [] => []
  | Upstream _ e :: log' => e :: upstream log'
  | _ :: log' => upstream log'
  end.

(** The values given to [ctx.report_progress]. *)
Fixpoint progress_of (log : list Effect) : list Z :=
  match log with
  | [] => []
  | Progress p :: log' => p :: progress_of log'
  | _ :: log' => progress_of log'
  end.

(** The requests sent outside [retry_github_request]. *)
Fixpoint direct (log : list Effect) : list Comparison.Call :=
  match log with
  | [] => []
  | Direct c :: log' => c :: direct log'
  | _ :: log' => direct log'
  end.

End Tool.

(* ================================================================= *)
(** ** mcp-server-6/tools/version_comparison.py *)

(** [compare_release_versions], a caller of [retry_github_request] and
    [handle_github_error] of [mcp-server-6/tools/utils.py].  [ctx] is the
    context that the server passes to the tool: it is present, the tool
    calls [ctx.info] before anything else.  The tracing span records
    attributes and changes nothing. *)
Module VersionComparison.
Import Tool.

(** A release object of the GitHub API, by the key the tool reads. *)
Record Release := mkRelease {
  tag_name : option string
}.

(** What the tool uses and this file does not define: the environment, the
    HTTP client (the reply to each attempt at a call), [response.json()] of
    the releases endpoint, which may raise, and the readings of the error
    helper. *)
Record World := mkWorld {
  environ : Comparison.Environ;
  client : Comparison.Call -> Z -> Reply;
  releases_json : Response -> Exception + list Release;
  reading : Reading
}.

(** The dictionary [structured_content]. *)
Record Versions := mkVersions {
  repository : string;
  version1 : option string;
  version2 : option string;
  comparison_available : bool
}.

(** The [ToolResult]: the text of [content], [structured_content] and
    [meta]. *)
Record Result := mkResult {
  content : string;
  structured_content : Versions;
  meta_owner : string;
  meta_repo : string;
  operation : string
}.

(** [bool(version)] for an optional [str]. *)
Definition given (version : option string) : bool :=
  match version with
  | Some s => negb (String.eqb s "")
  | None => false
  end.

(** [if not version and <release is there>: version = release.get("tag_name", "")]. *)
Definition or_tag_of (version : option string) (release : option Release)
  : option string :=
  if negb (given version) then
    match release with
    | Some r => Some (Comparison.get (tag_name r) "")
    | None => version
    end
  else version.

(** [f"{version}"] for a version that is given. *)
Definition show (version : option string) : string :=
  match version with Some s => s | None => "None" end.

(** The call for the list of releases (lines 94-99). *)
Definition releases_call (owner repo : string) : Comparison.Call :=
  Comparison.mkCall "GET" ("/repos/" ++ owner ++ "/" ++ repo ++ "/releases")%string
    [("per_page", "10")].

(** Lines 112-125: the text of the result. *)
Definition result_text (owner repo : string) (releases : list Release)
  (version1 version2 : option string) : string :=
  (("📊 Сравнение версий для " ++ owner ++ "/" ++ repo ++ Comparison.newline
      ++ Comparison.newline)
   ++ (if given version1 && given version2 then
         "📋 Сравниваемые версии:" ++ Comparison.newline
         ++ "  - Версия 1: " ++ show version1 ++ Comparison.newline
         ++ "  - Версия 2: " ++ show version2 ++ Comparison.newline
         ++ Comparison.newline ++ "💡 Анализ изменений:" ++ Comparison.newline
         ++ "  - Рекомендуется проверить changelog между версиями"
         ++ Comparison.newline
         ++ "  - Проверьте breaking changes в документации" ++ Comparison.newline
       else
         "⚠️ Недостаточно релизов для сравнения" ++ Comparison.newline
         ++ match releases with
            | latest :: _ =>
                "  - Найдено релизов: "
                ++ Comparison.str_int (Z.of_nat (List.length releases))
                ++ Comparison.newline
                ++ "  - Последний релиз: "
                ++ Comparison.get (tag_name latest) "N/A" ++ Comparison.newline
            | [] => ""
            end))%string.

(** [except Exception as e: await handle_github_error(e, ctx, ...)]
    (lines 148-150). *)
Definition on_exception (W : World) (owner repo : string) (log : list Effect)
  (e : Exception) : list Effect * (Comparison.McpError + Result) :=
  let handled :=
    Errors6.handle_github_error (reading W) e (Some TheContext)
      ("сравнении версий релизов " ++ owner ++ "/" ++ repo)%string in
  (log ++ map ErrorNote (fst handled), inl (snd handled)).

(** [compare_release_versions]. *)
Definition compare_release_versions (W : World) (owner repo : string)
  (version1 version2 : option string)
  : list Effect * (Comparison.McpError + Result) :=
  let started := [Note "🚀 Начинаем сравнение версий релизов"; Progress 0] in
  match Comparison._require_env_vars (environ W) ["GITHUB_TOKEN"] with
  | inl e => on_exception W owner repo started e
  | inr _ =>
      let answer :=
        Server6.retry_github_request (client W (releases_call owner repo))
          (Some TheContext) MAX_RETRIES in
      let log :=
        started
          ++ [Progress 10;
              Note ("🔧 Подготавливаем запрос для " ++ owner ++ "/" ++ repo)%string;
              Progress 20;
              Note "📡 Отправляем запросы к GitHub API";
              Progress 30]
          ++ map (Upstream (releases_call owner repo)) (fst answer) in
      match snd answer with
      | Raises e => on_exception W owner repo log e
      | Returns response =>
          match releases_json W response with
          | inl e => on_exception W owner repo log e
          | inr releases =>
              let version1 := or_tag_of version1 (nth_error releases 0) in
              let version2 := or_tag_of version2 (nth_error releases 1) in
              (log ++ [Progress 60; Note "📄 Обрабатываем полученные результаты";
                       Progress 95;
                       Note "✅ Сравнение версий успешно выполнено";
                       Progress 100],
               inr {| content := result_text owner repo releases version1 version2;
                      structured_content :=
                        {| repository := (owner ++ "/" ++ repo)%string;
                           version1 := version1;
                           version2 := version2;
                           comparison_available := given version1 && given version2 |};
                      meta_owner := owner;
                      meta_repo := repo;
                      operation := "compare_release_versions" |})
          end
      end
  end.

(** The operation named in the errors of the tool. *)
Definition operation_of (owner repo : string) : string :=
  ("сравнении версий релизов " ++ owner ++ "/" ++ repo)%string.

End VersionComparison.

(** Worlds for the scenarios of [compare_release_versions]. *)
Module VersionSample.
Import VersionComparison.

(** The two latest releases. *)
Definition two_releases (response : Response) : Exception + list Release :=
  inr [mkRelease (Some "v2.0.0"); mkRelease (Some "v1.9.0")].

Definition sample_reading : Reading :=
  mkReading (fun _ => "") Sample.sample_str (fun _ s => s).

(** A world with a token, in which every call is answered by [upstream]. *)
Definition world (upstream : Z -> Reply) : World :=
  {| environ := Sample.with_token;
     client := fun _ => upstream;
     releases_json := two_releases;
     reading := sample_reading |}.

(** The same world without [GITHUB_TOKEN]. *)
Definition world_without_token (upstream : Z -> Reply) : World :=
  {| environ := fun _ => None;
     client := fun _ => upstream;
     releases_json := two_releases;
     reading := sample_reading |}.

End VersionSample.

(* ================================================================= *)
(** ** mcp-server-1/tools/contributors.py *)

(** [get_repository_contributors], a caller of [retry_github_request] and
    [handle_github_error] of [mcp-server-1/tools/utils.py].  [ctx] is
    present, as in the other tools.  The four [except] clauses make the same
    call of [handle_github_error]. *)
Module Contributors.
Import Tool.

(** A contributor object of the GitHub API, by the keys the tool reads. *)
Record Contributor := mkContributor {
  login : option string;
  contributions : option Z;
  avatar_url : option string;
  type : option string;
  site_admin : option bool
}.

Record World := mkWorld {
  environ : Comparison.Environ;
  client : Comparison.Call -> Z -> Reply;
  contributors_json : Response -> Exception + list Contributor;
  reading : Reading
}.

(** An element of [contributors_list]. *)
Record Listed := mkListed {
  listed_login : string;
  listed_contributions : Z;
  listed_avatar_url : string;
  listed_type : string;
  listed_site_admin : bool
}.

(** The dictionary [contributors_dict]. *)
Record ContributorsDict := mkContributorsDict {
  owner : string;
  repo : string;
  total_contributors : Z;
  top_contributors : list Listed
}.

Record Result := mkResult {
  content : string;
  structured_content : ContributorsDict;
  meta_owner : string;
  meta_repo : string;
  operation : string
}.

(** The slice [l[:n]] of a list: a negative [n] counts from the end. *)
Definition slice_to {A} (n : Z) (l : list A) : list A :=
  if n <? 0 then firstn (Z.to_nat (Z.of_nat (List.length l) + n)) l
  else firstn (Z.to_nat n) l.

(** The call for the contributors (lines 95-101). *)
Definition contributors_call (owner repo : string) (top_n : Z) : Comparison.Call :=
  Comparison.mkCall "GET"
    ("/repos/" ++ owner ++ "/" ++ repo ++ "/contributors")%string
    [("per_page", Comparison.str_int top_n); ("anon", "false")].

(** Lines 118-126: one element of [contributors_list]. *)
Definition listed (contributor : Contributor) : Listed :=
  {| listed_login := Comparison.get (login contributor) "Unknown";
     listed_contributions := Comparison.get (contributions contributor) 0;
     listed_avatar_url := Comparison.get (avatar_url contributor) "";
     listed_type := Comparison.get (type contributor) "User";
     listed_site_admin := Comparison.get (site_admin contributor) false |}.

(** [enumerate(l, i)]. *)
Fixpoint enumerate {A} (l : list A) (i : Z) : list (Z * A) :=
  match l with
  | [] => []
  | x :: l' => (i, x) :: enumerate l' (i + 1)
  end.

(** Lines 139-152: the text of the result. *)
Definition text_lines (owner repo : string) (total_contributors top_n : Z)
  (contributors_list : list Listed) : list string :=
  [("👥 **Контрибьюторы репозитория " ++ owner ++ "/" ++ repo ++ "**")%string;
   "";
   ("📊 Всего контрибьюторов: " ++ Comparison.str_int total_contributors)%string;
   "";
   "🏆 Топ контрибьюторы:"]
    ++ map (fun ic =>
              (Comparison.str_int (fst ic) ++ ". **" ++ listed_login (snd ic)
                 ++ "** - " ++ Comparison.str_int (listed_contributions (snd ic))
                 ++ " коммитов")%string)
         (enumerate (slice_to top_n contributors_list) 1).

(** The operation named in the errors of the tool. *)
Definition operation_of (owner repo : string) : string :=
  ("получении списка контрибьюторов репозитория " ++ owner ++ "/" ++ repo)%string.

(** The [except] clauses (lines 171-179). *)
Definition on_exception (W : World) (owner repo : string) (log : list Effect)
  (e : Exception) : list Effect * (Comparison.McpError + Result) :=
  let handled :=
    Errors1.handle_github_error (reading W) e (Some TheContext)
      (operation_of owner repo) in
  (log ++ map ErrorNote (fst handled), inl (snd handled)).

(** [get_repository_contributors]. *)
Definition get_repository_contributors (W : World) (owner repo : string)
  (top_n : Z) : list Effect * (Comparison.McpError + Result) :=
  let started := [Note "🚀 Начинаем получение списка контрибьюторов"; Progress 0] in
  match Comparison._require_env_vars (environ W) ["GITHUB_TOKEN"] with
  | inl e => on_exception W owner repo started e
  | inr _ =>
      let call := contributors_call owner repo top_n in
      let answer :=
        Server1.retry_github_request (client W call) (Some TheContext) MAX_RETRIES in
      let log :=
        started
          ++ [Note ("🔧 Подготавливаем запрос для " ++ owner ++ "/" ++ repo)%string;
              Progress 20;
              Note "📡 Отправляем запрос к GitHub API";
              Progress 40]
          ++ map (Upstream call) (fst answer) in
      match snd answer with
      | Raises e => on_exception W owner repo log e
      | Returns contributors_response =>
          match contributors_json W contributors_response with
          | inl e => on_exception W owner repo log e
          | inr contributors_data =>
              let total_contributors := Z.of_nat (List.length contributors_data) in
              let contributors_list :=
                map listed (slice_to top_n contributors_data) in
              (log ++ [Progress 60; Progress 80;
                       Note "📄 Обрабатываем полученные результаты";
                       Progress 95; Progress 100;
                       Note "✅ Список контрибьюторов успешно получен"],
               inr {| content :=
                        String.concat Comparison.newline
                          (text_lines owner repo total_contributors top_n
                             contributors_list);
                      structured_content :=
                        {| owner := owner;
                           repo := repo;
                           total_contributors := total_contributors;
                           top_contributors := contributors_list |};
                      meta_owner := owner;
                      meta_repo := repo;
                      operation := "get_repository_contributors" |})
          end
      end
  end.

End Contributors.

(** A world for the scenarios of [get_repository_contributors]. *)
Module ContributorsSample.
Import Contributors.

Definition three_contributors (response : Response)
  : Exception + list Contributor :=
  inr [mkContributor (Some "ada") (Some 120) None None None;
       mkContributor (Some "bob") (Some 45) None (Some "User") (Some false);
       mkContributor None None None None None].

Definition world (upstream : Z -> Reply) : World :=
  {| environ := Sample.with_token;
     client := fun _ => upstream;
     contributors_json := three_contributors;
     reading := VersionSample.sample_reading |}.

End ContributorsSample.

(* ================================================================= *)
(** ** mcp-server-1/tools/github_health.py *)

(** [get_repository_health] and [format_repository_health_text] of
    [utils.py].  The tool makes three calls of [retry_github_request] and,
    between the first and the second, one request with [client.get].  [ctx]
    is present.  The Prometheus counters and the tracing span record what
    happens and change nothing; they are left out. *)
Module Health.
Import Tool.

(** The repository object of [GET /repos/{owner}/{repo}], by the keys the
    tool reads; [None] is a key that is absent. *)
Record RepoJson := mkRepoJson {
  open_issues_count : option Z;
  stargazers_count : option Z;
  forks_count : option Z;
  watchers_count : option Z;
  archived : option bool;
  disabled : option bool;
  default_branch : option string;
  language : option string;
  created_at : option string;
  updated_at : option string;
  pushed_at : option string
}.

(** The dictionary [metrics_dict]. *)
Record Metrics := mkMetrics {
  owner : string;
  repo : string;
  metrics_open_issues_count : Z;
  open_prs_count : Z;
  last_commit_date : option string;
  last_commit_age_days : option Z;
  stars_count : Z;
  metrics_forks_count : Z;
  metrics_watchers_count : Z;
  is_archived : bool;
  is_disabled : bool;
  metrics_default_branch : string;
  metrics_language : option string;
  metrics_created_at : option string;
  metrics_updated_at : option string;
  metrics_pushed_at : option string
}.

(** The arguments that differ between [metrics_dict] and the model
    [RepositoryHealthMetrics]: the dates, as [datetime] objects. *)
Record ModelDates := mkModelDates {
  model_last_commit_date : option Comparison.Datetime;
  model_created_at : Comparison.Datetime;
  model_updated_at : Comparison.Datetime;
  model_pushed_at : option Comparison.Datetime
}.

(** What the tool uses and this file does not define.  [dates] gives the
    date functions and the clock of [calculate_days_ago]; [clock_created]
    and [clock_updated] are the two readings of [datetime.now()] in the
    arguments of the model; [model] is the construction of
    [RepositoryHealthMetrics] followed by [model_dump()], which gives a
    value of [Dump] or raises. *)
Record World (Dump : Type) := mkWorld {
  environ : Comparison.Environ;
  client : Comparison.Call -> Z -> Reply;
  repo_json : Response -> Exception + RepoJson;
  search_json : Response -> Exception + Payload.SearchJson;
  commits_json : Response -> Exception + list Payload.CommitJson;
  dates : Comparison.Externals;
  clock_created : Comparison.Datetime;
  clock_updated : Comparison.Datetime;
  model : Metrics -> ModelDates -> Exception + Dump;
  reading : Reading
}.

Arguments environ {Dump}.
Arguments client {Dump}.
Arguments repo_json {Dump}.
Arguments search_json {Dump}.
Arguments commits_json {Dump}.
Arguments dates {Dump}.
Arguments clock_created {Dump}.
Arguments clock_updated {Dump}.
Arguments model {Dump}.
Arguments reading {Dump}.

Record Result (Dump : Type) := mkResult {
  content : string;
  structured_content : Dump;
  meta_owner : string;
  meta_repo : string;
  operation : string
}.

Arguments mkResult {Dump}.
Arguments content {Dump}.
Arguments structured_content {Dump}.

(** [format_repository_health_text] of [utils.py] (lines 424-466): the line
    about the last commit. *)
Definition last_commit_line (age : Z) : string :=
  if age =? 0 then "✅ Последний коммит: сегодня"
  else if age =? 1 then "✅ Последний коммит: вчера"
  else if age <? 7 then
    ("✅ Последний коммит: " ++ Comparison.str_int age ++ " дней назад")%string
  else if age <? 30 then
    ("⚠️ Последний коммит: " ++ Comparison.str_int age ++ " дней назад")%string
  else
    ("🔴 Последний коммит: " ++ Comparison.str_int age
       ++ " дней назад (неактивен)")%string.

Definition format_repository_health_text (metrics : Metrics) : string :=
  String.concat Comparison.newline
    ([("📊 **Метрики здоровья репозитория " ++ owner metrics ++ "/"
         ++ repo metrics ++ "**")%string;
      "";
      ("🔴 Открытые issues: "
         ++ Comparison.str_int (metrics_open_issues_count metrics))%string;
      ("🟡 Открытые PR: " ++ Comparison.str_int (open_prs_count metrics))%string;
      ("⭐ Звезды: " ++ Comparison.str_int (stars_count metrics))%string;
      ("🍴 Форки: " ++ Comparison.str_int (metrics_forks_count metrics))%string;
      ("👀 Наблюдатели: "
         ++ Comparison.str_int (metrics_watchers_count metrics))%string]
       ++ match last_commit_age_days metrics with
          | Some age => [last_commit_line age]
          | None => []
          end
       ++ match metrics_language metrics with
          | Some l =>
              if String.eqb l "" then [] else [("💻 Язык: " ++ l)%string]
          | None => []
          end
       ++ (if is_archived metrics then ["📦 Репозиторий архивирован"] else [])
       ++ (if is_disabled metrics then ["🚫 Репозиторий отключен"] else [])).

(** The request sent with [client.get] (lines 131-134). *)
Definition issues_call (owner repo : string) : Comparison.Call :=
  Comparison.mkCall "GET" ("/repos/" ++ owner ++ "/" ++ repo ++ "/issues")%string
    [("state", "open"); ("per_page", "1")].

(** [await client.get(...)] followed by [raise_for_status()]: the exception
    raised, if any. *)
Definition get_raises (reply : Reply) : option Exception :=
  match reply with
  | Responds issues_response => raise_for_status issues_response
  | TimesOut => Some TimeoutException
  | NetworkFails => Some NetworkError
  | Fails name => Some (OtherException name)
  end.

(** Lines 142-156: the [try] around the search; every exception gives [0]. *)
Definition count_open_prs {Dump} (W : World Dump) (search : Outcome) : Z :=
  match search with
  | Returns search_pr_response =>
      match search_json W search_pr_response with
      | inr search_pr_data => Comparison.get (Payload.total_count search_pr_data) 0
      | inl _ => 0
      end
  | Raises _ => 0
  end.

(** Lines 168-176: the date of the latest commit. *)
Definition latest_commit_date {Dump} (W : World Dump)
  (commits_data : list Payload.CommitJson) : option Comparison.Datetime :=
  match commits_data with
  | commit :: _ =>
      Comparison.parse_github_datetime (dates W) (Payload.author_date commit)
  | [] => None
  end.

(** Lines 185-202: [metrics_dict]; the three dates of the repository raise
    [AttributeError] when they are not empty and do not parse. *)
Definition build_metrics {Dump} (W : World Dump) (owner repo : string)
  (repo_data : RepoJson) (open_prs_count : Z)
  (last_commit_date : option Comparison.Datetime) : Exception + Metrics :=
  match Comparison.fetch_pushed_at (dates W) (created_at repo_data) with
  | inl e => inl e
  | inr created =>
      match Comparison.fetch_pushed_at (dates W) (updated_at repo_data) with
      | inl e => inl e
      | inr updated =>
          match Comparison.fetch_pushed_at (dates W) (pushed_at repo_data) with
          | inl e => inl e
          | inr pushed =>
              inr {| owner := owner;
                     repo := repo;
                     metrics_open_issues_count :=
                       Z.max 0 (Comparison.get (open_issues_count repo_data) 0
                                  - open_prs_count);
                     open_prs_count := open_prs_count;
                     last_commit_date :=
                       match last_commit_date with
                       | Some dt => Some (Comparison.isoformat (dates W) dt)
                       | None => None
                       end;
                     last_commit_age_days :=
                       Comparison.calculate_days_ago (dates W) last_commit_date;
                     stars_count := Comparison.get (stargazers_count repo_data) 0;
                     metrics_forks_count :=
                       Comparison.get (forks_count repo_data) 0;
                     metrics_watchers_count :=
                       Comparison.get (watchers_count repo_data) 0;
                     is_archived := Comparison.get (archived repo_data) false;
                     is_disabled := Comparison.get (disabled repo_data) false;
                     metrics_default_branch :=
                       Comparison.get (default_branch repo_data) "main";
                     metrics_language := language repo_data;
                     metrics_created_at := created;
                     metrics_updated_at := updated;
                     metrics_pushed_at := pushed |}
          end
      end
  end.

(** Lines 205-222: the dates given to the model. *)
Definition model_dates {Dump} (W : World Dump) (repo_data : RepoJson)
  (last_commit_date : option Comparison.Datetime) : ModelDates :=
  {| model_last_commit_date := last_commit_date;
     model_created_at :=
       match Comparison.parse_github_datetime (dates W) (created_at repo_data) with
       | Some dt => dt
       | None => clock_created W
       end;
     model_updated_at :=
       match Comparison.parse_github_datetime (dates W) (updated_at repo_data) with
       | Some dt => dt
       | None => clock_updated W
       end;
     model_pushed_at :=
       Comparison.parse_github_datetime (dates W) (pushed_at repo_data) |}.

(** The operation named in the errors of the tool. *)
Definition operation_of (owner repo : string) : string :=
  ("получении метрик здоровья репозитория " ++ owner ++ "/" ++ repo)%string.

(** The [except] clauses (lines 259-306): the same call of
    [handle_github_error] in each. *)
Definition on_exception {Dump} (W : World Dump) (owner repo : string)
  (log : list Effect) (e : Exception)
  : list Effect * (Comparison.McpError + Result Dump) :=
  let handled :=
    Errors1.handle_github_error (reading W) e (Some TheContext)
      (operation_of owner repo) in
  (log ++ map ErrorNote (fst handled), inl (snd handled)).

(** One call of [retry_github_request] with [ctx] and the default budget. *)
Definition with_retry {Dump} (W : World Dump) (call : Comparison.Call)
  : Trace * Outcome :=
  Server1.retry_github_request (client W call) (Some TheContext) MAX_RETRIES.

(** Lines 176-257: from the answer of the commits call to the result. *)
Definition finish {Dump} (W : World Dump) (owner repo : string)
  (log : list Effect) (repo_data : RepoJson) (open_prs_count : Z)
  (commits_data : list Payload.CommitJson)
  : list Effect * (Comparison.McpError + Result Dump) :=
  let last_commit_date := latest_commit_date W commits_data in
  let log :=
    log ++ [Progress 80; Note "📄 Обрабатываем полученные результаты"] in
  match build_metrics W owner repo repo_data open_prs_count last_commit_date with
  | inl e => on_exception W owner repo log e
  | inr metrics_dict =>
      match model W metrics_dict (model_dates W repo_data last_commit_date) with
      | inl e => on_exception W owner repo log e
      | inr dump =>
          (log ++ [Progress 95; Progress 100;
                   Note "✅ Метрики здоровья репозитория успешно получены"],
           inr {| content := format_repository_health_text metrics_dict;
                  structured_content := dump;
                  meta_owner := owner;
                  meta_repo := repo;
                  operation := "get_repository_health" |})
      end
  end.

(** Lines 129-176: from the answer of the metadata call to the answer of
    the commits call. *)
Definition gather {Dump} (W : World Dump) (owner repo : string)
  (log : list Effect) (repo_data : RepoJson)
  : list Effect * (Comparison.McpError + Result Dump) :=
  let log := log ++ [Progress 50; Direct (issues_call owner repo)] in
  match get_raises (client W (issues_call owner repo) 0) with
  | Some e => on_exception W owner repo log e
  | None =>
      let search := with_retry W (Comparison.search_call owner repo) in
      let open_prs_count := count_open_prs W (snd search) in
      let commits := with_retry W (Comparison.commits_call owner repo) in
      let log :=
        log ++ [Progress 60]
          ++ map (Upstream (Comparison.search_call owner repo)) (fst search)
          ++ [Progress 70]
          ++ map (Upstream (Comparison.commits_call owner repo)) (fst commits) in
      match snd commits with
      | Raises e => on_exception W owner repo log e
      | Returns commits_response =>
          match commits_json W commits_response with
          | inl e => on_exception W owner repo log e
          | inr commits_data =>
              finish W owner repo log repo_data open_prs_count commits_data
          end
      end
  end.

(** [get_repository_health]. *)
Definition get_repository_health {Dump} (W : World Dump) (owner repo : string)
  : list Effect * (Comparison.McpError + Result Dump) :=
  let started :=
    [Note "🚀 Начинаем получение метрик здоровья репозитория"; Progress 0] in
  match Comparison._require_env_vars (environ W) ["GITHUB_TOKEN"] with
  | inl e => on_exception W owner repo started e
  | inr _ =>
      let metadata := with_retry W (Comparison.repo_call owner repo) in
      let log :=
        started
          ++ [Note ("🔧 Подготавливаем запрос для " ++ owner ++ "/" ++ repo)%string;
              Progress 20;
              Note "📡 Отправляем запрос к GitHub API";
              Progress 40]
          ++ map (Upstream (Comparison.repo_call owner repo)) (fst metadata) in
      match snd metadata with
      | Raises e => on_exception W owner repo log e
      | Returns repo_response =>
          match repo_json W repo_response with
          | inl e => on_exception W owner repo log e
          | inr repo_data => gather W owner repo log repo_data
          end
      end
  end.

End Health.

(** A world for the scenarios of [get_repository_health]: the repository
    has 12 open issues and pull requests, 2 of them pull requests, and was
    committed to two days before the clock; the model accepts every
    dictionary and dumps it as it is. *)
Module HealthSample.
Import Health.

Definition sample_repo (response : Response) : Exception + RepoJson :=
  inr (mkRepoJson (Some 12) (Some 100) (Some 10) (Some 3) (Some false)
         (Some false) (Some "main") (Some "Python") None None None).

Definition sample_search (response : Response) : Exception + Payload.SearchJson :=
  inr (Payload.mkSearchJson (Some 2)).

Definition sample_commits (response : Response)
  : Exception + list Payload.CommitJson :=
  inr [Payload.mkCommitJson (Some "2024-01-30T00:00:00Z")].

Definition ok : Reply := Responds (mkResponse 200 (Some 4000) Payload.JOther).

(** Every call is answered at once, but the request for the issues, which
    gets [issues]. *)
Definition world (issues : Reply) : World Metrics :=
  {| environ := Sample.with_token;
     client := fun call attempt =>
                 if String.eqb (Comparison.url call) "/repos/org/one/issues"
                 then issues else ok;
     repo_json := sample_repo;
     search_json := sample_search;
     commits_json := sample_commits;
     dates := Sample.scenario_commit_today;
     clock_created := Sample.today;
     clock_updated := Sample.today;
     model := fun metrics _ => inr metrics;
     reading := VersionSample.sample_reading |}.

End HealthSample.
(* ================================================================= *)
(** ** Facts about the retry loop *)

Lemma effects_app (t1 t2 : Trace) : effects (t1 ++ t2) = effects t1 ++ effects t2.
Proof. apply filter_app. Qed.

Lemma effects_notify sink ctx n : effects (fst (notify sink ctx n)) = [].
Proof. unfold notify. destruct (truthy ctx); reflexivity. Qed.

Lemma effects_idempotent tr : effects (effects tr) = effects tr.
Proof.
  unfold effects. induction tr as [|e tr IH]; [reflexivity|].
  destruct e; cbn; rewrite ?IH; reflexivity.
Qed.

Lemma requests_app (t1 t2 : Trace) : requests (t1 ++ t2) = requests t1 ++ requests t2.
Proof.
  induction t1 as [|e t1 IH]; [reflexivity|].
  destruct e; cbn; rewrite IH; reflexivity.
Qed.

Lemma sleeps_app (t1 t2 : Trace) : sleeps (t1 ++ t2) = sleeps t1 ++ sleeps t2.
Proof.
  induction t1 as [|e t1 IH]; [reflexivity|].
  destruct e; cbn; rewrite IH; reflexivity.
Qed.

Lemma requests_effects tr : requests (effects tr) = requests tr.
Proof.
  unfold effects. induction tr as [|e tr IH]; [reflexivity|].
  destruct e; cbn; rewrite IH; reflexivity.
Qed.

Lemma sleeps_effects tr : sleeps (effects tr) = sleeps tr.
Proof.
  unfold effects. induction tr as [|e tr IH]; [reflexivity|].
  destruct e; cbn; rewrite IH; reflexivity.
Qed.

Lemma range_from_app a k m :
  range_from a (k + m) = range_from a k ++ range_from (a + Z.of_nat k) m.
Proof.
  revert a. induction k as [|k IH]; intros a.
  - cbn. f_equal. lia.
  - cbn [Nat.add range_from app]. rewrite IH. do 3 f_equal. lia.
Qed.

Lemma requests_retried a k : requests (retried a k) = range_from a k.
Proof.
  revert a. induction k as [|k IH]; intros a; cbn [retried requests range_from];
    [reflexivity|].
  now rewrite IH.
Qed.

Lemma sleeps_retried a k :
  sleeps (retried a k) = map (fun i => RETRY_DELAY_BASE * 2 ^ i) (range_from a k).
Proof.
  revert a. induction k as [|k IH]; intros a;
    cbn [retried sleeps range_from map]; [reflexivity|].
  now rewrite IH.
Qed.

Lemma length_range_from a k : List.length (range_from a k) = k.
Proof. revert a. induction k as [|k IH]; intros a; cbn; [reflexivity|]. now rewrite IH. Qed.

(** Below [FLOAT_MAX_EXP] the delay is the power of two. *)
Lemma backoff_pow2 a : a < FLOAT_MAX_EXP -> backoff a = inr (2 ^ a).
Proof.
  intros Ha. unfold backoff, RETRY_DELAY_BASE.
  destruct (Z.ltb_spec a FLOAT_MAX_EXP); [f_equal; lia|lia].
Qed.

(** From [FLOAT_MAX_EXP] on there is no delay. *)
Lemma backoff_overflow a : FLOAT_MAX_EXP <= a -> backoff a = inl OverflowError.
Proof.
  intros Ha. unfold backoff.
  destruct (Z.ltb_spec a FLOAT_MAX_EXP); [lia|reflexivity].
Qed.

(** A run of retried attempts in front of the remaining ones. *)
Lemma for_attempts_retried body rest k a :
  (forall i, a <= i < a + Z.of_nat k -> retries_at body i) ->
  forall le, exists le',
    snd (for_attempts body (range_from a k ++ rest) le)
      = snd (for_attempts body rest le') /\
    effects (fst (for_attempts body (range_from a k ++ rest) le))
      = retried a k ++ effects (fst (for_attempts body rest le')).
Proof.
  revert a. induction k as [|k IH]; intros a H le.
  - exists le. split; reflexivity.
  - destruct (H a ltac:(lia) le) as [[le1 Hs] He].
    destruct (IH (a + 1) ltac:(intros i Hi; apply H; lia) le1)
      as (le' & IHs & IHe).
    exists le'. cbn [range_from app for_attempts retried].
    destruct (body a le) as [tr st]. cbn [fst snd] in Hs, He. subst st.
    unfold after. cbn [fst snd]. split; [exact IHs|].
    rewrite effects_app, He, IHe. reflexivity.
Qed.

(** The attempt that ends the call leaves the rest of the range unused. *)
Lemma for_attempts_ends body rest a o :
  ends_at body a o ->
  forall le, for_attempts body (a :: rest) le = (fst (body a le), Exited o).
Proof.
  intros Hend le. destruct (Hend le) as [Hs He]. cbn [for_attempts].
  destruct (body a le) as [tr st]. cbn [fst snd] in Hs. now subst st.
Qed.

Lemma retryable_spec s :
  retryable s = true <-> s = 429 \/ s = 500 \/ s = 502 \/ s = 503 \/ s = 504.
Proof.
  unfold retryable, RETRYABLE_STATUS_CODES. cbn.
  rewrite !orb_true_iff, !Z.eqb_eq. intuition congruence.
Qed.

Lemma retryable_not_success s : retryable s = true -> is_success s = false.
Proof.
  rewrite retryable_spec. unfold is_success.
  intros [-> | [-> | [-> | [-> | ->]]]]; reflexivity.
Qed.

Lemma client_error_not_retryable s :
  400 <= s <= 499 -> s <> 429 -> retryable s = false /\ is_success s = false.
Proof.
  intros Hs H429. split.
  - destruct (retryable s) eqn:E; [|reflexivity].
    apply retryable_spec in E. lia.
  - unfold is_success. lia.
Qed.

Lemma success_not_retryable s : is_success s = true -> retryable s = false.
Proof.
  intros Hs. destruct (retryable s) eqn:E; [|reflexivity].
  apply retryable_not_success in E. congruence.
Qed.

Lemma transientb_spec reply : transientb reply = true <-> transient reply.
Proof. destruct reply; cbn; intuition congruence. Qed.

(** An attempt that goes on is retried. *)
Lemma server1_body_goes_on request ctx N a :
  goes_on request N a = true -> retries_at (Server1.body request ctx N) a.
Proof.
  unfold goes_on. intros H. apply andb_true_iff in H as [H Hf].
  apply andb_true_iff in H as [Ht Ha].
  destruct (request a) as [r| | |name] eqn:Hreq; cbn [transientb] in Ht;
    try discriminate.
  - pose proof (retryable_not_success _ Ht) as Hs. run_body Hreq.
  - run_body Hreq.
  - run_body Hreq.
Qed.

Lemma server6_body_goes_on request ctx N a :
  goes_on request N a = true -> retries_at (Server6.body request ctx N) a.
Proof.
  unfold goes_on. intros H. apply andb_true_iff in H as [H Hf].
  apply andb_true_iff in H as [Ht Ha].
  destruct (request a) as [r| | |name] eqn:Hreq; cbn [transientb] in Ht;
    try discriminate.
  - pose proof (retryable_not_success _ Ht) as Hs. run_body Hreq.
  - run_body Hreq.
  - run_body Hreq.
Qed.

(** An attempt that does not go on ends the call. *)
Lemma server1_body_decides request ctx N a :
  goes_on request N a = false ->
  ends_at (Server1.body request ctx N) a (outcome_at request N a).
Proof.
  unfold goes_on, outcome_at. intros H.
  destruct (request a) as [r| | |name] eqn:Hreq; cbn [transientb verdict] in *.
  - destruct (retryable (status_code r)) eqn:Hr.
    + pose proof (retryable_not_success _ Hr) as Hs.
      destruct (a <? N - 1) eqn:Ha; cbn [andb] in *; run_body Hreq.
    + cbn [andb]. destruct (is_success (status_code r)) eqn:Hs; run_body Hreq.
  - destruct (a <? N - 1) eqn:Ha; cbn [andb] in *; run_body Hreq.
  - destruct (a <? N - 1) eqn:Ha; cbn [andb] in *; run_body Hreq.
  - cbn [andb]. run_body Hreq.
Qed.

Lemma server6_body_decides request ctx N a :
  goes_on request N a = false ->
  ends_at (Server6.body request ctx N) a (outcome_at request N a).
Proof.
  unfold goes_on, outcome_at. intros H.
  destruct (request a) as [r| | |name] eqn:Hreq; cbn [transientb verdict] in *.
  - destruct (retryable (status_code r)) eqn:Hr.
    + pose proof (retryable_not_success _ Hr) as Hs.
      destruct (a <? N - 1) eqn:Ha; cbn [andb] in *; run_body Hreq.
    + cbn [andb]. destruct (is_success (status_code r)) eqn:Hs; run_body Hreq.
  - destruct (a <? N - 1) eqn:Ha; cbn [andb] in *; run_body Hreq.
  - destruct (a <? N - 1) eqn:Ha; cbn [andb] in *; run_body Hreq.
  - cbn [andb]. run_body Hreq.
Qed.

(** [k] retried attempts followed by the attempt that ends the call. *)
Lemma for_attempts_schedule body n k o :
  (k < n)%nat ->
  (forall i, 0 <= i < Z.of_nat k -> retries_at body i) ->
  ends_at body (Z.of_nat k) o ->
  snd (for_attempts body (range_from 0 n) None) = Exited o /\
  effects (fst (for_attempts body (range_from 0 n) None))
    = retried 0 k ++ [Acquire; Request (Z.of_nat k)].
Proof.
  intros Hk Hretry Hend.
  replace n with (k + S (n - S k))%nat by lia.
  rewrite range_from_app. cbn [range_from].
  destruct (for_attempts_retried body
              (0 + Z.of_nat k :: range_from (0 + Z.of_nat k + 1) (n - S k))
              k 0 ltac:(intros i Hi; apply Hretry; lia) None) as (le' & Hs & He).
  rewrite Hs, He. replace (0 + Z.of_nat k) with (Z.of_nat k) by lia.
  rewrite (for_attempts_ends body _ _ o Hend le'). cbn [fst snd].
  destruct (Hend le') as [_ Hend']. rewrite Hend'. split; reflexivity.
Qed.

Lemma schedule_requests k :
  requests (retried 0 k ++ [Acquire; Request (Z.of_nat k)]) = range_from 0 (S k).
Proof.
  rewrite requests_app, requests_retried. cbn [requests].
  replace (S k) with (k + 1)%nat by lia. rewrite range_from_app. reflexivity.
Qed.

Lemma schedule_sleeps k :
  sleeps (retried 0 k ++ [Acquire; Request (Z.of_nat k)])
    = map (fun i => RETRY_DELAY_BASE * 2 ^ i) (range_from 0 k).
Proof.
  rewrite sleeps_app, sleeps_retried. cbn [sleeps]. apply app_nil_r.
Qed.

Lemma ran_of_schedule (f : Primitive) body request ctx N k o :
  (forall request ctx N,
     f request ctx N =
     (fst (for_attempts (body request ctx N) (range N) None),
      after_loop (snd (for_attempts (body request ctx N) (range N) None)))) ->
  0 <= k < N ->
  (forall i, 0 <= i < k -> retries_at (body request ctx N) i) ->
  ends_at (body request ctx N) k o ->
  ran f request ctx N k o.
Proof.
  intros Hf Hk Hretry Hend. unfold ran. rewrite Hf. cbn [fst snd].
  destruct (for_attempts_schedule (body request ctx N) (Z.to_nat N) (Z.to_nat k) o)
    as [Hs He].
  - lia.
  - intros i Hi. apply Hretry. lia.
  - now rewrite Z2Nat.id by lia.
  - unfold range. rewrite Hs. cbn [after_loop].
    rewrite <- (requests_effects (fst _)), <- (sleeps_effects (fst _)), He.
    rewrite schedule_requests, schedule_sleeps, Z2Nat.id by lia.
    split; [reflexivity|]. split; [reflexivity|]. split; [|reflexivity].
    f_equal. lia.
Qed.

Lemma server1_unfold request ctx N :
  Server1.retry_github_request request ctx N =
  (fst (for_attempts (Server1.body request ctx N) (range N) None),
   after_loop (snd (for_attempts (Server1.body request ctx N) (range N) None))).
Proof. reflexivity. Qed.

Lemma server6_unfold request ctx N :
  Server6.retry_github_request request ctx N =
  (fst (for_attempts (Server6.body request ctx N) (range N) None),
   after_loop (snd (for_attempts (Server6.body request ctx N) (range N) None))).
Proof. reflexivity. Qed.

Lemma status_of_responds reply s :
  status_of reply = Some s ->
  exists r, reply = Responds r /\ status_code r = s.
Proof.
  destruct reply as [r| | |name]; cbn; try discriminate.
  intros [= <-]. now exists r.
Qed.

(** The attempts before [k] go on and attempt [k] does not: the call ends
    at attempt [k]. *)
Lemma ran_to_deciding_attempt (request : Z -> Reply) ctx N k :
  0 <= k < N ->
  (forall i, 0 <= i < k -> goes_on request N i = true) ->
  goes_on request N k = false ->
  ran Server1.retry_github_request request ctx N k (outcome_at request N k) /\
  ran Server6.retry_github_request request ctx N k (outcome_at request N k).
Proof.
  intros Hk Hpre Hend. split.
  - apply (ran_of_schedule _ Server1.body); auto using server1_unfold.
    + intros i Hi. apply server1_body_goes_on. now apply Hpre.
    + now apply server1_body_decides.
  - apply (ran_of_schedule _ Server6.body); auto using server6_unfold.
    + intros i Hi. apply server6_body_goes_on. now apply Hpre.
    + now apply server6_body_decides.
Qed.

Lemma goes_on_transient (request : Z -> Reply) N i :
  transient (request i) -> i < N - 1 -> i < FLOAT_MAX_EXP ->
  goes_on request N i = true.
Proof.
  intros Ht HN Hf. unfold goes_on.
  apply transientb_spec in Ht. rewrite Ht.
  destruct (Z.ltb_spec i (N - 1)); [|lia].
  destruct (Z.ltb_spec i FLOAT_MAX_EXP); [reflexivity|lia].
Qed.

(** The last attempt of the budget decides. *)
Lemma goes_on_last (request : Z -> Reply) N : goes_on request N (N - 1) = false.
Proof.
  unfold goes_on. rewrite Z.ltb_irrefl, andb_false_r. reflexivity.
Qed.

Lemma outcome_at_last (request : Z -> Reply) N :
  outcome_at request N (N - 1) = verdict (request (N - 1)).
Proof.
  unfold outcome_at. rewrite Z.ltb_irrefl, andb_false_r. reflexivity.
Qed.

(** A reply that is no transient failure decides. *)
Lemma goes_on_settled (request : Z -> Reply) N k :
  transientb (request k) = false ->
  goes_on request N k = false /\ outcome_at request N k = verdict (request k).
Proof. intros Ht. unfold goes_on, outcome_at. rewrite Ht. split; reflexivity. Qed.

(** An attempt from [FLOAT_MAX_EXP] on that was to be retried raises
    [OverflowError]. *)
Lemma goes_on_overflow (request : Z -> Reply) N k :
  transient (request k) -> k < N - 1 -> FLOAT_MAX_EXP <= k ->
  goes_on request N k = false /\ outcome_at request N k = Raises OverflowError.
Proof.
  intros Ht HN Hf. unfold goes_on, outcome_at.
  apply transientb_spec in Ht. rewrite Ht.
  destruct (Z.ltb_spec k (N - 1)); [|lia].
  destruct (Z.ltb_spec k FLOAT_MAX_EXP); [lia|]. split; reflexivity.
Qed.

(** Transient failures up to attempt [k], whose delays are floats, then the
    attempt that decides. *)
Lemma ran_after_transient (request : Z -> Reply) ctx N k :
  0 <= k < N -> k <= FLOAT_MAX_EXP ->
  (forall i, 0 <= i < k -> transient (request i)) ->
  goes_on request N k = false ->
  ran Server1.retry_github_request request ctx N k (outcome_at request N k) /\
  ran Server6.retry_github_request request ctx N k (outcome_at request N k).
Proof.
  intros Hk Hf Hpre Hend. apply ran_to_deciding_attempt; [exact Hk| |exact Hend].
  intros i Hi. apply goes_on_transient; [now apply Hpre|lia|lia].
Qed.

Lemma transient_of_status (request : Z -> Reply) i s :
  retryable s = true -> status_of (request i) = Some s -> transient (request i).
Proof.
  intros Hs Hst. apply status_of_responds in Hst as (r & -> & <-). exact Hs.
Qed.

(** C1, as the code has it.  Every attempt is answered with the same
    retriable status [s] (429, 500, 502, 503 or 504) and the budget is
    [N >= 1].  With [N <= FLOAT_MAX_EXP + 1 = 1025] both implementations of
    [retry_github_request] send exactly the [N] requests of attempts
    [0 .. N-1], sleep [RETRY_DELAY_BASE * 2 ^ i] seconds after attempt [i]
    for [i = 0 .. N-2] and at no other point, and then raise the
    [HTTPStatusError] of the last response, whose status is [s].  With a
    larger budget they send the 1025 requests of attempts [0 .. 1024], sleep
    after each but the last, and raise [OverflowError]: the delay
    [1.0 * 2 ** 1024] is no float.  When attempts [0 .. k-1] are answered
    with retriable statuses and attempt [k < N], [k <= 1024], with a 2xx
    response, that response is returned right after attempt [k]: [k+1]
    requests, [k] backoff delays, nothing after. *)
Theorem retriable_status_uses_whole_budget (request : Z -> Reply)
  (ctx : option Context) (N : Z) :
  1 <= N ->
  (forall s,
     retryable s = true ->
     (forall i, 0 <= i < N -> status_of (request i) = Some s) ->
     (N <= FLOAT_MAX_EXP + 1 ->
      exists r,
        request (N - 1) = Responds r /\ status_code r = s /\
        ran Server1.retry_github_request request ctx N (N - 1)
          (Raises (HTTPStatusError (Some r))) /\
        ran Server6.retry_github_request request ctx N (N - 1)
          (Raises (HTTPStatusError (Some r)))) /\
     (FLOAT_MAX_EXP + 1 < N ->
      ran Server1.retry_github_request request ctx N FLOAT_MAX_EXP
        (Raises OverflowError) /\
      ran Server6.retry_github_request request ctx N FLOAT_MAX_EXP
        (Raises OverflowError))) /\
  (forall k r,
     0 <= k < N ->
     k <= FLOAT_MAX_EXP ->
     (forall i, 0 <= i < k ->
        exists s, retryable s = true /\ status_of (request i) = Some s) ->
     request k = Responds r ->
     is_success (status_code r) = true ->
     ran Server1.retry_github_request request ctx N k (Returns r) /\
     ran Server6.retry_github_request request ctx N k (Returns r)).
Proof.
  intros HN. split.
  - intros s Hs Hall. split.
    + intros Hsmall.
      destruct (status_of_responds _ _ (Hall (N - 1) ltac:(lia)))
        as (r & Hr & Hst).
      exists r. split; [exact Hr|]. split; [exact Hst|].
      assert (Ho : outcome_at request N (N - 1) = Raises (HTTPStatusError (Some r))).
      { rewrite outcome_at_last, Hr. cbn [verdict].
        rewrite retryable_not_success by congruence. reflexivity. }
      rewrite <- Ho. apply ran_after_transient.
      * lia.
      * lia.
      * intros i Hi. apply (transient_of_status _ _ s Hs). apply Hall. lia.
      * apply goes_on_last.
    + intros Hlarge.
      assert (Ht : transient (request FLOAT_MAX_EXP)).
      { apply (transient_of_status _ _ s Hs). apply Hall.
        unfold FLOAT_MAX_EXP in *. lia. }
      destruct (goes_on_overflow request N FLOAT_MAX_EXP Ht ltac:(lia) ltac:(lia))
        as [Hg Ho].
      rewrite <- Ho. apply ran_after_transient.
      * unfold FLOAT_MAX_EXP in *. lia.
      * lia.
      * intros i Hi. apply (transient_of_status _ _ s Hs). apply Hall. lia.
      * exact Hg.
  - intros k r Hk Hf Hpre Hr Hok.
    destruct (goes_on_settled request N k) as [Hg Ho].
    { rewrite Hr. cbn [transientb]. now apply success_not_retryable. }
    assert (Hv : outcome_at request N k = Returns r).
    { rewrite Ho, Hr. cbn [verdict]. now rewrite Hok. }
    rewrite <- Hv. apply ran_after_transient; [exact Hk|exact Hf| |exact Hg].
    intros i Hi. destruct (Hpre i Hi) as (s & Hs & Hst).
    now apply (transient_of_status _ _ s).
Qed.

Lemma retriable_status_uses_whole_budget_witness :
  1 <= 3 /\
  (ran Server1.retry_github_request unavailable_upstream None 3 2
     (Raises (HTTPStatusError (Some (mkResponse 503 None Payload.JOther)))) /\
   sleeps (fst (Server6.retry_github_request unavailable_upstream None 3)) = [1; 2]) /\
  (ran Server1.retry_github_request flaky_upstream None 3 2
     (Returns (mkResponse 200 (Some 4999) Payload.JOther)) /\
   sleeps (fst (Server6.retry_github_request flaky_upstream None 3)) = [1; 2]).
Proof.
  split; [lia|]. split.
  - destruct (retriable_status_uses_whole_budget unavailable_upstream None 3
                ltac:(lia)) as [Hfail _].
    destruct (Hfail 503 eq_refl (fun i _ => eq_refl)) as [Hsmall _].
    destruct (Hsmall ltac:(unfold FLOAT_MAX_EXP; lia)) as (r & Hr & _ & H1 & _).
    injection Hr as <-. split; [exact H1|reflexivity].
  - destruct (retriable_status_uses_whole_budget flaky_upstream None 3
                ltac:(lia)) as [_ Hok].
    split; [|reflexivity].
    apply (Hok 2 (mkResponse 200 (Some 4999) Payload.JOther)).
    + lia.
    + unfold FLOAT_MAX_EXP. lia.
    + intros i Hi. exists 503. split; [reflexivity|].
      unfold flaky_upstream. destruct (Z.ltb_spec i 2); [reflexivity|lia].
    + reflexivity.
    + reflexivity.
Defined.

(** C1, as the claim states it, fails for a budget above 1025.  With 503 on
    every attempt and [max_retries = 1026], both implementations send the
    1025 requests of attempts [0 .. 1024], not 1026, and the failure they
    raise is the [OverflowError] of [1.0 * (2 ** 1024)], which carries no
    status. *)
Lemma whole_budget_is_not_used_beyond_float_range :
  (forall i, 0 <= i < 1026 -> status_of (unavailable_upstream i) = Some 503) /\
  (snd (Server1.retry_github_request unavailable_upstream None 1026)
     = Raises OverflowError /\
   requests (fst (Server1.retry_github_request unavailable_upstream None 1026))
     = range 1025) /\
  (snd (Server6.retry_github_request unavailable_upstream None 1026)
     = Raises OverflowError /\
   requests (fst (Server6.retry_github_request unavailable_upstream None 1026))
     = range 1025) /\
  Z.of_nat (List.length (range 1025)) = 1025.
Proof.
  split; [reflexivity|].
  destruct (goes_on_overflow unavailable_upstream 1026 1024)
    as [Hg Ho]; [reflexivity|lia|unfold FLOAT_MAX_EXP; lia|].
  destruct (ran_after_transient unavailable_upstream None 1026 1024)
    as [(A1 & _ & C1 & _) (A6 & _ & C6 & _)].
  - lia.
  - unfold FLOAT_MAX_EXP. lia.
  - intros i _. reflexivity.
  - exact Hg.
  - rewrite Ho in A1, A6. change (1024 + 1) with 1025 in C1, C6.
    split; [split; assumption|]. split; [split; assumption|].
    unfold range. rewrite length_range_from. reflexivity.
Qed.

(** C2. A first response with a 4xx status other than 429 ends the call at
    once, in both implementations and whatever attempt budget [N >= 1]
    remains: one request, no sleep, and the [HTTPStatusError] of that
    response is raised. *)
Theorem client_error_is_terminal (request : Z -> Reply) (ctx : option Context)
  (N : Z) (r : Response) :
  1 <= N ->
  400 <= status_code r <= 499 ->
  status_code r <> 429 ->
  request 0 = Responds r ->
  (snd (Server1.retry_github_request request ctx N)
     = Raises (HTTPStatusError (Some r)) /\
   requests (fst (Server1.retry_github_request request ctx N)) = [0] /\
   sleeps (fst (Server1.retry_github_request request ctx N)) = [] /\
   effects (fst (Server1.retry_github_request request ctx N))
     = [Acquire; Request 0]) /\
  (snd (Server6.retry_github_request request ctx N)
     = Raises (HTTPStatusError (Some r)) /\
   requests (fst (Server6.retry_github_request request ctx N)) = [0] /\
   sleeps (fst (Server6.retry_github_request request ctx N)) = [] /\
   effects (fst (Server6.retry_github_request request ctx N))
     = [Acquire; Request 0]).
Proof.
  intros HN Hs H429 Hr.
  destruct (client_error_not_retryable _ Hs H429) as [Hnr Hns].
  destruct (goes_on_settled request N 0) as [Hg Ho].
  { rewrite Hr. exact Hnr. }
  assert (Hv : outcome_at request N 0 = Raises (HTTPStatusError (Some r))).
  { rewrite Ho, Hr. cbn [verdict]. now rewrite Hns. }
  destruct (ran_after_transient request ctx N 0) as [H1 H6].
  - lia.
  - unfold FLOAT_MAX_EXP. lia.
  - intros i Hi. lia.
  - exact Hg.
  - rewrite Hv in H1, H6.
    destruct H1 as (A1 & B1 & C1 & D1), H6 as (A6 & B6 & C6 & D6).
    repeat split; assumption.
Qed.

Lemma client_error_is_terminal_witness :
  snd (Server1.retry_github_request missing_upstream (Some TheContext) MAX_RETRIES)
    = Raises (HTTPStatusError (Some (mkResponse 404 (Some 57) Payload.JOther))) /\
  requests (fst (Server6.retry_github_request missing_upstream (Some TheContext)
                   MAX_RETRIES)) = [0].
Proof.
  destruct (client_error_is_terminal missing_upstream (Some TheContext) MAX_RETRIES
              (mkResponse 404 (Some 57) Payload.JOther))
    as [(H1 & _) (_ & H6 & _)].
  - unfold MAX_RETRIES. lia.
  - cbn. lia.
  - cbn. lia.
  - reflexivity.
  - split; assumption.
Defined.

(* ----------------------------------------------------------------- *)
(** *** Every call concludes *)



Lemma server1_limited_on sink request ctx N :
  limited (Server1.body_on sink request ctx N).
Proof. intros a le. body_cases; eexists; split; reflexivity. Qed.

Lemma server6_limited_on sink request ctx N :
  limited (Server6.body_on sink request ctx N).
Proof. intros a le. body_cases; eexists; split; reflexivity. Qed.









(* ----------------------------------------------------------------- *)
(** *** The observability context *)

Lemma for_attempts_same_control b1 b2 :
  same_control b1 b2 ->
  forall attempts le,
    snd (for_attempts b1 attempts le) = snd (for_attempts b2 attempts le) /\
    effects (fst (for_attempts b1 attempts le))
      = effects (fst (for_attempts b2 attempts le)).
Proof.
  intros Hsame. induction attempts as [|a rest IH]; intros le.
  - split; reflexivity.
  - cbn [for_attempts]. destruct (Hsame a le) as [Hs He].
    destruct (b1 a le) as [t1 s1], (b2 a le) as [t2 s2].
    cbn [fst snd] in Hs, He. subst s2.
    destruct s1 as [le'|o]; cbn [fst snd]; [|split; [reflexivity|exact He]].
    destruct (IH le') as [IHs IHe]. unfold after. cbn [fst snd].
    split; [exact IHs|]. rewrite !effects_app, He, IHe. reflexivity.
Qed.

Lemma server1_same_control request ctx N :
  same_control (Server1.body request ctx N) (Server1.body request None N).
Proof. intros a le. body_cases; split; reflexivity. Qed.

Lemma server6_same_control request ctx N :
  same_control (Server6.body request ctx N) (Server6.body request None N).
Proof. intros a le. body_cases; split; reflexivity. Qed.

Lemma effects_without_ctx_server1 request N attempts le :
  effects (fst (for_attempts (Server1.body request None N) attempts le))
    = fst (for_attempts (Server1.body request None N) attempts le).
Proof.
  revert le. induction attempts as [|a rest IH]; intros le; [reflexivity|].
  cbn [for_attempts].
  destruct (Server1.body request None N a le) as [tr st] eqn:E.
  assert (Htr : effects tr = tr).
  { replace tr with (fst (Server1.body request None N a le)) by now rewrite E.
    clear E. body_cases; reflexivity. }
  destruct st as [le'|o]; cbn [fst]; [|exact Htr].
  unfold after. cbn [fst]. now rewrite effects_app, Htr, IH.
Qed.

Lemma effects_without_ctx_server6 request N attempts le :
  effects (fst (for_attempts (Server6.body request None N) attempts le))
    = fst (for_attempts (Server6.body request None N) attempts le).
Proof.
  revert le. induction attempts as [|a rest IH]; intros le; [reflexivity|].
  cbn [for_attempts].
  destruct (Server6.body request None N a le) as [tr st] eqn:E.
  assert (Htr : effects tr = tr).
  { replace tr with (fst (Server6.body request None N a le)) by now rewrite E.
    clear E. body_cases; reflexivity. }
  destruct st as [le'|o]; cbn [fst]; [|exact Htr].
  unfold after. cbn [fst]. now rewrite effects_app, Htr, IH.
Qed.

(** With a context that accepts every notification, the notifications
    change neither the outcome nor the other effects. *)
Lemma reliable_ctx_does_not_affect_control (request : Z -> Reply)
  (ctx : option Context) (N : Z) :
  (snd (Server1.retry_github_request request ctx N)
     = snd (Server1.retry_github_request request None N) /\
   effects (fst (Server1.retry_github_request request ctx N))
     = fst (Server1.retry_github_request request None N)) /\
  (snd (Server6.retry_github_request request ctx N)
     = snd (Server6.retry_github_request request None N) /\
   effects (fst (Server6.retry_github_request request ctx N))
     = fst (Server6.retry_github_request request None N)).
Proof.
  split.
  - destruct (for_attempts_same_control _ _ (server1_same_control request ctx N)
                (range N) None) as [Hs He].
    unfold Server1.retry_github_request, Server1.retry_github_request_on,
      Server1.retry_loop_on. cbn [fst snd].
    fold (Server1.body request ctx N). fold (Server1.body request None N).
    rewrite Hs, He. split; [reflexivity|apply effects_without_ctx_server1].
  - destruct (for_attempts_same_control _ _ (server6_same_control request ctx N)
                (range N) None) as [Hs He].
    unfold Server6.retry_github_request, Server6.retry_github_request_on,
      Server6.retry_loop_on. cbn [fst snd].
    fold (Server6.body request ctx N). fold (Server6.body request None N).
    rewrite Hs, He. split; [reflexivity|apply effects_without_ctx_server6].
Qed.

Lemma accepts_app sink t1 t2 :
  accepts sink (t1 ++ t2) -> accepts sink t1 /\ accepts sink t2.
Proof.
  intros H. split; intros n Hn; apply H, in_or_app; [now left|now right].
Qed.

(** A pass whose notifications were all accepted is the pass made with a
    context that accepts every notification. *)
Lemma server1_body_accepted sink request ctx N a le :
  accepts sink (fst (Server1.body_on sink request ctx N a le)) ->
  Server1.body_on sink request ctx N a le = Server1.body request ctx N a le.
Proof.
  unfold accepts. body_cases; intros H; try reflexivity; refused H.
Qed.

Lemma server6_body_accepted sink request ctx N a le :
  accepts sink (fst (Server6.body_on sink request ctx N a le)) ->
  Server6.body_on sink request ctx N a le = Server6.body request ctx N a le.
Proof.
  unfold accepts. body_cases; intros H; try reflexivity; refused H.
Qed.

Lemma for_attempts_accepted sink (b1 b2 : Z -> option Exception -> Trace * Step) :
  (forall a le, accepts sink (fst (b1 a le)) -> b1 a le = b2 a le) ->
  forall attempts le,
    accepts sink (fst (for_attempts b1 attempts le)) ->
    for_attempts b1 attempts le = for_attempts b2 attempts le.
Proof.
  intros Hb. induction attempts as [|a rest IH]; intros le Hacc; [reflexivity|].
  cbn [for_attempts] in *. specialize (Hb a le).
  destruct (b1 a le) as [tr [le'|o]]; cbn [fst] in *.
  - unfold after in Hacc. cbn [fst] in Hacc.
    apply accepts_app in Hacc as [H1 H2].
    rewrite <- (Hb H1). now rewrite (IH le' H2).
  - now rewrite <- (Hb Hacc).
Qed.

(** Without a context nothing is notified. *)
Lemma server1_body_without_ctx sink request N a le :
  Server1.body_on sink request None N a le = Server1.body request None N a le.
Proof. body_cases; reflexivity. Qed.

Lemma server6_body_without_ctx sink request N a le :
  Server6.body_on sink request None N a le = Server6.body request None N a le.
Proof. body_cases; reflexivity. Qed.

Lemma for_attempts_ext (b1 b2 : Z -> option Exception -> Trace * Step) :
  (forall a le, b1 a le = b2 a le) ->
  forall attempts le, for_attempts b1 attempts le = for_attempts b2 attempts le.
Proof.
  intros Hb. induction attempts as [|a rest IH]; intros le; [reflexivity|].
  cbn [for_attempts]. rewrite Hb. destruct (b2 a le) as [tr [le'|o]];
    [now rewrite IH|reflexivity].
Qed.

Lemma server1_accepted sink request ctx N :
  accepts sink (fst (Server1.retry_github_request_on sink request ctx N)) ->
  Server1.retry_github_request_on sink request ctx N
    = Server1.retry_github_request request ctx N.
Proof.
  intros H. unfold Server1.retry_github_request,
    Server1.retry_github_request_on, Server1.retry_loop_on in *.
  cbn [fst] in H.
  now rewrite (for_attempts_accepted sink _ (Server1.body_on reliable request ctx N)
                 (fun a le => server1_body_accepted sink request ctx N a le)
                 (range N) None H).
Qed.

Lemma server6_accepted sink request ctx N :
  accepts sink (fst (Server6.retry_github_request_on sink request ctx N)) ->
  Server6.retry_github_request_on sink request ctx N
    = Server6.retry_github_request request ctx N.
Proof.
  intros H. unfold Server6.retry_github_request,
    Server6.retry_github_request_on, Server6.retry_loop_on in *.
  cbn [fst] in H.
  now rewrite (for_attempts_accepted sink _ (Server6.body_on reliable request ctx N)
                 (fun a le => server6_body_accepted sink request ctx N a le)
                 (range N) None H).
Qed.

Lemma server1_without_ctx sink request N :
  Server1.retry_github_request_on sink request None N
    = Server1.retry_github_request request None N.
Proof.
  unfold Server1.retry_github_request, Server1.retry_github_request_on,
    Server1.retry_loop_on.
  now rewrite (for_attempts_ext _ (Server1.body_on reliable request None N)
                 (server1_body_without_ctx sink request N)).
Qed.

Lemma server6_without_ctx sink request N :
  Server6.retry_github_request_on sink request None N
    = Server6.retry_github_request request None N.
Proof.
  unfold Server6.retry_github_request, Server6.retry_github_request_on,
    Server6.retry_loop_on.
  now rewrite (for_attempts_ext _ (Server6.body_on reliable request None N)
                 (server6_body_without_ctx sink request N)).
Qed.

(** C9, as the code has it.  For every fixed upstream behaviour and every
    budget, supplying an observability context changes neither the outcome of
    [retry_github_request] (the response returned or the exception raised)
    nor its requests and sleeps, as long as the context returns from every
    notification that the call sends it: with the [ctx.info] notifications
    removed, among them the low-quota advisory (below 100 in mcp-server-1,
    below 10 in mcp-server-6), the trace is then the trace of the call made
    with [ctx=None].  The call made with [ctx=None] does not depend on what
    a context would do. *)
Theorem ctx_does_not_affect_control (sink : Sink) (request : Z -> Reply)
  (ctx : option Context) (N : Z) :
  (accepts sink (fst (Server1.retry_github_request_on sink request ctx N)) ->
   snd (Server1.retry_github_request_on sink request ctx N)
     = snd (Server1.retry_github_request_on sink request None N) /\
   effects (fst (Server1.retry_github_request_on sink request ctx N))
     = fst (Server1.retry_github_request_on sink request None N)) /\
  (accepts sink (fst (Server6.retry_github_request_on sink request ctx N)) ->
   snd (Server6.retry_github_request_on sink request ctx N)
     = snd (Server6.retry_github_request_on sink request None N) /\
   effects (fst (Server6.retry_github_request_on sink request ctx N))
     = fst (Server6.retry_github_request_on sink request None N)) /\
  Server1.retry_github_request_on sink request None N
    = Server1.retry_github_request request None N /\
  Server6.retry_github_request_on sink request None N
    = Server6.retry_github_request request None N.
Proof.
  destruct (reliable_ctx_does_not_affect_control request ctx N) as [H1 H6].
  split; [|split; [|split]].
  - intros Hacc. rewrite (server1_accepted _ _ _ _ Hacc), server1_without_ctx.
    exact H1.
  - intros Hacc. rewrite (server6_accepted _ _ _ _ Hacc), server6_without_ctx.
    exact H6.
  - apply server1_without_ctx.
  - apply server6_without_ctx.
Qed.

Lemma ctx_does_not_affect_control_witness :
  snd (Server1.retry_github_request_on quota_deaf flaky_upstream
         (Some TheContext) 3)
    = Returns (mkResponse 200 (Some 4999) Payload.JOther) /\
  effects (fst (Server6.retry_github_request_on reliable flaky_upstream
                  (Some TheContext) 3))
    = [Acquire; Request 0; Sleep 1; Acquire; Request 1; Sleep 2;
       Acquire; Request 2].
Proof.
  split.
  - destruct (ctx_does_not_affect_control quota_deaf flaky_upstream
                (Some TheContext) 3) as (H1 & _).
    destruct H1 as [Ho _].
    + intros n Hin. vm_compute in Hin.
      repeat (destruct Hin as [Hin|Hin];
              [try discriminate Hin; injection Hin as <-; reflexivity|]).
      destruct Hin.
    + rewrite Ho. reflexivity.
  - destruct (ctx_does_not_affect_control reliable flaky_upstream
                (Some TheContext) 3) as (_ & H6 & _).
    destruct H6 as [_ He].
    + intros n _. reflexivity.
    + rewrite He. reflexivity.
Defined.

(** C9, as the claim states it, fails when a notification raises.  The
    upstream answers 503, 503, 200 and the budget is 3.  Without a context
    the 200 response is returned after three requests.  With a context whose
    [ctx.info] raises, the first retry notice (in mcp-server-6 the low-quota
    advisory before it) raises inside the [try]; the exception is none of
    those the [except] clauses catch, so it leaves the function after one
    request: the outcome is that exception. *)
Lemma refused_notification_changes_outcome :
  (snd (Server1.retry_github_request_on closed flaky_upstream None 3)
     = Returns (mkResponse 200 (Some 4999) Payload.JOther) /\
   snd (Server1.retry_github_request_on closed flaky_upstream (Some TheContext) 3)
     = Raises (OtherException "ClosedResourceError") /\
   requests (fst (Server1.retry_github_request_on closed flaky_upstream None 3))
     = [0; 1; 2] /\
   fst (Server1.retry_github_request_on closed flaky_upstream (Some TheContext) 3)
     = [Acquire; Request 0; CtxInfo (RetryStatus 503 1 3 1)]) /\
  (snd (Server6.retry_github_request_on closed flaky_upstream None 3)
     = Returns (mkResponse 200 (Some 4999) Payload.JOther) /\
   snd (Server6.retry_github_request_on closed flaky_upstream (Some TheContext) 3)
     = Raises (OtherException "ClosedResourceError") /\
   requests (fst (Server6.retry_github_request_on closed flaky_upstream None 3))
     = [0; 1; 2] /\
   fst (Server6.retry_github_request_on closed flaky_upstream (Some TheContext) 3)
     = [Acquire; Request 0; CtxInfo (LowQuota 0)]).
Proof. repeat split. Qed.

(* ----------------------------------------------------------------- *)
(** *** Timeouts and network failures *)

Lemma verdict_of_exception reply e :
  exception_of reply = Some e -> verdict reply = Raises e.
Proof. destruct reply; cbn; intros [= <-]; reflexivity. Qed.

(** A timeout or a network failure is retried like a retriable status: when
    the attempts before the last are answered with transient failures of any
    kind and the last attempt of the budget [N], [1 <= N <= 1025], times out
    or fails at the network level, both implementations send the [N]
    requests, sleep [RETRY_DELAY_BASE * 2 ^ i] after attempt [i < N - 1] and
    raise the exception of the last attempt. *)
Theorem transport_failure_uses_whole_budget (request : Z -> Reply)
  (ctx : option Context) (N : Z) (e : Exception) :
  1 <= N <= FLOAT_MAX_EXP + 1 ->
  (forall i, 0 <= i < N - 1 -> transient (request i)) ->
  exception_of (request (N - 1)) = Some e ->
  ran Server1.retry_github_request request ctx N (N - 1) (Raises e) /\
  ran Server6.retry_github_request request ctx N (N - 1) (Raises e).
Proof.
  intros HN Hpre He.
  rewrite <- (verdict_of_exception _ _ He), <- outcome_at_last.
  apply ran_after_transient.
  - lia.
  - lia.
  - exact Hpre.
  - apply goes_on_last.
Qed.

Lemma transport_failure_uses_whole_budget_witness :
  snd (Server1.retry_github_request (fun _ => TimesOut) (Some TheContext) 3)
    = Raises TimeoutException /\
  sleeps (fst (Server6.retry_github_request (fun _ => TimesOut) (Some TheContext) 3))
    = [1; 2].
Proof.
  destruct (transport_failure_uses_whole_budget (fun _ => TimesOut)
              (Some TheContext) 3 TimeoutException)
    as [(H1 & _) (_ & _ & _ & H6)].
  - unfold FLOAT_MAX_EXP. lia.
  - intros i _. exact I.
  - reflexivity.
  - split; [exact H1|exact H6].
Defined.

(* ----------------------------------------------------------------- *)
(** *** Requests and the rate limiter *)

Lemma permits_after_quiet rest tr :
  quiet rest = true ->
  permits_precede_requests (rest ++ tr) = permits_precede_requests tr.
Proof.
  induction rest as [|e rest IH]; intros Hq; [reflexivity|].
  cbn [quiet forallb] in Hq. apply andb_true_iff in Hq as [He Hq].
  destruct e; try discriminate; cbn [app permits_precede_requests]; now apply IH.
Qed.

Lemma for_attempts_limited body :
  limited body ->
  forall attempts le,
    permits_precede_requests (fst (for_attempts body attempts le)) = true.
Proof.
  intros Hb. induction attempts as [|a rest IH]; intros le; [reflexivity|].
  cbn [for_attempts]. destruct (Hb a le) as (quiet_part & Htr & Hq).
  destruct (body a le) as [tr [le'|o]]; cbn [fst] in Htr; subst tr.
  - unfold after. cbn [fst app permits_precede_requests].
    rewrite permits_after_quiet by exact Hq. apply IH.
  - cbn [fst permits_precede_requests].
    rewrite <- (app_nil_r quiet_part). now rewrite permits_after_quiet.
Qed.

Lemma server1_limited request ctx N : limited (Server1.body request ctx N).
Proof. apply server1_limited_on. Qed.

Lemma server6_limited request ctx N : limited (Server6.body request ctx N).
Proof. apply server6_limited_on. Qed.

(** In both implementations every HTTP request is sent right after the
    shared rate limiter was entered, for every upstream behaviour, [ctx] and
    budget: no request without a permit. *)
Theorem no_request_without_permit (request : Z -> Reply) (ctx : option Context)
  (N : Z) :
  permits_precede_requests (fst (Server1.retry_github_request request ctx N)) = true /\
  permits_precede_requests (fst (Server6.retry_github_request request ctx N)) = true.
Proof.
  split.
  - apply (for_attempts_limited _ (server1_limited request ctx N)).
  - apply (for_attempts_limited _ (server6_limited request ctx N)).
Qed.

(* ================================================================= *)
(** ** Facts about [fetch_repository_data] *)

Section FetchFacts.
Import Comparison ComparisonSpec.

Variable X : Externals.
Variables owner repo : string.

Lemma fetch_main_raises e :
  retry_github_request X (repo_call owner repo) = Raises e ->
  fetch_repository_data X owner repo = ([repo_call owner repo], inl e).
Proof. intros H. unfold fetch_repository_data. now rewrite H. Qed.

Lemma fetch_not_json r error :
  retry_github_request X (repo_call owner repo) = Returns r ->
  json r = Payload.JInvalid error ->
  fetch_repository_data X owner repo
    = ([repo_call owner repo], inl (ValueError error)).
Proof.
  intros H Hj. unfold fetch_repository_data, decode. now rewrite H, Hj.
Qed.

Lemma decode_decodes r :
  decodes r -> decode r = inr (json r).
Proof.
  unfold decodes, decode. intros H.
  destruct (json r) as [d|d|d| |error]; try reflexivity. now destruct (H error).
Qed.

(** After a metadata answer that is JSON the three calls are made. *)
Lemma fetch_decoded r :
  retry_github_request X (repo_call owner repo) = Returns r ->
  decodes r ->
  fetch_repository_data X owner repo
    = ([repo_call owner repo; search_call owner repo; commits_call owner repo],
       build_repo_data X owner repo (json r)
         (fetch_open_prs_count (retry_github_request X (search_call owner repo)))
         (fetch_last_commit_date X
            (retry_github_request X (commits_call owner repo)))).
Proof.
  intros H Hd. unfold fetch_repository_data.
  now rewrite H, (decode_decodes r Hd).
Qed.

Lemma usable_decodes r : usable_metadata X r -> decodes r.
Proof.
  intros (d & pushed & Hj & _) error He. rewrite He in Hj. discriminate.
Qed.

Lemma build_repo_data_usable r prs date :
  usable_metadata X r ->
  exists data,
    build_repo_data X owner repo (json r) prs date = inr data /\
    Comparison.owner data = owner /\ Comparison.repo data = repo /\
    open_prs_count data = prs /\
    last_commit_date data = option_map (isoformat X) date /\
    last_commit_age_days data = calculate_days_ago X date.
Proof.
  intros (d & pushed & Hj & Hp). unfold build_repo_data. rewrite Hj, Hp.
  eexists. split; [reflexivity|]. cbn. destruct date; repeat split; reflexivity.
Qed.

Lemma build_repo_data_unusable r prs date :
  ~ usable_metadata X r ->
  build_repo_data X owner repo (json r) prs date = inl AttributeError.
Proof.
  intros Hu. unfold build_repo_data.
  destruct (repo_fields (json r)) as [d|] eqn:Hj; [|reflexivity].
  destruct (fetch_pushed_at X (Payload.pushed_at d)) as [e|pushed] eqn:Hp.
  - unfold fetch_pushed_at in Hp.
    destruct (Payload.pushed_at d) as [s|]; [|discriminate].
    destruct (String.eqb s ""); [discriminate|].
    destruct (parse_github_datetime X (Some s)); [discriminate|].
    now injection Hp as <-.
  - destruct Hu. now exists d, pushed.
Qed.

End FetchFacts.

(** C10, as the code has it.  In [fetch_repository_data] the two sub-calls
    never decide whether the target fails: that is settled by the metadata
    call and its answer alone.  An exception of the metadata call is raised
    as it is, after that one call.  A metadata answer whose body is not JSON
    raises the [ValueError] of [response.json()], after that one call.  When
    the body is JSON the three calls are made; if the answer can be read (a
    JSON object whose [pushed_at] is absent, empty or parses), the function
    returns a dictionary whatever the two sub-calls do: an exception of the
    open-PR search (of any kind) is swallowed and leaves
    [open_prs_count = 0]; an exception of the latest-commit call is
    swallowed and leaves [last_commit_date = None] and
    [last_commit_age_days = None]; otherwise [AttributeError] is raised.
    The aggregator holds an error marker for the target exactly when the
    function raised, with [str] of that exception. *)
Theorem only_metadata_failure_fails_target (X : Comparison.Externals)
  (owner repo : string) :
  (forall e,
     Comparison.retry_github_request X (Comparison.repo_call owner repo) = Raises e ->
     Comparison.fetch_repository_data X owner repo
       = ([Comparison.repo_call owner repo], inl e)) /\
  (forall r error,
     Comparison.retry_github_request X (Comparison.repo_call owner repo) = Returns r ->
     json r = Payload.JInvalid error ->
     Comparison.fetch_repository_data X owner repo
       = ([Comparison.repo_call owner repo], inl (ValueError error))) /\
  (forall r,
     Comparison.retry_github_request X (Comparison.repo_call owner repo) = Returns r ->
     ComparisonSpec.usable_metadata X r ->
     exists data,
       Comparison.fetch_repository_data X owner repo
         = ([Comparison.repo_call owner repo; Comparison.search_call owner repo;
             Comparison.commits_call owner repo], inr data) /\
       (forall e,
          Comparison.retry_github_request X (Comparison.search_call owner repo)
            = Raises e ->
          Comparison.open_prs_count data = 0) /\
       (forall e,
          Comparison.retry_github_request X (Comparison.commits_call owner repo)
            = Raises e ->
          Comparison.last_commit_date data = None /\
          Comparison.last_commit_age_days data = None)) /\
  (forall r,
     Comparison.retry_github_request X (Comparison.repo_call owner repo) = Returns r ->
     ComparisonSpec.decodes r ->
     ~ ComparisonSpec.usable_metadata X r ->
     Comparison.fetch_repository_data X owner repo
       = ([Comparison.repo_call owner repo; Comparison.search_call owner repo;
           Comparison.commits_call owner repo], inl AttributeError)) /\
  (forall o n msg,
     ComparisonSpec.entry_of X (owner, repo) = Comparison.ErrorMarker o n msg <->
     o = owner /\ n = repo /\
     exists e,
       snd (Comparison.fetch_repository_data X owner repo) = inl e /\
       msg = Comparison.str X e).
Proof.
  split; [|split; [|split; [|split]]].
  - intros e He. now apply fetch_main_raises.
  - intros r error Hr Hj. now apply (fetch_not_json X owner repo r).
  - intros r Hr Hu.
    rewrite (fetch_decoded X owner repo r Hr (usable_decodes X r Hu)).
    destruct (build_repo_data_usable X owner repo r
                (Comparison.fetch_open_prs_count
                   (Comparison.retry_github_request X
                      (Comparison.search_call owner repo)))
                (Comparison.fetch_last_commit_date X
                   (Comparison.retry_github_request X
                      (Comparison.commits_call owner repo))) Hu)
      as (data & Hd & _ & _ & Hprs & Hdate & Hage).
    exists data. split; [now rewrite Hd|]. split.
    + intros e He. rewrite Hprs, He. reflexivity.
    + intros e He. rewrite Hdate, Hage, He. split; reflexivity.
  - intros r Hr Hd Hu. rewrite (fetch_decoded X owner repo r Hr Hd).
    now rewrite build_repo_data_unusable.
  - intros o n msg. unfold ComparisonSpec.entry_of, Comparison.collect_one.
    cbn [fst snd].
    destruct (snd (Comparison.fetch_repository_data X owner repo)) as [e|d];
      cbn [snd]; split.
    + intros [= <- <- <-]. split; [reflexivity|]. split; [reflexivity|].
      now exists e.
    + intros (-> & -> & e' & [= <-] & ->). reflexivity.
    + discriminate.
    + intros (_ & _ & e' & He' & _). discriminate.
Qed.

Lemma only_metadata_failure_fails_target_witness :
  exists data,
    snd (Comparison.fetch_repository_data Sample.scenario_sub_calls_fail "org" "one")
      = inr data /\
    Comparison.open_prs_count data = 0 /\
    Comparison.last_commit_date data = None /\
    Comparison.last_commit_age_days data = None.
Proof.
  destruct (only_metadata_failure_fails_target Sample.scenario_sub_calls_fail
              "org" "one") as (_ & _ & Hok & _).
  destruct (Hok (mkResponse 200 (Some 4000)
                   (Payload.JRepo
                      (Payload.mkRepoJson (Some 12) (Some 100) (Some 10) (Some 3)
                         (Some "Python") (Some false) (Some false) None)))
              eq_refl)
    as (data & Hdata & Hprs & Hcommit).
  - eexists _, None. split; reflexivity.
  - exists data. split; [now rewrite Hdata|]. split.
    + exact (Hprs NetworkError eq_refl).
    + exact (Hcommit NetworkError eq_refl).
Defined.

(** C10, as the claim states it, fails.  The metadata call of the target
    returns a 2xx repository object and the two sub-calls return as well, so
    no call failed; but the ["pushed_at"] of the object is no ISO timestamp,
    [parse_github_datetime] gives [None], and [.isoformat()] on it raises
    [AttributeError] while the dictionary is built: the target gets an error
    marker in the aggregator.  So does a target whose metadata call returns
    a 2xx page that is not JSON. *)
Lemma unreadable_metadata_fails_target :
  (Comparison.retry_github_request Sample.scenario_unparsed_push
     (Comparison.repo_call "org" "one")
     = Sample.pushed_response "yesterday" /\
   Comparison.retry_github_request Sample.scenario_unparsed_push
     (Comparison.search_call "org" "one")
     = Sample.search_response 2 /\
   Comparison.retry_github_request Sample.scenario_unparsed_push
     (Comparison.commits_call "org" "one")
     = Sample.commits_response "2024-01-30T00:00:00Z" /\
   Comparison.fetch_repository_data Sample.scenario_unparsed_push "org" "one"
     = ([Comparison.repo_call "org" "one"; Comparison.search_call "org" "one";
         Comparison.commits_call "org" "one"], inl AttributeError) /\
   ComparisonSpec.entry_of Sample.scenario_unparsed_push ("org", "one")
     = Comparison.ErrorMarker "org" "one"
         "'NoneType' object has no attribute 'isoformat'") /\
  (exists r,
     Comparison.retry_github_request Sample.scenario_not_json
       (Comparison.repo_call "org" "one") = Returns r /\
     status_code r = 200 /\
     ComparisonSpec.entry_of Sample.scenario_not_json ("org", "one")
       = Comparison.ErrorMarker "org" "one"
           "Expecting value: line 1 column 1 (char 0)").
Proof.
  split.
  - repeat split.
  - eexists. repeat split.
Qed.

(* ================================================================= *)
(** ** Facts about the validation of [compare_repositories] *)

Section ValidationFacts.
Import Comparison ComparisonSpec.

Lemma check_keys_length repositories targets :
  check_keys repositories = inr targets ->
  List.length targets = List.length repositories /\
  repositories = map (fun t => mkRepository (Some (fst t)) (Some (snd t))) targets.
Proof.
  revert targets. induction repositories as [|r rest IH]; intros targets H.
  - injection H as <-. split; reflexivity.
  - cbn [check_keys] in H. destruct r as [[o|] [n|]]; cbn in H; try discriminate.
    destruct (check_keys rest) as [e|ts]; cbn in H; [discriminate|].
    injection H as <-. destruct (IH ts eq_refl) as [Hl Hm].
    cbn. split; [now rewrite Hl|now rewrite <- Hm].
Qed.

Lemma check_keys_complete repositories :
  (forall r, In r repositories -> owner_key r <> None /\ repo_key r <> None) ->
  exists targets, check_keys repositories = inr targets.
Proof.
  induction repositories as [|r rest IH]; intros H.
  - now exists [].
  - destruct IH as [ts Hts]; [intros r' Hr'; apply H; now right|].
    destruct (H r (or_introl eq_refl)) as [Ho Hn].
    cbn [check_keys]. destruct (owner_key r) as [o|]; [|congruence].
    destruct (repo_key r) as [n|]; [|congruence].
    rewrite Hts. cbn. now eexists.
Qed.

Lemma require_token environ :
  _require_env_vars environ ["GITHUB_TOKEN"] =
  match environ "GITHUB_TOKEN" with
  | Some value => inr [("GITHUB_TOKEN", value)]
  | None =>
      inl (ValueError
             "Отсутствуют обязательные переменные окружения: GITHUB_TOKEN")
  end.
Proof.
  unfold _require_env_vars. cbn. destruct (environ "GITHUB_TOKEN"); reflexivity.
Qed.

(** Outside [2, 5] the validation raises a [ValueError]. *)
Lemma validate_rejects_count environ repositories :
  (List.length repositories < 2 \/ 5 < List.length repositories)%nat ->
  exists msg, validate environ repositories = inl (ValueError msg).
Proof.
  intros Hlen. unfold validate. rewrite require_token.
  destruct (environ "GITHUB_TOKEN"); cbn [bind]; [|eauto].
  destruct (Z.ltb_spec (Z.of_nat (List.length repositories)) 2); [eauto|].
  destruct (Z.ltb_spec 5 (Z.of_nat (List.length repositories))); [eauto|].
  lia.
Qed.

Lemma validate_in_range environ repositories targets :
  validate environ repositories = inr targets ->
  (2 <= List.length repositories <= 5)%nat /\
  check_keys repositories = inr targets.
Proof.
  unfold validate. rewrite require_token.
  destruct (environ "GITHUB_TOKEN"); cbn [bind]; [|discriminate].
  destruct (Z.ltb_spec (Z.of_nat (List.length repositories)) 2); [discriminate|].
  destruct (Z.ltb_spec 5 (Z.of_nat (List.length repositories))); [discriminate|].
  intros Hkeys. split; [lia|exact Hkeys].
Qed.

Lemma validate_accepts environ repositories :
  (2 <= List.length repositories <= 5)%nat ->
  environ "GITHUB_TOKEN" <> None ->
  validate environ repositories = check_keys repositories.
Proof.
  intros Hlen Htok. unfold validate. rewrite require_token.
  destruct (environ "GITHUB_TOKEN"); [|congruence]. cbn [bind].
  destruct (Z.ltb_spec (Z.of_nat (List.length repositories)) 2); [lia|].
  destruct (Z.ltb_spec 5 (Z.of_nat (List.length repositories))); [lia|].
  reflexivity.
Qed.

Lemma calls_app l1 l2 : calls (l1 ++ l2) = calls l1 ++ calls l2.
Proof.
  induction l1 as [|e l1 IH]; [reflexivity|].
  destruct e; cbn; rewrite IH; try reflexivity. apply app_assoc.
Qed.

Lemma calls_gathered tasks : calls [Gathered tasks] = List.concat tasks.
Proof. cbn. apply app_nil_r. Qed.

Lemma calls_collect X targets results :
  calls (fst (collect X targets results)) = [].
Proof.
  revert results. induction targets as [|t ts IH]; intros [|r rs]; try reflexivity.
  cbn [collect fst]. rewrite calls_app, IH.
  destruct r; reflexivity.
Qed.

Lemma calls_on_exception X log e :
  calls (fst (on_exception X log e)) = calls log.
Proof.
  destruct e; cbn; try reflexivity. rewrite calls_app. cbn. apply app_nil_r.
Qed.

(** The calls of a comparison that got past the validation: those of the
    tasks of its [gather]. *)
Lemma calls_of_comparison X environ repositories metrics targets :
  validate environ repositories = inr targets ->
  calls (fst (compare_repositories X environ repositories metrics))
    = List.concat (map fst (gather X targets)).
Proof.
  intros Hv. unfold compare_repositories. rewrite Hv.
  destruct (build_summary _) as [e|s].
  - rewrite calls_on_exception. rewrite !calls_app, calls_gathered, calls_collect.
    cbn [calls app]. now rewrite !app_nil_r.
  - cbn [fst]. rewrite !calls_app, calls_gathered, calls_collect.
    cbn [calls app]. now rewrite !app_nil_r.
Qed.

Lemma first_call_of_fetch X owner repo :
  exists rest,
    fst (fetch_repository_data X owner repo) = repo_call owner repo :: rest.
Proof.
  unfold fetch_repository_data.
  destruct (retry_github_request X (repo_call owner repo)) as [r|e]; cbn; eauto.
  destruct (decode r); cbn; eauto.
Qed.

Lemma metadata_calls_sent X targets t :
  In t targets ->
  In (repo_call (fst t) (snd t)) (List.concat (map fst (gather X targets))).
Proof.
  intros Hin. apply in_concat.
  exists (fst (fetch_repository_data X (fst t) (snd t))). split.
  - unfold gather. rewrite map_map. apply in_map_iff. now exists t.
  - destruct (first_call_of_fetch X (fst t) (snd t)) as [rest ->]. now left.
Qed.

End ValidationFacts.

(** C6. A call of [compare_repositories] with fewer than 2 or more than 5
    repositories ends with the invalid-params [McpError] (code -32602) and
    no upstream call is made.  With 2 to 5 repositories, a token in the
    environment and both keys in every element, the validation passes and
    the metadata call of every target is made. *)
Theorem target_count_is_validated (X : Comparison.Externals)
  (environ : Comparison.Environ) (repositories : list Comparison.Repository)
  (metrics : option (list string)) :
  ((List.length repositories < 2 \/ 5 < List.length repositories)%nat ->
   (exists msg,
      snd (Comparison.compare_repositories X environ repositories metrics)
        = inl (Comparison.mkMcpError (-32602) msg)) /\
   Comparison.calls
     (fst (Comparison.compare_repositories X environ repositories metrics)) = []) /\
  ((2 <= List.length repositories <= 5)%nat ->
   environ "GITHUB_TOKEN" <> None ->
   (forall r, In r repositories ->
      Comparison.owner_key r <> None /\ Comparison.repo_key r <> None) ->
   exists targets,
     Comparison.validate environ repositories = inr targets /\
     repositories
       = map (fun t => Comparison.mkRepository (Some (fst t)) (Some (snd t)))
           targets /\
     forall t, In t targets ->
       In (Comparison.repo_call (fst t) (snd t))
         (Comparison.calls
            (fst (Comparison.compare_repositories X environ repositories
                    metrics)))).
Proof.
  split.
  - intros Hlen.
    destruct (validate_rejects_count environ repositories Hlen) as [msg Hv].
    unfold Comparison.compare_repositories. rewrite Hv. cbn. eauto.
  - intros Hlen Htok Hkeys.
    destruct (check_keys_complete repositories Hkeys) as [targets Hts].
    exists targets. rewrite validate_accepts by assumption.
    split; [exact Hts|]. split; [apply (check_keys_length _ _ Hts)|].
    intros t Ht. rewrite (calls_of_comparison X environ repositories metrics targets).
    + now apply metadata_calls_sent.
    + now rewrite validate_accepts.
Qed.

Lemma target_count_is_validated_witness :
  (snd (Comparison.compare_repositories Sample.scenario_two_targets
          Sample.with_token [Sample.target "org" "one"] None)
     = inl (Comparison.mkMcpError (-32602)
              "Ошибка валидации параметров: Необходимо указать минимум 2 репозитория для сравнения") /\
   Comparison.calls
     (fst (Comparison.compare_repositories Sample.scenario_two_targets
             Sample.with_token [Sample.target "org" "one"] None)) = []) /\
  In (Comparison.repo_call "org" "two")
    (Comparison.calls
       (fst (Comparison.compare_repositories Sample.scenario_two_targets
               Sample.with_token
               Sample.two_targets None))).
Proof.
  split.
  - destruct (target_count_is_validated Sample.scenario_two_targets
                Sample.with_token [Sample.target "org" "one"] None) as [Hrej _].
    destruct Hrej as [_ Hcalls]; [left; cbn; lia|].
    split; [reflexivity|exact Hcalls].
  - destruct (target_count_is_validated Sample.scenario_two_targets
                Sample.with_token
                Sample.two_targets None)
      as [_ Hacc].
    destruct Hacc as (targets & Hv & _ & Hcalls).
    + cbn. lia.
    + discriminate.
    + intros r [<-|[<-|[]]]; split; discriminate.
    + injection Hv as <-. apply (Hcalls ("org", "two")). right. now left.
Defined.

(* ================================================================= *)
(** ** Facts about the aggregation *)

Section AggregationFacts.
Import Comparison ComparisonSpec.

Lemma dict_set_not_nil {V} (d : Dict V) key v : dict_set d key v <> [].
Proof.
  destruct d as [|[k w] d]; cbn; [discriminate|].
  destruct (String.eqb k key); discriminate.
Qed.

Lemma in_dict_set {V} (d : Dict V) key v k w :
  In (k, w) (dict_set d key v) -> (k = key /\ w = v) \/ In (k, w) d.
Proof.
  induction d as [|[k' w'] d IH]; cbn.
  - intros [[= <- <-]|[]]. now left.
  - destruct (String.eqb_spec k' key) as [->|Hne]; cbn.
    + intros [[= <- <-]|H]; [now left|right; now right].
    + intros [H|H]; [right; now left|].
      destruct (IH H) as [?|?]; [now left|right; now right].
Qed.

Lemma keys_dict_set {V} (d : Dict V) key v k :
  In k (keys (dict_set d key v)) -> k = key \/ In k (keys d).
Proof.
  unfold keys. rewrite !in_map_iff. intros ([k' w] & <- & Hin).
  apply in_dict_set in Hin as [[-> ->]|Hin]; [now left|].
  right. now exists (k', w).
Qed.

Lemma dict_get_set {V} (d : Dict V) key v k :
  dict_get (dict_set d key v) k
    = if String.eqb key k then Some v else dict_get d k.
Proof.
  induction d as [|[k' w'] d IH]; cbn.
  - reflexivity.
  - destruct (String.eqb_spec k' key) as [->|Hne]; cbn.
    + destruct (String.eqb key k); reflexivity.
    + rewrite IH. destruct (String.eqb_spec k' k) as [->|Hne'].
      * destruct (String.eqb_spec key k) as [->|]; [congruence|reflexivity].
      * reflexivity.
Qed.

Lemma dict_get_in {V} (d : Dict V) k v : dict_get d k = Some v -> In (k, v) d.
Proof.
  induction d as [|[k' w'] d IH]; cbn; [discriminate|].
  destruct (String.eqb_spec k' k) as [->|Hne].
  - intros [= ->]. now left.
  - intros H. right. now apply IH.
Qed.

(** Error markers leave a metric table as it is. *)
Lemma metric_table_fetched metric entries :
  metric_table metric entries = metric_table metric (map Fetched (fetched entries)).
Proof.
  unfold metric_table. generalize (@nil (string * Z)) as acc.
  induction entries as [|entry entries IH]; intros acc; [reflexivity|].
  destruct entry as [d|o n err]; cbn [fold_left fetched flat_map app map].
  - apply IH.
  - cbn [record_metric]. apply IH.
Qed.

Lemma build_metrics_fetched metrics entries :
  build_metrics metrics entries = build_metrics metrics (map Fetched (fetched entries)).
Proof.
  unfold build_metrics. generalize (@nil (string * Dict Z)) as acc.
  induction (metrics_to_compare metrics) as [|m ms IH]; intros acc; [reflexivity|].
  cbn [fold_left]. rewrite <- metric_table_fetched. apply IH.
Qed.

(** Every table of [comparison_metrics] is the table of its metric. *)
Lemma build_metrics_tables metrics entries metric table :
  In (metric, table) (build_metrics metrics entries) ->
  table = metric_table metric entries.
Proof.
  unfold build_metrics.
  assert (H : forall ms acc,
             (forall m t, In (m, t) acc -> t = metric_table m entries) ->
             forall m t,
               In (m, t)
                 (fold_left
                    (fun cm metric => dict_set cm metric (metric_table metric entries))
                    ms acc) ->
               t = metric_table m entries).
  { induction ms as [|m0 ms IH]; intros acc Hacc m t; cbn [fold_left]; [apply Hacc|].
    apply IH. intros m' t' Hin.
    apply in_dict_set in Hin as [[-> ->]|Hin]; [reflexivity|now apply Hacc]. }
  apply H. intros m t [].
Qed.

Lemma fold_record_metric_keys metric entries acc key :
  In key (keys (fold_left (record_metric metric) entries acc)) ->
  In key (keys acc) \/ exists d, In d (fetched entries) /\ key = key_of d.
Proof.
  revert acc. induction entries as [|entry entries IH]; intros acc; cbn [fold_left].
  - now left.
  - intros H. apply IH in H as [H|(d & Hd & ->)].
    + destruct entry as [d|o n err]; cbn [record_metric] in H.
      * destruct (metric_value metric d); [|now left].
        apply keys_dict_set in H as [->|H]; [|now left].
        right. exists d. split; [now left|reflexivity].
      * now left.
    + right. exists d. split; [|reflexivity].
      destruct entry; cbn [fetched flat_map]; [now right|exact Hd].
Qed.

(** The keys of a metric table are keys of fetched targets. *)
Lemma metric_table_keys metric entries key :
  In key (keys (metric_table metric entries)) ->
  exists d, In d (fetched entries) /\ key = key_of d.
Proof.
  intros H. apply fold_record_metric_keys in H as [[]|H]. exact H.
Qed.

Lemma fold_record_metric_not_nil metric entries acc :
  acc <> [] -> fold_left (record_metric metric) entries acc <> [].
Proof.
  revert acc. induction entries as [|entry entries IH]; intros acc Hacc; [exact Hacc|].
  cbn [fold_left]. apply IH.
  destruct entry as [d|o n err]; cbn [record_metric]; [|exact Hacc].
  destruct (metric_value metric d); [apply dict_set_not_nil|exact Hacc].
Qed.

(** A known metric has a row for every fetched target, so its table is not
    empty when some target was fetched. *)
Lemma metric_table_not_nil metric entries :
  (forall d, metric_value metric d <> None) ->
  fetched entries <> [] ->
  metric_table metric entries <> [].
Proof.
  intros Hknown Hf. unfold metric_table.
  enough (H : forall acc, fold_left (record_metric metric) entries acc <> [])
    by apply H.
  induction entries as [|entry entries IH]; intros acc; [now destruct Hf|].
  cbn [fold_left]. destruct entry as [d|o n err].
  - cbn [record_metric]. specialize (Hknown d).
    destruct (metric_value metric d); [|congruence].
    apply fold_record_metric_not_nil, dict_set_not_nil.
  - cbn [record_metric]. apply IH. exact Hf.
Qed.

Lemma metric_table_no_success metric entries :
  fetched entries = [] -> metric_table metric entries = [].
Proof. intros H. rewrite metric_table_fetched, H. reflexivity. Qed.

Lemma fold_min_spec l x :
  (fold_left Z.min l x = x \/ In (fold_left Z.min l x) l) /\
  fold_left Z.min l x <= x /\
  forall y, In y l -> fold_left Z.min l x <= y.
Proof.
  revert x. induction l as [|a l IH]; intros x; cbn [fold_left].
  - split; [now left|]. split; [lia|]. intros y [].
  - destruct (IH (Z.min x a)) as (Hin & Hle & Hall). split; [|split].
    + destruct Hin as [Hin|Hin]; [|right; now right].
      rewrite Hin. destruct (Z.min_spec x a) as [[_ ->]|[_ ->]];
        [now left|right; now left].
    + lia.
    + intros y [<-|Hy]; [lia|now apply Hall].
Qed.

Lemma fold_max_spec l x :
  (fold_left Z.max l x = x \/ In (fold_left Z.max l x) l) /\
  x <= fold_left Z.max l x /\
  forall y, In y l -> y <= fold_left Z.max l x.
Proof.
  revert x. induction l as [|a l IH]; intros x; cbn [fold_left].
  - split; [now left|]. split; [lia|]. intros y [].
  - destruct (IH (Z.max x a)) as (Hin & Hle & Hall). split; [|split].
    + destruct Hin as [Hin|Hin]; [|right; now right].
      rewrite Hin. destruct (Z.max_spec x a) as [[_ ->]|[_ ->]];
        [right; now left|now left].
    + lia.
    + intros y [<-|Hy]; [lia|now apply Hall].
Qed.

(** The first element that passes a filter. *)
Lemma filter_first {A} (f : A -> bool) l x :
  In x l -> f x = true ->
  exists pre y post,
    l = pre ++ y :: post /\ f y = true /\
    (forall z, In z pre -> f z = false) /\
    filter f l = y :: filter f post.
Proof.
  induction l as [|a l IH]; intros Hin Hx; [destruct Hin|].
  destruct (f a) eqn:Ha.
  - exists [], a, l. cbn. rewrite Ha. repeat split; auto. intros z [].
  - destruct Hin as [->|Hin]; [congruence|].
    destruct (IH Hin Hx) as (pre & y & post & -> & Hy & Hpre & Hf).
    exists (a :: pre), y, post. cbn. rewrite Ha. repeat split; auto.
    intros z [<-|Hz]; auto.
Qed.

(** [leader python_max]: the first key, in the order of the table, whose
    value is the greatest. *)
Lemma leader_max_first table :
  table <> [] ->
  exists pre k v post,
    table = pre ++ (k, v) :: post /\
    leader python_max table = inr (Some k) /\
    (forall kv, In kv table -> snd kv <= v) /\
    (forall kv, In kv pre -> snd kv < v).
Proof.
  destruct table as [|[k0 v0] rest]; [congruence|]. intros _.
  unfold leader, python_max, values. cbn [map snd bind].
  set (best := fold_left Z.max (map snd rest) v0).
  destruct (fold_max_spec (map snd rest) v0) as (Hin & Hge & Hall).
  fold best in Hin, Hge, Hall.
  assert (Hex : exists kv, In kv ((k0, v0) :: rest) /\ snd kv = best).
  { destruct Hin as [Hin|Hin].
    - exists (k0, v0). split; [now left|now rewrite Hin].
    - apply in_map_iff in Hin as (kv & Hkv & Hin). exists kv. split; [now right|auto]. }
  destruct Hex as (kv & Hkv & Hbest).
  destruct (filter_first (fun kv => snd kv =? best) ((k0, v0) :: rest) kv Hkv
              ltac:(now apply Z.eqb_eq))
    as (pre & [k v] & post & Heq & Hy & Hpre & Hf).
  apply Z.eqb_eq in Hy. cbn [snd] in Hy. subst v.
  exists pre, k, best, post. rewrite Hf. cbn [fst].
  split; [exact Heq|]. split; [reflexivity|].
  assert (Hle : forall kv', In kv' ((k0, v0) :: rest) -> snd kv' <= best).
  { intros kv' [<-|Hin']; [exact Hge|]. apply Hall. now apply in_map. }
  split; [exact Hle|].
  intros kv' Hin'. specialize (Hpre kv' Hin'). apply Z.eqb_neq in Hpre.
  assert (snd kv' <= best); [|lia].
  apply Hle. rewrite Heq. apply in_or_app. now left.
Qed.

(** [leader python_min]: the first key whose value is the smallest. *)
Lemma leader_min_first table :
  table <> [] ->
  exists pre k v post,
    table = pre ++ (k, v) :: post /\
    leader python_min table = inr (Some k) /\
    (forall kv, In kv table -> v <= snd kv) /\
    (forall kv, In kv pre -> v < snd kv).
Proof.
  destruct table as [|[k0 v0] rest]; [congruence|]. intros _.
  unfold leader, python_min, values. cbn [map snd bind].
  set (best := fold_left Z.min (map snd rest) v0).
  destruct (fold_min_spec (map snd rest) v0) as (Hin & Hge & Hall).
  fold best in Hin, Hge, Hall.
  assert (Hex : exists kv, In kv ((k0, v0) :: rest) /\ snd kv = best).
  { destruct Hin as [Hin|Hin].
    - exists (k0, v0). split; [now left|now rewrite Hin].
    - apply in_map_iff in Hin as (kv & Hkv & Hin). exists kv. split; [now right|auto]. }
  destruct Hex as (kv & Hkv & Hbest).
  destruct (filter_first (fun kv => snd kv =? best) ((k0, v0) :: rest) kv Hkv
              ltac:(now apply Z.eqb_eq))
    as (pre & [k v] & post & Heq & Hy & Hpre & Hf).
  apply Z.eqb_eq in Hy. cbn [snd] in Hy. subst v.
  exists pre, k, best, post. rewrite Hf. cbn [fst].
  split; [exact Heq|]. split; [reflexivity|].
  assert (Hle : forall kv', In kv' ((k0, v0) :: rest) -> best <= snd kv').
  { intros kv' [<-|Hin']; [exact Hge|]. apply Hall. now apply in_map. }
  split; [exact Hle|].
  intros kv' Hin'. specialize (Hpre kv' Hin'). apply Z.eqb_neq in Hpre.
  assert (best <= snd kv'); [|lia].
  apply Hle. rewrite Heq. apply in_or_app. now left.
Qed.

End AggregationFacts.

(* ================================================================= *)
(** ** Facts about [compare_repositories] *)

Section ComparisonFacts.
Import Comparison ComparisonSpec.

(** [repo_data_list] has one entry per target, in input order. *)
Lemma repo_data_list_entries X targets :
  repo_data_list X targets = map (entry_of X) targets.
Proof.
  unfold repo_data_list, gather.
  induction targets as [|t ts IH]; [reflexivity|].
  cbn [map collect snd]. now rewrite IH.
Qed.

Lemma collect_errors X targets t e :
  In t targets ->
  snd (fetch_repository_data X (fst t) (snd t)) = inl e ->
  In (CtxFetchError (fst t ++ "/" ++ snd t)%string (str X e))
    (fst (collect X targets (map snd (gather X targets)))).
Proof.
  unfold gather. induction targets as [|t' ts IH]; intros Hin He; [destruct Hin|].
  cbn [map collect fst]. apply in_or_app. destruct Hin as [->|Hin].
  - left. rewrite He. now left.
  - right. now apply IH.
Qed.

Lemma snd_on_exception X log e :
  snd (on_exception X log e) = snd (on_exception X [] e).
Proof. destruct e; reflexivity. Qed.

(** The result of a comparison that got past the validation. *)
Lemma compare_after_validation X environ repositories metrics targets :
  validate environ repositories = inr targets ->
  snd (compare_repositories X environ repositories metrics) =
  match build_summary (build_metrics metrics (repo_data_list X targets)) with
  | inl e => snd (on_exception X [] e)
  | inr summary =>
      inr {| content :=
               format_text X (map repo_name repositories) (now X)
                 (build_metrics metrics (repo_data_list X targets)) summary;
             structured_content :=
               {| repositories := repositories;
                  comparison_date := now X;
                  metrics := build_metrics metrics (repo_data_list X targets);
                  summary := summary |};
             meta :=
               {| meta_repositories := map repo_name repositories;
                  operation := "compare_repositories";
                  metrics_compared :=
                    keys (build_metrics metrics (repo_data_list X targets)) |} |}
  end.
Proof.
  intros Hv. unfold compare_repositories. rewrite Hv.
  fold (repo_data_list X targets).
  destruct (build_summary (build_metrics metrics (repo_data_list X targets)));
    [apply snd_on_exception|reflexivity].
Qed.

Lemma entry_of_failed X t e :
  retry_github_request X (repo_call (fst t) (snd t)) = Raises e ->
  entry_of X t = ErrorMarker (fst t) (snd t) (str X e).
Proof.
  intros H. unfold entry_of, fetch_repository_data. now rewrite H.
Qed.

Lemma fetched_all_failed X targets :
  (forall t, In t targets ->
     exists e, retry_github_request X (repo_call (fst t) (snd t)) = Raises e) ->
  fetched (repo_data_list X targets) = [].
Proof.
  intros H. rewrite repo_data_list_entries.
  induction targets as [|t ts IH]; [reflexivity|].
  destruct (H t (or_introl eq_refl)) as [e He].
  cbn [map fetched flat_map]. rewrite (entry_of_failed X t e He). cbn [app].
  apply IH. intros t' Ht'. apply H. now right.
Qed.

End ComparisonFacts.

(** C5, on the code.  When the validation passes, every metadata call
    raises and the default metrics are compared, [compare_repositories] does
    not return: [min] is applied to the empty table of ["last_commit_age"]
    before the test [if comparison_metrics["last_commit_age"]], its
    [ValueError] reaches the [except ValueError] clause, and the tool raises
    the invalid-params [McpError]. *)
Theorem all_failed_comparison_raises (X : Comparison.Externals)
  (environ : Comparison.Environ) (repositories : list Comparison.Repository)
  (targets : list (string * string)) :
  Comparison.validate environ repositories = inr targets ->
  (forall t, In t targets ->
     exists e,
       Comparison.retry_github_request X (Comparison.repo_call (fst t) (snd t))
         = Raises e) ->
  snd (Comparison.compare_repositories X environ repositories None)
    = inl (Comparison.mkMcpError (-32602)
             ("Ошибка валидации параметров: " ++ Comparison.MIN_EMPTY)%string).
Proof.
  intros Hv Hfail.
  rewrite (compare_after_validation X environ repositories None targets Hv).
  rewrite build_metrics_fetched, (fetched_all_failed X targets Hfail).
  reflexivity.
Qed.

Lemma all_failed_comparison_raises_witness :
  snd (Comparison.compare_repositories Sample.scenario_all_fail Sample.with_token
         Sample.two_targets None)
    = inl (Comparison.mkMcpError (-32602)
             ("Ошибка валидации параметров: " ++ Comparison.MIN_EMPTY)%string).
Proof.
  apply (all_failed_comparison_raises Sample.scenario_all_fail Sample.with_token
           Sample.two_targets
           [("org", "one"); ("org", "two")]).
  - reflexivity.
  - intros t [<-|[<-|[]]]; eexists; reflexivity.
Defined.

(** The two targets of the scenarios. *)
Lemma two_targets_validate :
  Comparison.validate Sample.with_token
    Sample.two_targets
    = inr [("org", "one"); ("org", "two")].
Proof. reflexivity. Qed.

(** C4, on the code.  Target 1 was committed to today (age 0 days) and
    target 2 five days ago; both are fetched, with the same stars and forks.
    The table of ["last_commit_age"] records 9999 for target 1, because
    [repo_data.get("last_commit_age_days") or 9999] takes the age 0 for a
    missing value, and [most_active] is target 2, whose age is not the
    smallest.  The ties on stars and forks go to target 1, the first in input
    order. *)
Theorem most_active_ignores_commit_of_today :
  (exists d1 d2,
     snd (Comparison.fetch_repository_data Sample.scenario_commit_today "org" "one")
       = inr d1 /\
     snd (Comparison.fetch_repository_data Sample.scenario_commit_today "org" "two")
       = inr d2 /\
     Comparison.last_commit_age_days d1 = Some 0 /\
     Comparison.last_commit_age_days d2 = Some 5) /\
  exists res,
    snd (Comparison.compare_repositories Sample.scenario_commit_today
           Sample.with_token
           Sample.two_targets None)
      = inr res /\
    Comparison.dict_get
      (Comparison.metrics (Comparison.structured_content res)) "last_commit_age"
      = Some [("org/one", 9999); ("org/two", 5)] /\
    Comparison.summary (Comparison.structured_content res)
      = [("most_active", Some "org/two"); ("most_popular", Some "org/one");
         ("most_forked", Some "org/one")].
Proof.
  split.
  - eexists _, _. repeat split; reflexivity.
  - eexists. repeat split; reflexivity.
Qed.

(** The scenario of the specification: stars 100 and 500, ages 2 and 30. *)
Lemma scenario_two_targets_summary :
  exists res,
    snd (Comparison.compare_repositories Sample.scenario_two_targets
           Sample.with_token
           Sample.two_targets None)
      = inr res /\
    Comparison.summary (Comparison.structured_content res)
      = [("most_active", Some "org/one"); ("most_popular", Some "org/two");
         ("most_forked", Some "org/two")].
Proof. eexists. split; reflexivity. Qed.

Section SummaryFacts.
Import Comparison ComparisonSpec.

Lemma leader_min_returns table w :
  leader python_min table = inr w ->
  exists k, w = Some k /\ In k (keys table).
Proof.
  destruct table as [|kv rest]; [discriminate|].
  destruct (leader_min_first (kv :: rest) ltac:(discriminate))
    as (pre & k & v & post & Heq & Hl & _).
  rewrite Hl. intros [= <-]. exists k. split; [reflexivity|].
  rewrite Heq. unfold keys. rewrite map_app. apply in_or_app. right. now left.
Qed.

Lemma leader_max_returns table w :
  leader python_max table = inr w ->
  exists k, w = Some k /\ In k (keys table).
Proof.
  destruct table as [|kv rest]; [discriminate|].
  destruct (leader_max_first (kv :: rest) ltac:(discriminate))
    as (pre & k & v & post & Heq & Hl & _).
  rewrite Hl. intros [= <-]. exists k. split; [reflexivity|].
  rewrite Heq. unfold keys. rewrite map_app. apply in_or_app. right. now left.
Qed.

Lemma rank_winners cm metric f title s s' :
  (forall table w, leader f table = inr w ->
     exists k, w = Some k /\ In k (keys table)) ->
  winners_from cm s ->
  rank cm metric f title s = inr s' ->
  winners_from cm s'.
Proof.
  intros Hf Hs. unfold rank.
  destruct (dict_get cm metric) as [table|] eqn:Hg; [|now intros [= <-]].
  destruct (leader f table) as [e|w] eqn:Hl; cbn [bind]; [discriminate|].
  intros [= <-] title' w' Hin.
  apply in_dict_set in Hin as [[-> ->]|Hin]; [|now apply (Hs title' w')].
  destruct (Hf table w Hl) as (k & -> & Hk). now exists metric, table, k.
Qed.

Lemma build_summary_winners cm s :
  build_summary cm = inr s -> winners_from cm s.
Proof.
  unfold build_summary.
  destruct (rank cm "last_commit_age" python_min "most_active" []) as [e|s1] eqn:H1;
    cbn [bind]; [discriminate|].
  destruct (rank cm "stars" python_max "most_popular" s1) as [e|s2] eqn:H2;
    cbn [bind]; [discriminate|].
  intros H3.
  apply (rank_winners _ _ _ _ _ _ leader_max_returns) in H3; [exact H3|].
  apply (rank_winners _ _ _ _ _ _ leader_max_returns) in H2; [exact H2|].
  apply (rank_winners _ _ _ _ _ _ leader_min_returns) in H1; [exact H1|].
  intros title w [].
Qed.

Lemma rank_min_succeeds (cm : Dict (Dict Z)) metric title s :
  (forall table : Dict Z, dict_get cm metric = Some table -> table <> []) ->
  exists s', rank cm metric python_min title s = inr s'.
Proof.
  intros Hne. unfold rank.
  destruct (dict_get cm metric) as [table|]; [|eauto].
  destruct (leader_min_first table (Hne table eq_refl))
    as (pre & k & v & post & _ & Hl & _).
  rewrite Hl. cbn. eauto.
Qed.

Lemma rank_max_succeeds (cm : Dict (Dict Z)) metric title s :
  (forall table : Dict Z, dict_get cm metric = Some table -> table <> []) ->
  exists s', rank cm metric python_max title s = inr s'.
Proof.
  intros Hne. unfold rank.
  destruct (dict_get cm metric) as [table|]; [|eauto].
  destruct (leader_max_first table (Hne table eq_refl))
    as (pre & k & v & post & _ & Hl & _).
  rewrite Hl. cbn. eauto.
Qed.

(** With a fetched target the three rankings are computed. *)
Lemma build_summary_succeeds metrics entries :
  fetched entries <> [] ->
  exists s, build_summary (build_metrics metrics entries) = inr s.
Proof.
  intros Hf. unfold build_summary.
  assert (Hne : forall metric,
             (forall d, metric_value metric d <> None) ->
             forall table : Dict Z,
               dict_get (build_metrics metrics entries) metric = Some table ->
               table <> []).
  { intros metric Hknown table Hg.
    apply dict_get_in, build_metrics_tables in Hg. subst table.
    now apply metric_table_not_nil. }
  destruct (rank_min_succeeds (build_metrics metrics entries) "last_commit_age"
              "most_active" [] (Hne "last_commit_age" ltac:(intros d; unfold metric_value; cbn; discriminate)))
    as [s1 ->].
  cbn [bind].
  destruct (rank_max_succeeds (build_metrics metrics entries) "stars"
              "most_popular" s1 (Hne "stars" ltac:(intros d; unfold metric_value; cbn; discriminate)))
    as [s2 ->].
  cbn [bind].
  apply rank_max_succeeds, Hne. intros d. unfold metric_value. cbn. discriminate.
Qed.

End SummaryFacts.

(** C3, as the code has it.  For every comparison that passes the
    validation (2 to 5 targets) and in which at least one target is fetched:
    the list [repo_data_list] built after the fan-out has one entry per
    target, in input order, and the entry of a failed target is the error
    marker with [str] of its exception, which is also reported through
    [ctx.error]; the call returns a result; the result lists every input
    target under [repositories] and has no field for the error markers;
    its metric tables and its summary are those computed from the fetched
    targets alone, every key of a table and every winner of the summary
    being the key of a fetched target; its date is the reading of the
    clock; its text is the rendering of the input names, that date, these
    tables and this summary, and [meta] holds the input names, the name of
    the operation and the metrics compared: nothing in the result depends
    on a failed target but its name among the inputs. *)
Theorem failed_targets_are_skipped (X : Comparison.Externals)
  (environ : Comparison.Environ) (repositories : list Comparison.Repository)
  (metrics : option (list string)) (targets : list (string * string)) :
  Comparison.validate environ repositories = inr targets ->
  ComparisonSpec.fetched (ComparisonSpec.repo_data_list X targets) <> [] ->
  ComparisonSpec.repo_data_list X targets
    = map (fun t =>
             match snd (Comparison.fetch_repository_data X (fst t) (snd t)) with
             | inl e => Comparison.ErrorMarker (fst t) (snd t) (Comparison.str X e)
             | inr d => Comparison.Fetched d
             end) targets /\
  (forall t e,
     In t targets ->
     snd (Comparison.fetch_repository_data X (fst t) (snd t)) = inl e ->
     In (Comparison.CtxFetchError (fst t ++ "/" ++ snd t)%string
           (Comparison.str X e))
        (fst (Comparison.compare_repositories X environ repositories metrics))) /\
  exists res,
    snd (Comparison.compare_repositories X environ repositories metrics)
      = inr res /\
    Comparison.repositories (Comparison.structured_content res) = repositories /\
    List.length repositories = List.length targets /\
    Comparison.metrics (Comparison.structured_content res)
      = Comparison.build_metrics metrics
          (map Comparison.Fetched
             (ComparisonSpec.fetched (ComparisonSpec.repo_data_list X targets))) /\
    Comparison.build_summary
      (Comparison.metrics (Comparison.structured_content res))
      = inr (Comparison.summary (Comparison.structured_content res)) /\
    Comparison.comparison_date (Comparison.structured_content res)
      = Comparison.now X /\
    Comparison.content res
      = Comparison.format_text X (map Comparison.repo_name repositories)
          (Comparison.now X)
          (Comparison.metrics (Comparison.structured_content res))
          (Comparison.summary (Comparison.structured_content res)) /\
    Comparison.meta res
      = Comparison.mkMeta (map Comparison.repo_name repositories)
          "compare_repositories"
          (Comparison.keys
             (Comparison.metrics (Comparison.structured_content res))) /\
    (forall metric table key,
       In (metric, table)
          (Comparison.metrics (Comparison.structured_content res)) ->
       In key (Comparison.keys table) ->
       exists d,
         In d (ComparisonSpec.fetched (ComparisonSpec.repo_data_list X targets)) /\
         key = ComparisonSpec.key_of d) /\
    (forall title winner,
       In (title, winner)
          (Comparison.summary (Comparison.structured_content res)) ->
       exists d,
         In d (ComparisonSpec.fetched (ComparisonSpec.repo_data_list X targets)) /\
         winner = Some (ComparisonSpec.key_of d)).
Proof.
  intros Hv Hf. split; [|split].
  - rewrite repo_data_list_entries. apply map_ext. intros t.
    unfold ComparisonSpec.entry_of.
    destruct (snd (Comparison.fetch_repository_data X (fst t) (snd t)));
      reflexivity.
  - intros t e Hin He. unfold Comparison.compare_repositories. rewrite Hv.
    pose proof (collect_errors X targets t e Hin He) as Hlog.
    destruct (Comparison.build_summary _) as [e'|s].
    + assert (Hsub : forall log ev, In ev log ->
                In ev (fst (Comparison.on_exception X log e'))).
      { intros log ev Hev. destruct e'; cbn; auto.
        apply in_or_app. now left. }
      apply Hsub. rewrite !in_app_iff. tauto.
    + cbn [fst]. rewrite !in_app_iff. tauto.
  - rewrite (compare_after_validation X environ repositories metrics targets Hv).
    destruct (build_summary_succeeds metrics _ Hf) as [s Hs]. rewrite Hs.
    eexists. split; [reflexivity|]. cbn.
    split; [reflexivity|].
    split; [symmetry; apply (check_keys_length repositories targets),
                        (validate_in_range environ), Hv|].
    split; [apply build_metrics_fetched|].
    split; [exact Hs|].
    split; [reflexivity|]. split; [reflexivity|]. split; [reflexivity|].
    split.
    + intros metric table key Hin Hkey.
      apply build_metrics_tables in Hin. subst table.
      now apply (metric_table_keys metric).
    + intros title winner Hin.
      destruct (build_summary_winners _ _ Hs title winner Hin)
        as (metric & table & k & Hg & -> & Hk).
      apply dict_get_in, build_metrics_tables in Hg. subst table.
      apply metric_table_keys in Hk as (d & Hd & ->). now exists d.
Qed.

Lemma failed_targets_are_skipped_witness :
  exists res,
    snd (Comparison.compare_repositories (Sample.scenario_partial Sample.not_found)
           Sample.with_token Sample.three_targets None) = inr res /\
    Comparison.repositories (Comparison.structured_content res)
      = Sample.three_targets /\
    Comparison.summary (Comparison.structured_content res)
      = [("most_active", Some "org/b"); ("most_popular", Some "org/c");
         ("most_forked", Some "org/c")].
Proof.
  destruct (failed_targets_are_skipped (Sample.scenario_partial Sample.not_found)
              Sample.with_token Sample.three_targets None
              [("org", "a"); ("org", "b"); ("org", "c")]
              eq_refl ltac:(vm_compute; discriminate))
    as (_ & _ & res & Hres & Hrepos & _).
  exists res. split; [exact Hres|]. split; [exact Hrepos|].
  vm_compute in Hres. injection Hres as <-. reflexivity.
Defined.

(** C3, as the claim states it, fails.  Target A fails and targets B and C
    are fetched.  The error marker of A is in [repo_data_list], and its text
    goes to [ctx.error]; but the result returned has no row for A in any
    metric table, and it is the same result whether A failed with HTTP 404
    or with a timeout: the failure is not recorded in it. *)
Lemma failed_target_is_not_marked_in_result :
  ComparisonSpec.repo_data_list (Sample.scenario_partial Sample.not_found)
    [("org", "a"); ("org", "b"); ("org", "c")]
    = [Comparison.ErrorMarker "org" "a" "HTTP status 404";
       ComparisonSpec.entry_of (Sample.scenario_partial Sample.not_found)
         ("org", "b");
       ComparisonSpec.entry_of (Sample.scenario_partial Sample.not_found)
         ("org", "c")] /\
  In (Comparison.CtxFetchError "org/a" "HTTP status 404")
    (fst (Comparison.compare_repositories
            (Sample.scenario_partial Sample.not_found) Sample.with_token
            Sample.three_targets None)) /\
  exists res,
    snd (Comparison.compare_repositories
           (Sample.scenario_partial Sample.not_found) Sample.with_token
           Sample.three_targets None) = inr res /\
    snd (Comparison.compare_repositories
           (Sample.scenario_partial (Raises TimeoutException)) Sample.with_token
           Sample.three_targets None) = inr res /\
    ComparisonSpec.no_slot res "org/a" = true /\
    hd_error
      (ComparisonSpec.repo_data_list
         (Sample.scenario_partial (Raises TimeoutException))
         [("org", "a"); ("org", "b"); ("org", "c")])
      = Some (Comparison.ErrorMarker "org" "a" "timed out") /\
    Comparison.keys
      (Comparison.get
         (Comparison.dict_get
            (Comparison.metrics (Comparison.structured_content res)) "stars") [])
      = ["org/b"; "org/c"].
Proof.
  split; [reflexivity|]. split.
  - vm_compute. tauto.
  - eexists. split; [reflexivity|]. split; [reflexivity|].
    split; [reflexivity|]. split; reflexivity.
Qed.

(** The ranking pattern of lines 275-279, 284-288 and 293-297 on a table
    that is not empty: [max] gives the first key, in the order of the table,
    whose value is the greatest, and [min] the first key whose value is the
    smallest. *)
Theorem ranking_takes_first_extremum (table : Comparison.Dict Z) :
  table <> [] ->
  (exists pre k v post,
     table = pre ++ (k, v) :: post /\
     Comparison.leader Comparison.python_max table = inr (Some k) /\
     (forall kv, In kv table -> snd kv <= v) /\
     (forall kv, In kv pre -> snd kv < v)) /\
  (exists pre k v post,
     table = pre ++ (k, v) :: post /\
     Comparison.leader Comparison.python_min table = inr (Some k) /\
     (forall kv, In kv table -> v <= snd kv) /\
     (forall kv, In kv pre -> v < snd kv)).
Proof.
  intros Hne. split; [now apply leader_max_first|now apply leader_min_first].
Qed.

Lemma ranking_takes_first_extremum_witness :
  (exists pre k v post,
     [("a", 1); ("b", 5); ("c", 5)] = pre ++ (k, v) :: post /\
     Comparison.leader Comparison.python_max [("a", 1); ("b", 5); ("c", 5)]
       = inr (Some k) /\
     (forall kv, In kv [("a", 1); ("b", 5); ("c", 5)] -> snd kv <= v) /\
     (forall kv, In kv pre -> snd kv < v)) /\
  (exists pre k v post,
     [("a", 1); ("b", 5); ("c", 5)] = pre ++ (k, v) :: post /\
     Comparison.leader Comparison.python_min [("a", 1); ("b", 5); ("c", 5)]
       = inr (Some k) /\
     (forall kv, In kv [("a", 1); ("b", 5); ("c", 5)] -> v <= snd kv) /\
     (forall kv, In kv pre -> v < snd kv)).
Proof.
  apply (ranking_takes_first_extremum [("a", 1); ("b", 5); ("c", 5)]).
  discriminate.
Defined.

(* ================================================================= *)
(** ** The retry loop on every upstream *)

(** The first attempt that is not retried. *)
Lemma deciding_attempt request N :
  1 <= N ->
  exists k,
    0 <= k < N /\
    (forall i, 0 <= i < k -> goes_on request N i = true) /\
    goes_on request N k = false.
Proof.
  intros HN.
  assert (H : forall n a,
             a + Z.of_nat n = N - 1 -> 0 <= a ->
             (forall i, 0 <= i < a -> goes_on request N i = true) ->
             exists k,
               0 <= k < N /\
               (forall i, 0 <= i < k -> goes_on request N i = true) /\
               goes_on request N k = false).
  { induction n as [|n IH]; intros a Ha H0 Hpre.
    - exists a. split; [lia|]. split; [exact Hpre|].
      replace a with (N - 1) by lia. apply goes_on_last.
    - destruct (goes_on request N a) eqn:Hgo.
      + apply (IH (a + 1)); [lia|lia|].
        intros i Hi. destruct (Z.eq_dec i a) as [->|Hne]; [exact Hgo|].
        apply Hpre. lia.
      + exists a. split; [lia|]. split; [exact Hpre|exact Hgo]. }
  apply (H (Z.to_nat (N - 1)) 0); [lia|lia|]. intros i Hi. lia.
Qed.

Lemma goes_on_before request N i :
  goes_on request N i = true ->
  transient (request i) /\ i < N - 1 /\ i < FLOAT_MAX_EXP.
Proof.
  unfold goes_on. intros H. apply andb_true_iff in H as [H Hf].
  apply andb_true_iff in H as [Ht Ha].
  apply transientb_spec in Ht. apply Z.ltb_lt in Ha, Hf. auto.
Qed.

(** What stops a call at attempt [k]: the attempt is the last of the budget
    or its reply is no transient failure, and the verdict on the reply is
    the outcome; or the delay that was to follow is no float. *)
Lemma goes_on_stops request N k :
  k < N ->
  goes_on request N k = false ->
  ((k = N - 1 \/ ~ transient (request k)) /\
   outcome_at request N k = verdict (request k)) \/
  (FLOAT_MAX_EXP <= k < N - 1 /\ transient (request k) /\
   outcome_at request N k = Raises OverflowError).
Proof.
  intros Hk Hgo.
  destruct (transientb (request k)) eqn:Ht.
  - apply transientb_spec in Ht.
    destruct (Z_lt_ge_dec k (N - 1)) as [Hlt|Hge].
    + destruct (Z_lt_ge_dec k FLOAT_MAX_EXP) as [Hf|Hf].
      * rewrite (goes_on_transient request N k Ht Hlt Hf) in Hgo. discriminate.
      * right. split; [lia|]. split; [exact Ht|].
        apply goes_on_overflow; [exact Ht|exact Hlt|lia].
    + left. replace k with (N - 1) by lia. split; [now left|].
      apply outcome_at_last.
  - left. split; [|now apply goes_on_settled].
    right. rewrite <- transientb_spec. congruence.
Qed.

Lemma empty_budget request ctx N :
  N <= 0 ->
  Server1.retry_github_request request ctx N = ([], Raises (HTTPStatusError None)) /\
  Server6.retry_github_request request ctx N = ([], Raises (HTTPStatusError None)).
Proof.
  intros HN. unfold Server1.retry_github_request, Server6.retry_github_request,
    Server1.retry_github_request_on, Server6.retry_github_request_on,
    Server1.retry_loop_on, Server6.retry_loop_on, range.
  replace (Z.to_nat N) with O by lia. split; reflexivity.
Qed.

(** The behaviour of [retry_github_request] on every upstream.  With a
    budget [N >= 1] there is one deciding attempt [k < N], [k <= 1024]:
    every attempt before it was answered with a transient failure (a
    retriable status, a timeout, a network failure).  Both implementations
    send the requests of attempts [0 .. k], sleep [RETRY_DELAY_BASE * 2 ^ i]
    after each attempt [i < k] and at no other point, and end with the same
    outcome.  Either attempt [k] is the last of the budget or its reply is
    not a transient failure, and the outcome is the verdict on that reply:
    its 2xx response is returned, its failure is raised; in particular a
    failure that is not transient (a status outside the retriable set, any
    other exception) is never retried.  Or [k = 1024], the attempt was to be
    retried, and the outcome is the [OverflowError] of its delay. *)
Theorem retry_stops_at_deciding_attempt (request : Z -> Reply)
  (ctx : option Context) (N : Z) :
  1 <= N ->
  exists k o,
    0 <= k < N /\ k <= FLOAT_MAX_EXP /\
    (forall i, 0 <= i < k -> transient (request i)) /\
    ran Server1.retry_github_request request ctx N k o /\
    ran Server6.retry_github_request request ctx N k o /\
    (((k = N - 1 \/ ~ transient (request k)) /\ o = verdict (request k)) \/
     (k = FLOAT_MAX_EXP /\ k < N - 1 /\ transient (request k) /\
      o = Raises OverflowError)).
Proof.
  intros HN. destruct (deciding_attempt request N HN) as (k & Hk & Hpre & Hend).
  assert (Hf : k <= FLOAT_MAX_EXP).
  { destruct (Z.eq_dec k 0) as [->|Hne]; [unfold FLOAT_MAX_EXP; lia|].
    destruct (goes_on_before request N (k - 1) (Hpre (k - 1) ltac:(lia)))
      as (_ & _ & H). lia. }
  exists k, (outcome_at request N k).
  split; [exact Hk|]. split; [exact Hf|]. split.
  { intros i Hi. now destruct (goes_on_before request N i (Hpre i Hi)). }
  destruct (ran_to_deciding_attempt request ctx N k Hk Hpre Hend) as [H1 H6].
  split; [exact H1|]. split; [exact H6|].
  destruct (goes_on_stops request N k ltac:(lia) Hend)
    as [[Hlast Ho]|(Hover & Ht & Ho)].
  - left. split; [exact Hlast|exact Ho].
  - right. split; [lia|]. split; [lia|]. split; [exact Ht|exact Ho].
Qed.

Lemma retry_stops_at_deciding_attempt_witness :
  exists k o,
    0 <= k < 5 /\ k <= FLOAT_MAX_EXP /\
    (forall i, 0 <= i < k -> transient (flaky_upstream i)) /\
    ran Server1.retry_github_request flaky_upstream None 5 k o /\
    ran Server6.retry_github_request flaky_upstream None 5 k o /\
    (((k = 5 - 1 \/ ~ transient (flaky_upstream k)) /\
      o = verdict (flaky_upstream k)) \/
     (k = FLOAT_MAX_EXP /\ k < 5 - 1 /\ transient (flaky_upstream k) /\
      o = Raises OverflowError)).
Proof.
  apply (retry_stops_at_deciding_attempt flaky_upstream None 5). lia.
Defined.

(** Within the range of the float delays the outcome is the verdict on the
    reply to the deciding attempt. *)
Lemma run_within_float_range request ctx N :
  1 <= N <= FLOAT_MAX_EXP + 1 ->
  exists k,
    0 <= k < N /\
    (forall i, 0 <= i < k -> transient (request i)) /\
    (k = N - 1 \/ ~ transient (request k)) /\
    ran Server1.retry_github_request request ctx N k (verdict (request k)) /\
    ran Server6.retry_github_request request ctx N k (verdict (request k)).
Proof.
  intros HN.
  destruct (deciding_attempt request N ltac:(lia)) as (k & Hk & Hpre & Hend).
  exists k. split; [exact Hk|]. split.
  { intros i Hi. now destruct (goes_on_before request N i (Hpre i Hi)). }
  destruct (goes_on_stops request N k ltac:(lia) Hend)
    as [[Hlast Ho]|(Hover & _)]; [|lia].
  split; [exact Hlast|]. rewrite <- Ho. now apply ran_to_deciding_attempt.
Qed.


Lemma total_backoff k :
  total (map (fun i => RETRY_DELAY_BASE * 2 ^ i) (range_from 0 k))
    = 2 ^ Z.of_nat k - 1.
Proof.
  assert (H : forall n a, 0 <= a ->
             total (map (fun i => RETRY_DELAY_BASE * 2 ^ i) (range_from a n))
               = 2 ^ (a + Z.of_nat n) - 2 ^ a).
  { induction n as [|n IH]; intros a Ha.
    - cbn. replace (a + 0) with a by lia. lia.
    - cbn [range_from map total fold_right]. fold (total (map (fun i => RETRY_DELAY_BASE * 2 ^ i) (range_from (a + 1) n))).
      rewrite IH by lia. unfold RETRY_DELAY_BASE.
      replace (a + 1 + Z.of_nat n) with (a + Z.of_nat (S n)) by lia.
      rewrite (Z.pow_add_r 2 a 1) by lia. lia. }
  rewrite H by lia. cbn. lia.
Qed.

(** The cost of a call is bounded by its budget alone.  With [N >= 1], on
    every upstream, both implementations send at most [N] requests and
    sleep less than [2 ^ (N - 1)] seconds in all; a call that ends at
    attempt [k] has slept [2 ^ k - 1] seconds. *)
Theorem retry_cost_is_bounded (request : Z -> Reply) (ctx : option Context)
  (N : Z) :
  1 <= N ->
  (Z.of_nat (List.length (requests (fst (Server1.retry_github_request request ctx N))))
     <= N /\
   total (sleeps (fst (Server1.retry_github_request request ctx N)))
     <= 2 ^ (N - 1) - 1) /\
  (Z.of_nat (List.length (requests (fst (Server6.retry_github_request request ctx N))))
     <= N /\
   total (sleeps (fst (Server6.retry_github_request request ctx N)))
     <= 2 ^ (N - 1) - 1).
Proof.
  intros HN. destruct (deciding_attempt request N HN) as (k & Hk & Hpre & Hend).
  destruct (ran_to_deciding_attempt request ctx N k Hk Hpre Hend)
    as [(_ & _ & R1 & S1) (_ & _ & R6 & S6)].
  rewrite R1, S1, R6, S6. unfold range.
  rewrite length_range_from, total_backoff, !Z2Nat.id by lia.
  assert (2 ^ k <= 2 ^ (N - 1)) by (apply Z.pow_le_mono_r; lia).
  repeat split; lia.
Qed.

Lemma retry_cost_is_bounded_witness :
  (Z.of_nat (List.length (requests (fst (Server1.retry_github_request
                                            unavailable_upstream None MAX_RETRIES))))
     <= MAX_RETRIES /\
   total (sleeps (fst (Server1.retry_github_request unavailable_upstream None
                         MAX_RETRIES)))
     <= 2 ^ (MAX_RETRIES - 1) - 1) /\
  (Z.of_nat (List.length (requests (fst (Server6.retry_github_request
                                            unavailable_upstream None MAX_RETRIES))))
     <= MAX_RETRIES /\
   total (sleeps (fst (Server6.retry_github_request unavailable_upstream None
                         MAX_RETRIES)))
     <= 2 ^ (MAX_RETRIES - 1) - 1).
Proof.
  apply (retry_cost_is_bounded unavailable_upstream None MAX_RETRIES).
  unfold MAX_RETRIES. lia.
Defined.

(* ================================================================= *)
(** ** [retry_request] and [retry_github_request] *)



(* ================================================================= *)
(** ** The error helpers *)

(** [handle_github_error] of [mcp-server-1] always raises an [McpError],
    with one of two codes: invalid-params (-32602) exactly for an
    [HTTPStatusError] whose response has status 400, 401, 403 or 404, and
    internal-error (-32603) for every other HTTP status (429 and 5xx among
    them), for timeouts, network failures and every other exception.  The
    error raised does not depend on [ctx], which gets one [ctx.error] text
    when it is present. *)
Theorem server1_error_codes (R : Reading) (error : Exception)
  (ctx : option Context) (operation : string) :
  (Comparison.code (snd (Errors1.handle_github_error R error ctx operation))
     = -32602 <->
   exists r, error = HTTPStatusError (Some r) /\ caller_fault (status_code r) = true) /\
  (Comparison.code (snd (Errors1.handle_github_error R error ctx operation))
     = -32602 \/
   Comparison.code (snd (Errors1.handle_github_error R error ctx operation))
     = -32603) /\
  snd (Errors1.handle_github_error R error ctx operation)
    = snd (Errors1.handle_github_error R error None operation) /\
  List.length (fst (Errors1.handle_github_error R error ctx operation))
    = (if truthy ctx then 1 else 0)%nat.
Proof.
  assert (Hcode : forall s,
             (Errors1.error_code s = -32602 <-> caller_fault s = true) /\
             (Errors1.error_code s = -32602 \/ Errors1.error_code s = -32603)).
  { intros s. unfold Errors1.error_code, caller_fault.
    destruct (s =? 400), (s =? 401), (s =? 403), (s =? 404), (s =? 429);
      cbn; split; auto; split; intros; try reflexivity; discriminate. }
  split; [|split; [|split]].
  - destruct error as [[r|]| | | | | |]; cbn [Errors1.handle_github_error snd
      Comparison.code status_or_zero].
    + destruct (Hcode (status_code r)) as [Hiff _]. rewrite Hiff. split.
      * intros H. now exists r.
      * intros (r' & [= <-] & H). exact H.
    + split; [cbn; discriminate|]. intros (r & Hr & _). discriminate.
    + split; [discriminate|]. intros (r & Hr & _). discriminate.
    + split; [discriminate|]. intros (r & Hr & _). discriminate.
    + split; [discriminate|]. intros (r & Hr & _). discriminate.
    + split; [discriminate|]. intros (r & Hr & _). discriminate.
    + split; [discriminate|]. intros (r & Hr & _). discriminate.
    + split; [discriminate|]. intros (r & Hr & _). discriminate.
  - destruct error as [resp| | | | | |]; cbn [Errors1.handle_github_error snd
      Comparison.code]; auto.
    apply Hcode.
  - destruct error; reflexivity.
  - destruct error; cbn [Errors1.handle_github_error fst]; unfold Errors1.report;
      destruct (truthy ctx); reflexivity.
Qed.

(** [handle_github_error] of [mcp-server-6] reports every error as
    internal-error (-32603), a 400, 401, 403 or 404 included, which
    [mcp-server-1] reports as invalid-params.  The error raised depends
    neither on [ctx] nor on the body of the response. *)
Theorem server6_errors_are_internal (R : Reading) (e : Exception)
  (ctx : option Context) (operation : string) :
  Comparison.code (snd (Errors6.handle_github_error R e ctx operation)) = -32603 /\
  snd (Errors6.handle_github_error R e ctx operation)
    = snd (Errors6.handle_github_error R e None operation) /\
  (forall text' slice',
     snd (Errors6.handle_github_error (mkReading text' (str_of R) slice') e ctx
            operation)
       = snd (Errors6.handle_github_error R e ctx operation)) /\
  List.length (fst (Errors6.handle_github_error R e ctx operation))
    = (if truthy ctx then 1 else 0)%nat.
Proof.
  split; [|split; [|split]].
  - destruct e; reflexivity.
  - destruct e; reflexivity.
  - intros text' slice'. destruct e; reflexivity.
  - destruct e; cbn [Errors6.handle_github_error fst]; unfold Errors1.report;
      destruct (truthy ctx); reflexivity.
Qed.

(** [format_api_error] ignores its text for a status among 401, 403, 404,
    429 and 5xx. *)
Lemma format_api_error_fixed (R1 R2 : Reading) (text1 text2 : string) (status : Z) :
  fixed_message status = true ->
  Errors1.format_api_error R1 text1 status = Errors1.format_api_error R2 text2 status.
Proof.
  unfold fixed_message, Errors1.format_api_error. intros H.
  destruct (status =? 401), (status =? 403), (status =? 404), (status =? 429),
    (500 <=? status); try reflexivity; discriminate.
Qed.

(** The body of an upstream error response reaches the caller of
    [mcp-server-1] for no status among 401, 403, 404, 429 and 5xx: for an
    [HTTPStatusError] with such a status the texts given to [ctx.error] and
    the [McpError] raised by [handle_github_error] are the same whatever
    [error.response.text] reads (and whatever [str] and slicing give). *)
Theorem fixed_messages_hide_the_body (R1 R2 : Reading) (r : Response)
  (ctx : option Context) (operation : string) :
  fixed_message (status_code r) = true ->
  Errors1.handle_github_error R1 (HTTPStatusError (Some r)) ctx operation
    = Errors1.handle_github_error R2 (HTTPStatusError (Some r)) ctx operation.
Proof.
  intros H. unfold Errors1.handle_github_error. cbn [status_or_zero].
  rewrite (format_api_error_fixed R1 R2 (text_of R1 r) (text_of R2 r) _ H).
  reflexivity.
Qed.

Lemma fixed_messages_hide_the_body_witness :
  Errors1.handle_github_error
    (mkReading (fun _ => "{message: Not Found}") Sample.sample_str
       (fun _ s => s))
    (HTTPStatusError (Some (mkResponse 404 (Some 3998) Payload.JOther)))
    (Some TheContext) "fetch"
  = Errors1.handle_github_error
      (mkReading (fun _ => "secret") Sample.sample_str (fun _ s => s))
      (HTTPStatusError (Some (mkResponse 404 (Some 3998) Payload.JOther)))
      (Some TheContext) "fetch".
Proof.
  apply (fixed_messages_hide_the_body _ _ (mkResponse 404 (Some 3998) Payload.JOther)).
  reflexivity.
Defined.

(* ================================================================= *)
(** ** The helpers of the comparison tool *)

Section HelperFacts.
Import Comparison ComparisonSpec ComparisonObs.

Lemma scan_env_missing environ vars missing env :
  fst (scan_env environ vars missing env)
    = missing ++ filter (unset environ) vars.
Proof.
  revert missing env. induction vars as [|var vars IH]; intros missing env; cbn.
  - now rewrite app_nil_r.
  - unfold unset at 1. destruct (environ var) as [value|].
    + apply IH.
    + rewrite IH, <- app_assoc. reflexivity.
Qed.

Lemma scan_env_lookup environ vars missing env key :
  dict_get (snd (scan_env environ vars missing env)) key
    = if mem key vars
      then match environ key with Some v => Some v | None => dict_get env key end
      else dict_get env key.
Proof.
  revert missing env. induction vars as [|var vars IH]; intros missing env;
    cbn [scan_env mem existsb]; [reflexivity|].
  fold (mem key vars).
  destruct (environ var) as [value|] eqn:Hvar; rewrite IH.
  - rewrite dict_get_set. rewrite (String.eqb_sym key var).
    destruct (String.eqb_spec var key) as [->|Hne]; cbn [orb].
    + rewrite Hvar. now destruct (mem key vars).
    + reflexivity.
  - destruct (String.eqb_spec key var) as [->|Hne]; cbn [orb]; [|reflexivity].
    rewrite Hvar. now destruct (mem var vars).
Qed.

Lemma mem_In key l : mem key l = true <-> In key l.
Proof.
  unfold mem. rewrite existsb_exists. split.
  - intros (x & Hin & Heq). apply String.eqb_eq in Heq. now subst.
  - intros H. exists key. split; [exact H|apply String.eqb_refl].
Qed.

Lemma replace_Z_free s : free_of_Z (replace_Z s) = true.
Proof.
  induction s as [|c s IH]; [reflexivity|]. cbn [replace_Z].
  destruct (Ascii.eqb c "Z") eqn:Hc.
  - cbn. exact IH.
  - cbn [free_of_Z]. unfold is_Z. rewrite Hc. exact IH.
Qed.

Lemma replace_Z_id s : free_of_Z s = true -> replace_Z s = s.
Proof.
  induction s as [|c s IH]; [reflexivity|]. cbn [free_of_Z replace_Z]. unfold is_Z.
  destruct (Ascii.eqb c "Z"); cbn; [discriminate|].
  intros H. now rewrite IH.
Qed.

Lemma replace_Z_app s t :
  replace_Z (s ++ t) = (replace_Z s ++ replace_Z t)%string.
Proof.
  induction s as [|c s IH]; [reflexivity|]. cbn [String.append replace_Z].
  rewrite IH. destruct (Ascii.eqb c "Z"); reflexivity.
Qed.

Lemma append_not_empty s t : t <> "" -> String.eqb (s ++ t)%string "" = false.
Proof.
  intros Ht. apply String.eqb_neq. destruct s; [exact Ht|discriminate].
Qed.

End HelperFacts.

(** [_require_env_vars] returns when every required variable is set, and
    then the dictionary holds, for each required variable, the value of the
    environment, and nothing else; when some variable is unset it raises the
    [ValueError] whose message lists the unset variables, in the order of
    [required_vars], joined by [", "]. *)
Theorem env_vars_all_or_error (environ : Comparison.Environ)
  (required_vars : list string) :
  ((forall var, In var required_vars -> environ var <> None) ->
   exists env,
     Comparison._require_env_vars environ required_vars = inr env /\
     (forall var, In var required_vars ->
        Comparison.dict_get env var = environ var) /\
     (forall var, ~ In var required_vars -> Comparison.dict_get env var = None)) /\
  (forall var, In var required_vars -> environ var = None ->
     In var (filter (ComparisonObs.unset environ) required_vars) /\
     Comparison._require_env_vars environ required_vars
       = inl (ValueError
                ("Отсутствуют обязательные переменные окружения: "
                   ++ String.concat ", "
                        (filter (ComparisonObs.unset environ) required_vars))%string)).
Proof.
  unfold Comparison._require_env_vars.
  pose proof (scan_env_missing environ required_vars [] []) as Hm.
  pose proof (scan_env_lookup environ required_vars [] []) as Hl.
  destruct (Comparison.scan_env environ required_vars [] []) as [missing env].
  cbn [fst snd app] in Hm, Hl. subst missing. split.
  - intros Hset.
    assert (Hnone : filter (ComparisonObs.unset environ) required_vars = []).
    { destruct (filter (ComparisonObs.unset environ) required_vars) as [|v l] eqn:Hf;
        [reflexivity|].
      assert (Hin : In v (filter (ComparisonObs.unset environ) required_vars))
        by (rewrite Hf; now left).
      apply filter_In in Hin as [Hin Hu]. unfold ComparisonObs.unset in Hu.
      specialize (Hset v Hin). destruct (environ v); [discriminate|congruence]. }
    rewrite Hnone. exists env. split; [reflexivity|]. split.
    + intros var Hin. rewrite Hl. apply mem_In in Hin. rewrite Hin.
      specialize (Hset var). destruct (environ var); [reflexivity|].
      apply mem_In in Hin. now destruct (Hset Hin).
    + intros var Hnot. rewrite Hl.
      destruct (ComparisonObs.mem var required_vars) eqn:Hmem; [|reflexivity].
      apply mem_In in Hmem. contradiction.
  - intros var Hin Hvar.
    assert (Hf : In var (filter (ComparisonObs.unset environ) required_vars)).
    { apply filter_In. split; [exact Hin|]. unfold ComparisonObs.unset.
      now rewrite Hvar. }
    split; [exact Hf|].
    destruct (filter (ComparisonObs.unset environ) required_vars);
      [destruct Hf|reflexivity].
Qed.

(** [parse_github_datetime] gives [None] for [None] and for the empty
    string.  No character [Z] reaches [datetime.fromisoformat]: a timestamp
    in GitHub's form, ending in [Z], is parsed with the offset [+00:00] in
    its place, and a non-empty string without [Z] is parsed as it is. *)
Theorem github_timestamps_are_read_as_utc (X : Comparison.Externals) :
  Comparison.parse_github_datetime X None = None /\
  Comparison.parse_github_datetime X (Some "") = None /\
  (forall s, free_of_Z s = true ->
     Comparison.parse_github_datetime X (Some (s ++ "Z")%string)
       = Comparison.fromisoformat X (s ++ "+00:00")%string) /\
  (forall s, s <> "" -> free_of_Z s = true ->
     Comparison.parse_github_datetime X (Some s) = Comparison.fromisoformat X s) /\
  (forall s, s <> "" ->
     exists t, free_of_Z t = true /\
       Comparison.parse_github_datetime X (Some s) = Comparison.fromisoformat X t).
Proof.
  split; [reflexivity|]. split; [reflexivity|]. split; [|split].
  - intros s Hs. unfold Comparison.parse_github_datetime.
    rewrite append_not_empty by discriminate.
    rewrite replace_Z_app, (replace_Z_id s Hs). reflexivity.
  - intros s Hne Hs. unfold Comparison.parse_github_datetime.
    apply String.eqb_neq in Hne. rewrite Hne. now rewrite replace_Z_id.
  - intros s Hne. exists (Comparison.replace_Z s). split; [apply replace_Z_free|].
    unfold Comparison.parse_github_datetime.
    apply String.eqb_neq in Hne. now rewrite Hne.
Qed.

Lemma env_vars_all_or_error_witness :
  exists env,
    Comparison._require_env_vars Sample.with_token ["GITHUB_TOKEN"] = inr env /\
    (forall var, In var ["GITHUB_TOKEN"] ->
       Comparison.dict_get env var = Sample.with_token var) /\
    (forall var, ~ In var ["GITHUB_TOKEN"] -> Comparison.dict_get env var = None).
Proof.
  apply (proj1 (env_vars_all_or_error Sample.with_token ["GITHUB_TOKEN"])).
  intros var [<-|[]]. discriminate.
Defined.

Section FetchInvariants.
Import Comparison ComparisonSpec ComparisonObs.

(** What a returned dictionary was built from. *)
Lemma fetch_returns X owner repo d :
  snd (fetch_repository_data X owner repo) = inr d ->
  exists repo_response,
    retry_github_request X (repo_call owner repo) = Returns repo_response /\
    fst (fetch_repository_data X owner repo)
      = [repo_call owner repo; search_call owner repo; commits_call owner repo] /\
    build_repo_data X owner repo (json repo_response)
      (fetch_open_prs_count (retry_github_request X (search_call owner repo)))
      (fetch_last_commit_date X (retry_github_request X (commits_call owner repo)))
    = inr d.
Proof.
  unfold fetch_repository_data.
  destruct (retry_github_request X (repo_call owner repo)) as [r|e]; cbn [fst snd];
    [|discriminate].
  unfold decode.
  destruct (json r) as [j|j|j| |error] eqn:Hj; cbn [fst snd]; try discriminate;
    intros H; exists r; rewrite Hj; auto.
Qed.

Lemma build_repo_data_fields X owner repo j prs date d :
  build_repo_data X owner repo j prs date = inr d ->
  Comparison.owner d = owner /\ Comparison.repo d = repo /\
  open_prs_count d = prs /\
  0 <= open_issues_count d /\
  last_commit_date d = option_map (isoformat X) date /\
  last_commit_age_days d = calculate_days_ago X date.
Proof.
  unfold build_repo_data. destruct (repo_fields j) as [r|]; [|discriminate].
  destruct (fetch_pushed_at X (Payload.pushed_at r)); [discriminate|].
  intros [= <-]. cbn. repeat split; try lia; now destruct date.
Qed.

End FetchInvariants.

(** Every dictionary that [fetch_repository_data] returns was built after
    the three calls (metadata, open-PR search, latest commit, in this
    order); it names the target asked for, its count of open issues is not
    negative whatever the upstream counts are, and it has a commit age
    exactly when it has a commit date. *)
Theorem fetched_data_invariants (X : Comparison.Externals) (owner repo : string)
  (d : Comparison.RepoData) :
  snd (Comparison.fetch_repository_data X owner repo) = inr d ->
  fst (Comparison.fetch_repository_data X owner repo)
    = [Comparison.repo_call owner repo; Comparison.search_call owner repo;
       Comparison.commits_call owner repo] /\
  ComparisonSpec.key_of d = (owner ++ "/" ++ repo)%string /\
  0 <= Comparison.open_issues_count d /\
  (Comparison.last_commit_date d = None <->
   Comparison.last_commit_age_days d = None).
Proof.
  intros H. apply fetch_returns in H as (r & _ & Hcalls & Hb).
  apply build_repo_data_fields in Hb as (Ho & Hr & _ & Hi & Hd & Ha).
  split; [exact Hcalls|]. split; [|split; [exact Hi|]].
  - unfold ComparisonSpec.key_of. now rewrite Ho, Hr.
  - rewrite Hd, Ha.
    destruct (Comparison.fetch_last_commit_date X
                (Comparison.retry_github_request X
                   (Comparison.commits_call owner repo))); cbn;
      split; intros; congruence.
Qed.

Lemma fetched_data_invariants_witness :
  exists d,
    snd (Comparison.fetch_repository_data Sample.scenario_commit_today "org" "one")
      = inr d /\
    ComparisonSpec.key_of d = "org/one" /\
    0 <= Comparison.open_issues_count d.
Proof.
  eexists. split; [reflexivity|].
  refine ((fun H => conj (proj1 (proj2 H)) (proj1 (proj2 (proj2 H))))
            (fetched_data_invariants Sample.scenario_commit_today "org" "one" _ _)).
  reflexivity.
Defined.

(** The age recorded for the metric ["last_commit_age"] of a fetched
    target.  A target whose latest commit has no date that parses gets 9999.
    Otherwise the age is the number [n] of whole days from the commit to the
    clock ([n] days have passed and [n + 1] have not; [n] is negative for a
    commit dated after the clock), and the value recorded is [n], but 9999
    when [n] is 0: a commit of the last 24 hours is recorded like a missing
    date. *)
Theorem recorded_commit_age (X : Comparison.Externals) (owner repo : string)
  (d : Comparison.RepoData) :
  snd (Comparison.fetch_repository_data X owner repo) = inr d ->
  match Comparison.fetch_last_commit_date X
          (Comparison.retry_github_request X (Comparison.commits_call owner repo))
  with
  | None =>
      Comparison.last_commit_age_days d = None /\
      Comparison.metric_value "last_commit_age" d = Some 9999
  | Some date =>
      exists n,
        n * Comparison.MICROSECONDS_PER_DAY <= Comparison.now X - date
          < (n + 1) * Comparison.MICROSECONDS_PER_DAY /\
        Comparison.last_commit_age_days d = Some n /\
        Comparison.metric_value "last_commit_age" d
          = Some (if n =? 0 then 9999 else n)
  end.
Proof.
  intros H. apply fetch_returns in H as (r & _ & _ & Hb).
  apply build_repo_data_fields in Hb as (_ & _ & _ & _ & _ & Ha).
  destruct (Comparison.fetch_last_commit_date X
              (Comparison.retry_github_request X
                 (Comparison.commits_call owner repo))) as [date|].
  - cbn [Comparison.calculate_days_ago] in Ha.
    exists ((Comparison.now X - date) / Comparison.MICROSECONDS_PER_DAY).
    split; [|split; [exact Ha|]].
    + unfold Comparison.MICROSECONDS_PER_DAY.
      pose proof (Z.div_mod (Comparison.now X - date) 86400000000 ltac:(lia)).
      pose proof (Z.mod_pos_bound (Comparison.now X - date) 86400000000 ltac:(lia)).
      lia.
    + unfold Comparison.metric_value. cbn. rewrite Ha. reflexivity.
  - cbn [Comparison.calculate_days_ago] in Ha. split; [exact Ha|].
    unfold Comparison.metric_value. cbn. rewrite Ha. reflexivity.
Qed.

Lemma recorded_commit_age_witness :
  exists d,
    snd (Comparison.fetch_repository_data Sample.scenario_commit_today "org" "one")
      = inr d /\
    Comparison.last_commit_age_days d = Some 0 /\
    Comparison.metric_value "last_commit_age" d = Some 9999.
Proof.
  eexists. split; [reflexivity|].
  pose proof (recorded_commit_age Sample.scenario_commit_today "org" "one" _
                eq_refl) as H.
  cbv in H. destruct H as (n & Hn & Ha & Hm).
  injection Ha as <-. split; [reflexivity|exact Hm].
Defined.

(* ================================================================= *)
(** ** The tables and the rankings of a comparison *)

Section TableFacts.
Import Comparison ComparisonSpec ComparisonObs.

Lemma keys_dict_set_eq {V} (d : Dict V) key (v : V) :
  keys (dict_set d key v) = if mem key (keys d) then keys d else keys d ++ [key].
Proof.
  unfold mem. induction d as [|[k w] d IH]; [reflexivity|].
  cbn [dict_set keys map fst existsb]. rewrite (String.eqb_sym key k).
  destruct (String.eqb k key); cbn [orb map fst]; [reflexivity|].
  fold (keys (dict_set d key v)). fold (keys d). rewrite IH.
  destruct (existsb (String.eqb key) (keys d)); reflexivity.
Qed.

Lemma fold_dict_set_keys {V} (g : string -> V) ms (acc : Dict V) :
  keys (fold_left (fun cm m => dict_set cm m (g m)) ms acc)
    = fold_left (fun seen key => if mem key seen then seen else seen ++ [key])
        ms (keys acc).
Proof.
  revert acc. induction ms as [|m ms IH]; intros acc; [reflexivity|].
  cbn [fold_left]. rewrite IH, keys_dict_set_eq. reflexivity.
Qed.

Lemma fold_dict_set_lookup {V} (g : string -> V) ms (acc : Dict V) m :
  dict_get (fold_left (fun cm k => dict_set cm k (g k)) ms acc) m
    = if mem m ms then Some (g m) else dict_get acc m.
Proof.
  revert acc. induction ms as [|k ms IH]; intros acc; [reflexivity|].
  cbn [fold_left mem existsb]. fold (mem m ms). rewrite IH.
  destruct (mem m ms); [now rewrite orb_true_r|]. rewrite orb_false_r.
  rewrite dict_get_set, (String.eqb_sym m k).
  destruct (String.eqb_spec k m) as [->|]; reflexivity.
Qed.

(** The table of a metric is in [comparison_metrics] exactly when the metric
    is among the metrics compared. *)
Lemma build_metrics_lookup metrics entries m :
  dict_get (build_metrics metrics entries) m
    = if mem m (metrics_to_compare metrics) then Some (metric_table m entries)
      else None.
Proof.
  unfold build_metrics.
  apply (fold_dict_set_lookup (fun m => metric_table m entries)).
Qed.

Lemma build_metrics_keys metrics entries :
  keys (build_metrics metrics entries)
    = first_occurrences (metrics_to_compare metrics).
Proof.
  unfold build_metrics, first_occurrences.
  apply (fold_dict_set_keys (fun m => metric_table m entries)).
Qed.

(** A name that is not one of the six metrics gets an empty table. *)
Lemma metric_table_unknown metric entries :
  mem metric DEFAULT_METRICS = false -> metric_table metric entries = [].
Proof.
  intros Hm.
  assert (Hv : forall d, metric_value metric d = None).
  { intros d. unfold metric_value. cbn in Hm.
    rewrite !(String.eqb_sym metric) in Hm.
    destruct (String.eqb "open_issues" metric) eqn:H1; [discriminate|].
    destruct (String.eqb "open_prs" metric) eqn:H2; [discriminate|].
    destruct (String.eqb "stars" metric) eqn:H3; [discriminate|].
    destruct (String.eqb "forks" metric) eqn:H4; [discriminate|].
    destruct (String.eqb "watchers" metric) eqn:H5; [discriminate|].
    destruct (String.eqb "last_commit_age" metric) eqn:H6; [discriminate|].
    rewrite !(String.eqb_sym metric), H1, H2, H3, H4, H5, H6. reflexivity. }
  unfold metric_table. generalize (eq_refl (@nil (string * Z))).
  generalize (@nil (string * Z)) at 1 3 as acc.
  induction entries as [|entry entries IH]; intros acc Hacc; [exact Hacc|].
  cbn [fold_left]. apply IH.
  destruct entry as [d|o n err]; cbn [record_metric]; [|exact Hacc].
  now rewrite Hv.
Qed.

(** Some target was fetched. *)
Lemma fetched_some X targets :
  fetched (repo_data_list X targets) <> [] <->
  exists t d, In t targets /\
    snd (fetch_repository_data X (fst t) (snd t)) = inr d.
Proof.
  rewrite repo_data_list_entries.
  induction targets as [|t ts IH]; cbn [map fetched flat_map].
  - split; [congruence|]. intros (t & d & [] & _).
  - unfold entry_of at 1.
    destruct (snd (fetch_repository_data X (fst t) (snd t))) as [e|d] eqn:Hf;
      cbn [collect_one snd app].
    + fold (fetched (map (entry_of X) ts)). rewrite IH. split.
      * intros (t' & d & Hin & Hd). exists t', d. split; [now right|exact Hd].
      * intros (t' & d & [<-|Hin] & Hd); [congruence|]. now exists t', d.
    + split; [|discriminate]. intros _. exists t, d. split; [now left|exact Hf].
Qed.

(** Without a fetched target the rankings are computed only when none of
    them is asked for. *)
Lemma build_summary_no_success metrics entries :
  fetched entries = [] ->
  (ranking_requested metrics = false /\
   build_summary (build_metrics metrics entries) = inr []) \/
  (ranking_requested metrics = true /\
   exists msg, build_summary (build_metrics metrics entries) = inl (ValueError msg)).
Proof.
  intros Hf. unfold build_summary, rank, ranking_requested.
  rewrite !build_metrics_lookup, !(metric_table_no_success _ _ Hf).
  cbn [existsb RANKINGS fst].
  destruct (mem "last_commit_age" (metrics_to_compare metrics));
    [right; split; [reflexivity|]; cbn; eauto|].
  destruct (mem "stars" (metrics_to_compare metrics));
    [right; split; [reflexivity|]; cbn; eauto|].
  destruct (mem "forks" (metrics_to_compare metrics));
    [right; split; [reflexivity|]; cbn; eauto|].
  left. split; reflexivity.
Qed.

(** The titles of a summary that was computed. *)
Lemma build_summary_titles metrics entries s :
  build_summary (build_metrics metrics entries) = inr s ->
  keys s
    = map snd (filter (fun ranking => mem (fst ranking) (metrics_to_compare metrics))
                 RANKINGS).
Proof.
  unfold build_summary, rank. rewrite !build_metrics_lookup.
  cbn [filter RANKINGS fst].
  destruct (mem "last_commit_age" (metrics_to_compare metrics));
    [destruct (leader python_min (metric_table "last_commit_age" entries));
       [discriminate|]|];
    cbn [bind];
    (destruct (mem "stars" (metrics_to_compare metrics));
     [destruct (leader python_max (metric_table "stars" entries));
        [discriminate|]|]);
    cbn [bind];
    (destruct (mem "forks" (metrics_to_compare metrics));
     [destruct (leader python_max (metric_table "forks" entries));
        [discriminate|]|]);
    cbn [bind]; intros [= <-]; reflexivity.
Qed.

(** A comparison that returns got past the validation. *)
Lemma compare_returns_validated X environ repositories metrics res :
  snd (compare_repositories X environ repositories metrics) = inr res ->
  exists targets, validate environ repositories = inr targets.
Proof.
  unfold compare_repositories.
  destruct (validate environ repositories) as [e|targets]; [|eauto].
  destruct e; discriminate.
Qed.

End TableFacts.

(** When the validation passes, [compare_repositories] returns a result
    exactly when some target was fetched or none of the ranked metrics
    (["last_commit_age"], ["stars"], ["forks"]) is among the metrics
    compared; otherwise [min] or [max] of an empty table raises, and the
    tool raises the invalid-params [McpError] of the [except ValueError]
    clause. *)
Theorem comparison_returns_iff (X : Comparison.Externals)
  (environ : Comparison.Environ) (repositories : list Comparison.Repository)
  (metrics : option (list string)) (targets : list (string * string)) :
  Comparison.validate environ repositories = inr targets ->
  ((exists res,
      snd (Comparison.compare_repositories X environ repositories metrics)
        = inr res) <->
   ((exists t d, In t targets /\
       snd (Comparison.fetch_repository_data X (fst t) (snd t)) = inr d) \/
    ComparisonObs.ranking_requested metrics = false)) /\
  ((forall res,
      snd (Comparison.compare_repositories X environ repositories metrics)
        <> inr res) ->
   exists msg,
     snd (Comparison.compare_repositories X environ repositories metrics)
       = inl (Comparison.mkMcpError (-32602)
                ("Ошибка валидации параметров: " ++ msg)%string)).
Proof.
  intros Hv.
  rewrite (compare_after_validation X environ repositories metrics targets Hv).
  rewrite <- fetched_some.
  destruct (ComparisonSpec.fetched (ComparisonSpec.repo_data_list X targets))
    as [|d ds] eqn:Hf.
  - destruct (build_summary_no_success metrics _ Hf)
      as [[Hr ->]|[Hr (msg & ->)]]; rewrite Hr.
    + split.
      * split; [now right|]. intros _. eexists. reflexivity.
      * intros Hno. now destruct (Hno _ eq_refl).
    + split.
      * split; [intros [res Hres]; discriminate|].
        intros [H|H]; [now destruct H|discriminate].
      * intros _. exists msg. reflexivity.
  - destruct (build_summary_succeeds metrics
                (ComparisonSpec.repo_data_list X targets)) as [s ->];
      [rewrite Hf; discriminate|].
    split.
    + split; [intros _; left; discriminate|]. intros _. eexists. reflexivity.
    + intros Hno. now destruct (Hno _ eq_refl).
Qed.

Lemma comparison_returns_iff_witness :
  exists res,
    snd (Comparison.compare_repositories Sample.scenario_all_fail
           Sample.with_token Sample.two_targets (Some ["open_issues"]))
      = inr res.
Proof.
  apply (proj2 (proj1 (comparison_returns_iff Sample.scenario_all_fail
                         Sample.with_token Sample.two_targets
                         (Some ["open_issues"])
                         [("org", "one"); ("org", "two")] eq_refl))).
  right. reflexivity.
Defined.

(** The result follows the metrics asked for.  Its tables and
    [metrics_compared] are keyed by the distinct names of [metrics], each at
    its first occurrence, the six default metrics standing for [None] and
    for an empty list; a name that is none of the six is accepted and gets an
    empty table; and the summary holds the title of a ranking exactly when
    the metric it ranks is among them, in the order [most_active],
    [most_popular], [most_forked]. *)
Theorem result_follows_requested_metrics (X : Comparison.Externals)
  (environ : Comparison.Environ) (repositories : list Comparison.Repository)
  (metrics : option (list string)) (res : Comparison.ToolResult) :
  snd (Comparison.compare_repositories X environ repositories metrics) = inr res ->
  Comparison.keys (Comparison.metrics (Comparison.structured_content res))
    = ComparisonObs.first_occurrences (Comparison.metrics_to_compare metrics) /\
  Comparison.metrics_compared (Comparison.meta res)
    = ComparisonObs.first_occurrences (Comparison.metrics_to_compare metrics) /\
  Comparison.keys (Comparison.summary (Comparison.structured_content res))
    = map snd
        (filter (fun ranking =>
                   ComparisonObs.mem (fst ranking)
                     (Comparison.metrics_to_compare metrics))
           ComparisonObs.RANKINGS) /\
  (forall metric table,
     Comparison.dict_get
       (Comparison.metrics (Comparison.structured_content res)) metric
       = Some table ->
     ComparisonObs.mem metric Comparison.DEFAULT_METRICS = false ->
     table = []).
Proof.
  intros Hres.
  destruct (compare_returns_validated X environ repositories metrics res Hres)
    as [targets Hv].
  rewrite (compare_after_validation X environ repositories metrics targets Hv)
    in Hres.
  destruct (Comparison.build_summary _) as [e|s] eqn:Hs.
  - destruct e; discriminate.
  - injection Hres as <-.
    cbn [Comparison.structured_content Comparison.metrics Comparison.meta
         Comparison.metrics_compared Comparison.summary].
    split; [apply build_metrics_keys|]. split; [apply build_metrics_keys|].
    split; [exact (build_summary_titles _ _ _ Hs)|].
    intros metric table Hg Hm. rewrite build_metrics_lookup in Hg.
    destruct (ComparisonObs.mem metric (Comparison.metrics_to_compare metrics));
      [|discriminate].
    injection Hg as <-. now apply metric_table_unknown.
Qed.

Lemma result_follows_requested_metrics_witness :
  exists res,
    snd (Comparison.compare_repositories Sample.scenario_two_targets
           Sample.with_token Sample.two_targets
           (Some ["stars"; "velocity"; "stars"]))
      = inr res /\
    Comparison.keys (Comparison.metrics (Comparison.structured_content res))
      = ["stars"; "velocity"] /\
    Comparison.keys (Comparison.summary (Comparison.structured_content res))
      = ["most_popular"].
Proof.
  eexists. split; [reflexivity|].
  refine ((fun H => conj (proj1 H) (proj1 (proj2 (proj2 H))))
            (result_follows_requested_metrics Sample.scenario_two_targets
               Sample.with_token Sample.two_targets
               (Some ["stars"; "velocity"; "stars"]) _ eq_refl)).
Defined.

(* ================================================================= *)
(** ** What a comparison sends and reports *)

Section LogFacts.
Import Comparison ComparisonSpec ComparisonObs.

Lemma progress_of_app l1 l2 :
  progress_of (l1 ++ l2) = progress_of l1 ++ progress_of l2.
Proof.
  induction l1 as [|e l1 IH]; [reflexivity|].
  destruct e; cbn; rewrite IH; reflexivity.
Qed.

Lemma gathers_app l1 l2 : gathers (l1 ++ l2) = gathers l1 ++ gathers l2.
Proof.
  induction l1 as [|e l1 IH]; [reflexivity|].
  destruct e; cbn; rewrite IH; reflexivity.
Qed.

Lemma gathers_collect X targets results :
  gathers (fst (collect X targets results)) = [].
Proof.
  revert results. induction targets as [|t ts IH]; intros [|r rs]; try reflexivity.
  cbn [collect fst]. rewrite gathers_app, IH.
  destruct r; reflexivity.
Qed.

Lemma gathers_on_exception X log e :
  gathers (fst (on_exception X log e)) = gathers log.
Proof.
  destruct e; cbn; try reflexivity. rewrite gathers_app. cbn. apply app_nil_r.
Qed.

Lemma progress_of_collect X targets results :
  progress_of (fst (collect X targets results)) = [].
Proof.
  revert results. induction targets as [|t ts IH]; intros [|r rs]; try reflexivity.
  cbn [collect fst]. rewrite progress_of_app, IH.
  destruct r; reflexivity.
Qed.

Lemma progress_of_on_exception X log e :
  progress_of (fst (on_exception X log e)) = progress_of log.
Proof.
  destruct e; cbn; try reflexivity. rewrite progress_of_app. cbn. apply app_nil_r.
Qed.

Lemma on_exception_raises X log e :
  exists err, snd (on_exception X log e) = inl err.
Proof. destruct e; cbn; eauto. Qed.

(** Every exception of the validation is a [ValueError]. *)
Lemma validate_raises_value_error environ repositories e :
  validate environ repositories = inl e -> exists msg, e = ValueError msg.
Proof.
  unfold validate. rewrite require_token.
  destruct (environ "GITHUB_TOKEN"); cbn [bind]; [|intros [= <-]; eauto].
  destruct (_ <? 2); [intros [= <-]; eauto|].
  destruct (5 <? _); [intros [= <-]; eauto|].
  induction repositories as [|r rest IH]; cbn [check_keys]; [discriminate|].
  destruct (owner_key r); [|intros [= <-]; eauto].
  destruct (repo_key r); [|intros [= <-]; eauto].
  destruct (check_keys rest) as [e'|ts]; cbn [bind]; [|discriminate].
  intros [= <-]. now apply IH.
Qed.

Lemma validate_token environ repositories targets :
  validate environ repositories = inr targets -> environ "GITHUB_TOKEN" <> None.
Proof.
  unfold validate. rewrite require_token.
  destruct (environ "GITHUB_TOKEN"); [discriminate|]. cbn. discriminate.
Qed.

Lemma fetch_calls X owner repo :
  fst (fetch_repository_data X owner repo) = [repo_call owner repo] \/
  fst (fetch_repository_data X owner repo)
    = [repo_call owner repo; search_call owner repo; commits_call owner repo].
Proof.
  unfold fetch_repository_data.
  destruct (retry_github_request X (repo_call owner repo)) as [r|e]; cbn; auto.
  destruct (decode r); cbn; auto.
Qed.

(** The calls of one task, by the answer of its metadata call. *)
Lemma fetch_calls_by_answer X owner repo :
  fst (fetch_repository_data X owner repo)
    = match retry_github_request X (repo_call owner repo) with
      | Raises _ => [repo_call owner repo]
      | Returns r =>
          match json r with
          | Payload.JInvalid _ => [repo_call owner repo]
          | _ => [repo_call owner repo; search_call owner repo;
                  commits_call owner repo]
          end
      end.
Proof.
  unfold fetch_repository_data, decode.
  destruct (retry_github_request X (repo_call owner repo)) as [r|e];
    [|reflexivity].
  destruct (json r); reflexivity.
Qed.

(** One [gather], of one task per target, when the validation passed. *)
Lemma gathers_of_comparison X environ repositories metrics targets :
  validate environ repositories = inr targets ->
  gathers (fst (compare_repositories X environ repositories metrics))
    = [map (fun t => fst (fetch_repository_data X (fst t) (snd t))) targets].
Proof.
  intros Hv. unfold compare_repositories. rewrite Hv.
  assert (Hg : map fst (gather X targets)
               = map (fun t => fst (fetch_repository_data X (fst t) (snd t)))
                   targets).
  { unfold gather. now rewrite map_map. }
  destruct (build_summary _) as [e|s].
  - rewrite gathers_on_exception, !gathers_app, gathers_collect. cbn.
    now rewrite Hg.
  - cbn [fst]. rewrite !gathers_app, gathers_collect. cbn. now rewrite Hg.
Qed.

Lemma gather_calls_length X targets :
  (List.length targets <= List.length (List.concat (map fst (gather X targets)))
     <= 3 * List.length targets)%nat.
Proof.
  unfold gather. induction targets as [|t ts IH]; cbn [map List.concat]; [cbn; lia|].
  rewrite length_app. cbn [List.length].
  destruct (fetch_calls X (fst t) (snd t)) as [-> | ->]; cbn [List.length]; lia.
Qed.

Lemma gather_calls_get X targets c :
  In c (List.concat (map fst (gather X targets))) -> method c = "GET".
Proof.
  unfold gather. induction targets as [|t ts IH]; cbn [map List.concat]; [intros []|].
  rewrite in_app_iff. intros [H|H]; [|now apply IH].
  destruct (fetch_calls X (fst t) (snd t)) as [Hc|Hc]; rewrite Hc in H;
    cbn in H; intuition (subst; reflexivity).
Qed.

End LogFacts.

(** The progress that [compare_repositories] reports goes up and reaches
    100 only when the tool returns a result: a call that returns reported
    0, 10, 20, 70, 80, 95, 100; a call that raises reported 0 alone, having
    sent nothing, when the validation failed, and 0, 10, 20, 70, 80 when the
    rankings could not be computed. *)
Theorem progress_reaches_100_only_on_success (X : Comparison.Externals)
  (environ : Comparison.Environ) (repositories : list Comparison.Repository)
  (metrics : option (list string)) :
  (forall res,
     snd (Comparison.compare_repositories X environ repositories metrics)
       = inr res ->
     ComparisonObs.progress_of
       (fst (Comparison.compare_repositories X environ repositories metrics))
       = [0; 10; 20; 70; 80; 95; 100]) /\
  (forall err,
     snd (Comparison.compare_repositories X environ repositories metrics)
       = inl err ->
     (ComparisonObs.progress_of
        (fst (Comparison.compare_repositories X environ repositories metrics))
        = [0] /\
      Comparison.calls
        (fst (Comparison.compare_repositories X environ repositories metrics))
        = [] /\
      exists e, Comparison.validate environ repositories = inl e) \/
     (ComparisonObs.progress_of
        (fst (Comparison.compare_repositories X environ repositories metrics))
        = [0; 10; 20; 70; 80] /\
      exists targets, Comparison.validate environ repositories = inr targets)).
Proof.
  unfold Comparison.compare_repositories.
  destruct (Comparison.validate environ repositories) as [e|targets] eqn:Hv.
  - split.
    + intros res H. destruct (on_exception_raises X
        [Comparison.CtxNote Comparison.Starting; Comparison.CtxProgress 0] e)
        as [err He]. congruence.
    + intros err _. left.
      rewrite progress_of_on_exception, calls_on_exception.
      split; [reflexivity|]. split; [reflexivity|]. now exists e.
  - destruct (Comparison.build_summary _) as [e|s].
    + split.
      * intros res H.
        match type of H with
        | snd (Comparison.on_exception X ?log e) = _ =>
            destruct (on_exception_raises X log e) as [err He]; congruence
        end.
      * intros err _. right. rewrite progress_of_on_exception.
        rewrite !progress_of_app, progress_of_collect.
        split; [reflexivity|]. now exists targets.
    + split.
      * intros res _. cbn [fst].
        rewrite !progress_of_app, progress_of_collect.
        reflexivity.
      * intros err H. discriminate.
Qed.

(** A comparison makes at most 15 calls of [retry_github_request], all of
    them with the method GET.  When the validation fails there is no
    [gather] and no call.  Otherwise there is one [gather], of one task per
    target in the order of the input; a task makes the metadata call alone
    when that call raised or its body is not JSON, and the metadata call,
    the search and the commits call, in this order, in every other case.
    Nothing is stated on the order between the calls of two tasks. *)
Theorem comparison_call_budget (X : Comparison.Externals)
  (environ : Comparison.Environ) (repositories : list Comparison.Repository)
  (metrics : option (list string)) :
  (List.length
     (Comparison.calls
        (fst (Comparison.compare_repositories X environ repositories metrics)))
     <= 15)%nat /\
  (forall c,
     In c (Comparison.calls
             (fst (Comparison.compare_repositories X environ repositories metrics))) ->
     Comparison.method c = "GET") /\
  (forall e,
     Comparison.validate environ repositories = inl e ->
     ComparisonObs.gathers
       (fst (Comparison.compare_repositories X environ repositories metrics))
       = []) /\
  (forall targets,
     Comparison.validate environ repositories = inr targets ->
     ComparisonObs.gathers
       (fst (Comparison.compare_repositories X environ repositories metrics))
       = [map (fun t => fst (Comparison.fetch_repository_data X (fst t) (snd t)))
            targets] /\
     forall t, In t targets ->
       fst (Comparison.fetch_repository_data X (fst t) (snd t))
         = match Comparison.retry_github_request X
                   (Comparison.repo_call (fst t) (snd t))
           with
           | Raises _ => [Comparison.repo_call (fst t) (snd t)]
           | Returns r =>
               match json r with
               | Payload.JInvalid _ => [Comparison.repo_call (fst t) (snd t)]
               | _ => [Comparison.repo_call (fst t) (snd t);
                       Comparison.search_call (fst t) (snd t);
                       Comparison.commits_call (fst t) (snd t)]
               end
           end).
Proof.
  destruct (Comparison.validate environ repositories) as [e|targets] eqn:Hv.
  - assert (Hc : Comparison.calls
                   (fst (Comparison.compare_repositories X environ repositories
                           metrics)) = []).
    { unfold Comparison.compare_repositories. rewrite Hv.
      now rewrite calls_on_exception. }
    rewrite Hc. split; [cbn; lia|]. split; [intros c []|].
    split; [|intros ts [=]].
    intros e' _. unfold Comparison.compare_repositories. rewrite Hv.
    now rewrite gathers_on_exception.
  - rewrite (calls_of_comparison X environ repositories metrics targets Hv).
    pose proof (gather_calls_length X targets) as Hlen.
    destruct (validate_in_range environ repositories targets Hv) as [Hr Hk].
    apply check_keys_length in Hk as [Hk _].
    split; [lia|]. split; [apply gather_calls_get|].
    split; [intros e [=]|].
    intros ts [= <-]. split.
    + now apply gathers_of_comparison.
    + intros t _. apply fetch_calls_by_answer.
Qed.

(** A request is valid or it is rejected before anything is sent.  Either
    [GITHUB_TOKEN] is set, there are 2 to 5 repositories and each of them
    has the keys [owner] and [repo]; or the tool makes no call, reports the
    message of the [ValueError] through [ctx.error] right after the first
    progress report, and raises the invalid-params [McpError] (-32602) with
    that message. *)
Theorem invalid_request_is_rejected_unsent (X : Comparison.Externals)
  (environ : Comparison.Environ) (repositories : list Comparison.Repository)
  (metrics : option (list string)) :
  (environ "GITHUB_TOKEN" <> None /\
   (2 <= List.length repositories <= 5)%nat /\
   (forall r, In r repositories -> ComparisonObs.has_keys r = true) /\
   exists targets, Comparison.validate environ repositories = inr targets)
  \/
  (exists msg,
     Comparison.compare_repositories X environ repositories metrics
       = ([Comparison.CtxNote Comparison.Starting; Comparison.CtxProgress 0;
           Comparison.CtxValidationError msg],
          inl (Comparison.mkMcpError (-32602)
                 ("Ошибка валидации параметров: " ++ msg)%string)) /\
     (environ "GITHUB_TOKEN" = None \/
      (List.length repositories < 2)%nat \/ (5 < List.length repositories)%nat \/
      exists r, In r repositories /\ ComparisonObs.has_keys r = false)).
Proof.
  destruct (Comparison.validate environ repositories) as [e|targets] eqn:Hv.
  - right. destruct (validate_raises_value_error environ repositories e Hv)
      as [msg ->].
    exists msg. split.
    + unfold Comparison.compare_repositories. rewrite Hv. reflexivity.
    + destruct (environ "GITHUB_TOKEN") as [tok|] eqn:Htok; [|now left]. right.
      destruct (Nat.ltb_spec (List.length repositories) 2) as [|H2]; [now left|].
      right.
      destruct (Nat.ltb_spec 5 (List.length repositories)) as [|H5]; [now left|].
      right.
      rewrite validate_accepts in Hv by (try lia; congruence).
      clear - Hv. revert Hv.
      induction repositories as [|r rest IH]; cbn [Comparison.check_keys];
        [discriminate|].
      unfold ComparisonObs.has_keys.
      destruct (Comparison.owner_key r) eqn:Ho;
        [|intros _; exists r; split; [now left|now rewrite Ho]].
      destruct (Comparison.repo_key r) eqn:Hn;
        [|intros _; exists r; split; [now left|now rewrite Ho, Hn]].
      destruct (Comparison.check_keys rest) as [e'|ts]; cbn [Comparison.bind];
        [|discriminate].
      intros [= ->]. destruct (IH eq_refl) as (r' & Hin & Hr').
      exists r'. split; [now right|exact Hr'].
  - left. split; [exact (validate_token _ _ _ Hv)|].
    destruct (validate_in_range environ repositories targets Hv) as [Hr Hk].
    split; [exact Hr|]. split; [|now exists targets].
    apply check_keys_length in Hk as [_ Hk]. rewrite Hk.
    intros r Hin. apply in_map_iff in Hin as (t & <- & _). reflexivity.
Qed.

Section RowFacts.
Import Comparison ComparisonSpec ComparisonObs.

Lemma find_app_last {A} (p : A -> bool) l x :
  find p (l ++ [x])
    = match find p l with Some y => Some y | None => if p x then Some x else None end.
Proof.
  induction l as [|a l IH]; cbn; [reflexivity|].
  destruct (p a); [reflexivity|exact IH].
Qed.

Lemma metric_value_known metric :
  mem metric DEFAULT_METRICS = true -> forall d, exists v, metric_value metric d = Some v.
Proof.
  intros Hm d. unfold metric_value. cbn in Hm.
  destruct (String.eqb metric "open_issues"); [eauto|].
  destruct (String.eqb metric "open_prs"); [eauto|].
  destruct (String.eqb metric "stars"); [eauto|].
  destruct (String.eqb metric "forks"); [eauto|].
  destruct (String.eqb metric "watchers"); [eauto|].
  destruct (String.eqb metric "last_commit_age"); [eauto|discriminate].
Qed.

Lemma fold_record_metric_lookup metric entries acc key :
  mem metric DEFAULT_METRICS = true ->
  dict_get (fold_left (record_metric metric) entries acc) key
    = match last_fetched key entries with
      | Some d => metric_value metric d
      | None => dict_get acc key
      end.
Proof.
  intros Hm. unfold last_fetched. revert acc.
  induction entries as [|entry entries IH]; intros acc; [reflexivity|].
  cbn [fold_left]. rewrite IH. destruct entry as [d|o n err].
  - cbn [fetched flat_map app]. fold (fetched entries).
    cbn [rev]. rewrite find_app_last.
    destruct (find _ (rev (fetched entries))); [reflexivity|].
    cbn [record_metric]. destruct (metric_value_known metric Hm d) as [v Hv].
    rewrite Hv, dict_get_set.
    destruct (String.eqb _ key); [now rewrite Hv|reflexivity].
  - reflexivity.
Qed.

Lemma fold_record_metric_first metric entries acc :
  mem metric DEFAULT_METRICS = true ->
  keys (fold_left (record_metric metric) entries acc)
    = fold_left (fun seen key => if mem key seen then seen else seen ++ [key])
        (map key_of (fetched entries)) (keys acc).
Proof.
  intros Hm. revert acc.
  induction entries as [|entry entries IH]; intros acc; [reflexivity|].
  cbn [fold_left]. rewrite IH. destruct entry as [d|o n err].
  - cbn [fetched flat_map app map fold_left]. fold (fetched entries).
    cbn [record_metric]. destruct (metric_value_known metric Hm d) as [v Hv].
    rewrite Hv, keys_dict_set_eq. reflexivity.
  - reflexivity.
Qed.

End RowFacts.

(** The table of each of the six metrics has one row for each distinct name
    [owner/repo] among the fetched targets, at the place where the name
    first occurs in input order; the value of the row is that of the
    dictionary fetched last under this name.  Targets that share a name
    share a row, and a name that was not fetched has none. *)
Theorem metric_table_rows (metric : string) (entries : list Comparison.Entry) :
  ComparisonObs.mem metric Comparison.DEFAULT_METRICS = true ->
  Comparison.keys (Comparison.metric_table metric entries)
    = ComparisonObs.first_occurrences
        (map ComparisonSpec.key_of (ComparisonSpec.fetched entries)) /\
  (forall key,
     Comparison.dict_get (Comparison.metric_table metric entries) key
       = match ComparisonObs.last_fetched key entries with
         | Some d => Comparison.metric_value metric d
         | None => None
         end).
Proof.
  intros Hm. split.
  - apply (fold_record_metric_first metric entries [] Hm).
  - intros key. apply (fold_record_metric_lookup metric entries [] key Hm).
Qed.

Lemma metric_table_rows_witness :
  Comparison.keys
    (Comparison.metric_table "stars"
       (ComparisonSpec.repo_data_list (Sample.scenario_partial Sample.not_found)
          [("org", "a"); ("org", "b"); ("org", "c"); ("org", "b")]))
    = ["org/b"; "org/c"].
Proof.
  apply (proj1 (metric_table_rows "stars"
                  (ComparisonSpec.repo_data_list (Sample.scenario_partial Sample.not_found)
                     [("org", "a"); ("org", "b"); ("org", "c"); ("org", "b")])
                  eq_refl)).
Defined.

(* ================================================================= *)
(** ** [compare_release_versions] *)

(** The run of a call with a budget that is not empty, in [mcp-server-6]. *)
Lemma server6_run request ctx N :
  1 <= N <= FLOAT_MAX_EXP + 1 ->
  exists k,
    0 <= k < N /\
    (forall i, 0 <= i < k -> transient (request i)) /\
    (k = N - 1 \/ ~ transient (request k)) /\
    ran Server6.retry_github_request request ctx N k (verdict (request k)).
Proof.
  intros HN.
  destruct (run_within_float_range request ctx N HN)
    as (k & Hk & Hpre & Hlast & H1 & H6).
  exists k. split; [exact Hk|]. split; [exact Hpre|].
  split; [exact Hlast|exact H6].
Qed.

Lemma errors6_code R e ctx operation :
  Comparison.code (snd (Errors6.handle_github_error R e ctx operation)) = -32603.
Proof. destruct e; reflexivity. Qed.

Section ToolFacts.
Import Tool.

Lemma upstream_app l1 l2 : upstream (l1 ++ l2) = upstream l1 ++ upstream l2.
Proof.
  induction l1 as [|e l1 IH]; [reflexivity|].
  destruct e; cbn; rewrite IH; reflexivity.
Qed.

Lemma upstream_events c tr : upstream (map (Upstream c) tr) = tr.
Proof. induction tr as [|e tr IH]; [reflexivity|]. cbn. now rewrite IH. Qed.

Lemma upstream_errors texts : upstream (map ErrorNote texts) = [].
Proof. induction texts as [|t texts IH]; [reflexivity|exact IH]. Qed.

Lemma version_progress_app l1 l2 :
  progress_of (l1 ++ l2) = progress_of l1 ++ progress_of l2.
Proof.
  induction l1 as [|e l1 IH]; [reflexivity|].
  destruct e; cbn; rewrite IH; reflexivity.
Qed.

Lemma version_progress_events c tr : progress_of (map (Upstream c) tr) = [].
Proof. induction tr as [|e tr IH]; [reflexivity|exact IH]. Qed.

Lemma version_progress_errors texts : progress_of (map ErrorNote texts) = [].
Proof. induction texts as [|t texts IH]; [reflexivity|exact IH]. Qed.

End ToolFacts.

Section VersionFacts.
Import Tool VersionComparison.

(** What [on_exception] leaves. *)
Lemma version_on_exception W owner repo log e :
  snd (on_exception W owner repo log e)
    = inl (snd (Errors6.handle_github_error (reading W) e (Some TheContext)
                  (operation_of owner repo))) /\
  upstream (fst (on_exception W owner repo log e)) = upstream log /\
  progress_of (fst (on_exception W owner repo log e)) = progress_of log.
Proof.
  unfold on_exception. cbn [fst snd]. split; [reflexivity|].
  rewrite upstream_app, upstream_errors, version_progress_app,
    version_progress_errors, !app_nil_r.
  split; reflexivity.
Qed.

(** The tool by cases: the token, the outcome of the retried call, the
    body of the answer. *)
Lemma version_tool_cases W owner repo v1 v2 :
  let run := compare_release_versions W owner repo v1 v2 in
  let answer :=
    Server6.retry_github_request (client W (releases_call owner repo))
      (Some TheContext) MAX_RETRIES in
  (environ W "GITHUB_TOKEN" = None /\
   upstream (fst run) = [] /\ progress_of (fst run) = [0] /\
   snd run
     = inl (snd (Errors6.handle_github_error (reading W)
                   (ValueError
                      "Отсутствуют обязательные переменные окружения: GITHUB_TOKEN")
                   (Some TheContext) (operation_of owner repo)))) \/
  (environ W "GITHUB_TOKEN" <> None /\
   upstream (fst run) = fst answer /\
   ((exists e,
       (snd answer = Raises e \/
        exists response,
          snd answer = Returns response /\ releases_json W response = inl e) /\
       progress_of (fst run) = [0; 10; 20; 30] /\
       snd run
         = inl (snd (Errors6.handle_github_error (reading W) e (Some TheContext)
                       (operation_of owner repo)))) \/
    (exists response releases,
       snd answer = Returns response /\
       releases_json W response = inr releases /\
       progress_of (fst run) = [0; 10; 20; 30; 60; 95; 100] /\
       snd run
         = inr {| content :=
                    result_text owner repo releases
                      (or_tag_of v1 (nth_error releases 0))
                      (or_tag_of v2 (nth_error releases 1));
                  structured_content :=
                    {| repository := (owner ++ "/" ++ repo)%string;
                       version1 := or_tag_of v1 (nth_error releases 0);
                       version2 := or_tag_of v2 (nth_error releases 1);
                       comparison_available :=
                         given (or_tag_of v1 (nth_error releases 0))
                         && given (or_tag_of v2 (nth_error releases 1)) |};
                  meta_owner := owner;
                  meta_repo := repo;
                  operation := "compare_release_versions" |}))).
Proof.
  cbv zeta. unfold compare_release_versions. rewrite require_token.
  destruct (environ W "GITHUB_TOKEN") as [token|] eqn:Htok.
  - right. split; [discriminate|].
    destruct (Server6.retry_github_request _ _ _) as [tr [response|e]];
      cbn [fst snd].
    + destruct (releases_json W response) as [e|releases] eqn:Hj.
      * destruct (version_on_exception W owner repo
                    ([Note "🚀 Начинаем сравнение версий релизов"; Progress 0]
                       ++ [Progress 10;
                           Note ("🔧 Подготавливаем запрос для " ++ owner ++ "/"
                                   ++ repo)%string;
                           Progress 20;
                           Note "📡 Отправляем запросы к GitHub API";
                           Progress 30]
                       ++ map (Upstream (releases_call owner repo)) tr) e) as (Hs & Hu & Hp).
        rewrite Hs, Hu, Hp.
        rewrite !upstream_app, upstream_events, !version_progress_app,
          version_progress_events.
        split; [reflexivity|]. left. exists e. split; [right; eauto|].
        split; reflexivity.
      * cbn [fst snd].
        rewrite !upstream_app, upstream_events, !version_progress_app,
          version_progress_events.
        split; [cbn; now rewrite app_nil_r|]. right. exists response, releases.
        split; [reflexivity|]. split; [exact Hj|]. split; reflexivity.
    + destruct (version_on_exception W owner repo
                  ([Note "🚀 Начинаем сравнение версий релизов"; Progress 0]
                     ++ [Progress 10;
                         Note ("🔧 Подготавливаем запрос для " ++ owner ++ "/"
                                 ++ repo)%string;
                         Progress 20;
                         Note "📡 Отправляем запросы к GitHub API";
                         Progress 30]
                     ++ map (Upstream (releases_call owner repo)) tr) e) as (Hs & Hu & Hp).
      rewrite Hs, Hu, Hp.
      rewrite !upstream_app, upstream_events, !version_progress_app,
        version_progress_events.
      split; [reflexivity|]. left. exists e. split; [left; reflexivity|].
      split; reflexivity.
  - left. split; [reflexivity|].
    destruct (version_on_exception W owner repo
                [Note "🚀 Начинаем сравнение версий релизов"; Progress 0]
                (ValueError
                   "Отсутствуют обязательные переменные окружения: GITHUB_TOKEN"))
      as (Hs & Hu & Hp).
    rewrite Hs, Hu, Hp. repeat split; reflexivity.
Qed.

End VersionFacts.

(** Every failure of [compare_release_versions] is raised as the
    internal-error [McpError] (-32603), and a failing call never reports the
    progress 100.  This holds for a missing [GITHUB_TOKEN] too, which
    [compare_repositories] reports as invalid parameters (-32602): the
    [ValueError] of [_require_env_vars] goes to [handle_github_error] like
    any other exception, before any request is sent. *)
Theorem version_tool_failures_are_internal (W : VersionComparison.World)
  (owner repo : string) (version1 version2 : option string)
  (err : Comparison.McpError) :
  snd (VersionComparison.compare_release_versions W owner repo version1 version2)
    = inl err ->
  Comparison.code err = -32603 /\
  ~ In 100
      (Tool.progress_of
         (fst (VersionComparison.compare_release_versions W owner repo
                 version1 version2))) /\
  (VersionComparison.environ W "GITHUB_TOKEN" = None ->
   Tool.upstream
     (fst (VersionComparison.compare_release_versions W owner repo
             version1 version2)) = [] /\
   Comparison.message err
     = ("Неожиданная ошибка: "
          ++ str_of (VersionComparison.reading W)
               (ValueError
                  "Отсутствуют обязательные переменные окружения: GITHUB_TOKEN"))%string).
Proof.
  intros Herr.
  destruct (version_tool_cases W owner repo version1 version2)
    as [(Htok & Hu & Hp & Hs)|(Htok & Hu & [(e & _ & Hp & Hs)|(r & rs & _ & _ & _ & Hs)])];
    rewrite Hs in Herr; try discriminate; injection Herr as <-.
  - split; [reflexivity|]. split.
    + rewrite Hp. cbn. intros [H|[]]. discriminate.
    + intros _. split; [exact Hu|reflexivity].
  - split; [apply errors6_code|]. split.
    + rewrite Hp. cbn. intuition discriminate.
    + intros H. contradiction.
Qed.

Lemma version_tool_failures_are_internal_witness :
  Comparison.code
    (snd (Errors6.handle_github_error VersionSample.sample_reading
            (ValueError
               "Отсутствуют обязательные переменные окружения: GITHUB_TOKEN")
            (Some TheContext)
            (VersionComparison.operation_of "org" "one")))
    = -32603.
Proof.
  apply (version_tool_failures_are_internal
           (VersionSample.world_without_token flaky_upstream) "org" "one"
           None None).
  reflexivity.
Defined.

(** [compare_release_versions] on every upstream, when [GITHUB_TOKEN] is
    set.  The tool makes one call of [retry_github_request] with the budget
    [MAX_RETRIES = 3]: there is a deciding attempt [k < 3], the attempts
    before it were answered with transient failures, the requests of the
    attempts [0 .. k] are sent and [2 ^ i] seconds are slept after each
    attempt [i < k].  The tool returns a result exactly when the reply to
    attempt [k] is a 2xx response whose body can be read; otherwise it
    raises the [McpError] that [handle_github_error] builds from the
    failure of attempt [k], or from the exception of [response.json()]. *)
Theorem version_tool_follows_retry (W : VersionComparison.World)
  (owner repo : string) (version1 version2 : option string) :
  VersionComparison.environ W "GITHUB_TOKEN" <> None ->
  exists k,
    0 <= k < 3 /\
    (forall i, 0 <= i < k ->
       transient (VersionComparison.client W
                    (VersionComparison.releases_call owner repo) i)) /\
    (k = 2 \/
     ~ transient (VersionComparison.client W
                    (VersionComparison.releases_call owner repo) k)) /\
    requests
      (Tool.upstream
         (fst (VersionComparison.compare_release_versions W owner repo
                 version1 version2)))
      = range (k + 1) /\
    sleeps
      (Tool.upstream
         (fst (VersionComparison.compare_release_versions W owner repo
                 version1 version2)))
      = map (fun i => RETRY_DELAY_BASE * 2 ^ i) (range k) /\
    match verdict (VersionComparison.client W
                     (VersionComparison.releases_call owner repo) k)
    with
    | Returns response =>
        match VersionComparison.releases_json W response with
        | inr releases =>
            exists res,
              snd (VersionComparison.compare_release_versions W owner repo
                     version1 version2) = inr res
        | inl e =>
            snd (VersionComparison.compare_release_versions W owner repo
                   version1 version2)
              = inl (snd (Errors6.handle_github_error
                            (VersionComparison.reading W) e (Some TheContext)
                            (VersionComparison.operation_of owner repo)))
        end
    | Raises e =>
        snd (VersionComparison.compare_release_versions W owner repo
               version1 version2)
          = inl (snd (Errors6.handle_github_error
                        (VersionComparison.reading W) e (Some TheContext)
                        (VersionComparison.operation_of owner repo)))
    end.
Proof.
  intros Htok.
  destruct (server6_run
              (VersionComparison.client W
                 (VersionComparison.releases_call owner repo))
              (Some TheContext) MAX_RETRIES ltac:(unfold MAX_RETRIES, FLOAT_MAX_EXP; lia))
    as (k & Hk & Hpre & Hend & Ho & _ & Hreq & Hsl).
  exists k. split; [exact Hk|]. split; [exact Hpre|]. split; [exact Hend|].
  destruct (version_tool_cases W owner repo version1 version2)
    as [(Hno & _)|(_ & Hu & Hcases)]; [contradiction|].
  rewrite Hu. split; [exact Hreq|]. split; [exact Hsl|].
  rewrite <- Ho.
  destruct Hcases as [(e & [Ha|(r & Ha & Hj)] & _ & Hs)|(r & rs & Ha & Hj & _ & Hs)];
    rewrite Ha.
  - exact Hs.
  - rewrite Hj. exact Hs.
  - rewrite Hj. eexists. exact Hs.
Qed.

Lemma version_tool_follows_retry_witness :
  exists k,
    0 <= k < 3 /\
    (forall i, 0 <= i < k -> transient (flaky_upstream i)) /\
    (k = 2 \/ ~ transient (flaky_upstream k)) /\
    requests
      (Tool.upstream
         (fst (VersionComparison.compare_release_versions
                 (VersionSample.world flaky_upstream) "org" "one" None None)))
      = range (k + 1) /\
    sleeps
      (Tool.upstream
         (fst (VersionComparison.compare_release_versions
                 (VersionSample.world flaky_upstream) "org" "one" None None)))
      = map (fun i => RETRY_DELAY_BASE * 2 ^ i) (range k) /\
    match verdict (flaky_upstream k) with
    | Returns response =>
        match VersionSample.two_releases response with
        | inr releases =>
            exists res,
              snd (VersionComparison.compare_release_versions
                     (VersionSample.world flaky_upstream) "org" "one" None None)
                = inr res
        | inl e =>
            snd (VersionComparison.compare_release_versions
                   (VersionSample.world flaky_upstream) "org" "one" None None)
              = inl (snd (Errors6.handle_github_error VersionSample.sample_reading
                            e (Some TheContext)
                            (VersionComparison.operation_of "org" "one")))
        end
    | Raises e =>
        snd (VersionComparison.compare_release_versions
               (VersionSample.world flaky_upstream) "org" "one" None None)
          = inl (snd (Errors6.handle_github_error VersionSample.sample_reading
                        e (Some TheContext)
                        (VersionComparison.operation_of "org" "one")))
    end.
Proof.
  apply (version_tool_follows_retry (VersionSample.world flaky_upstream)
           "org" "one" None None).
  discriminate.
Defined.

(** The versions that [compare_release_versions] compares.  A version that
    the caller gives (a string that is not empty) is compared as it is; with
    both given the comparison is reported as available whatever releases the
    repository has: the versions are not looked up among them.  A version
    that is omitted or empty is replaced by the tag of the latest release
    (the first version) or of the one before it (the second); with both
    omitted the comparison is available exactly when the repository has two
    releases whose tags are not empty. *)
Theorem compared_versions (W : VersionComparison.World) (owner repo : string)
  (version1 version2 : option string) (res : VersionComparison.Result) :
  snd (VersionComparison.compare_release_versions W owner repo version1 version2)
    = inr res ->
  let result := VersionComparison.structured_content res in
  (VersionComparison.given version1 = true ->
   VersionComparison.version1 result = version1) /\
  (VersionComparison.given version2 = true ->
   VersionComparison.version2 result = version2) /\
  (VersionComparison.given version1 = true ->
   VersionComparison.given version2 = true ->
   VersionComparison.comparison_available result = true) /\
  exists response releases,
    snd (Server6.retry_github_request
           (VersionComparison.client W
              (VersionComparison.releases_call owner repo))
           (Some TheContext) MAX_RETRIES) = Returns response /\
    VersionComparison.releases_json W response = inr releases /\
    (VersionComparison.given version1 = false ->
     VersionComparison.version1 result
       = match releases with
         | latest :: _ =>
             Some (Comparison.get (VersionComparison.tag_name latest) "")
         | [] => version1
         end) /\
    (VersionComparison.given version2 = false ->
     VersionComparison.version2 result
       = match releases with
         | _ :: previous :: _ =>
             Some (Comparison.get (VersionComparison.tag_name previous) "")
         | _ => version2
         end) /\
    (VersionComparison.given version1 = false ->
     VersionComparison.given version2 = false ->
     (VersionComparison.comparison_available result = true <->
      exists latest previous rest tag1 tag2,
        releases = latest :: previous :: rest /\
        VersionComparison.tag_name latest = Some tag1 /\ tag1 <> "" /\
        VersionComparison.tag_name previous = Some tag2 /\ tag2 <> "")).
Proof.
  intros Hres.
  destruct (version_tool_cases W owner repo version1 version2)
    as [(_ & _ & _ & Hs)|(_ & _ & [(e & _ & _ & Hs)|(r & rs & Ha & Hj & _ & Hs)])];
    rewrite Hs in Hres; try discriminate.
  injection Hres as <-.
  cbn [VersionComparison.structured_content VersionComparison.version1
       VersionComparison.version2 VersionComparison.comparison_available].
  unfold VersionComparison.or_tag_of.
  split; [intros ->; reflexivity|]. split; [intros ->; reflexivity|].
  split; [intros H1 H2; rewrite H1, H2; cbn; now rewrite H1, H2|].
  exists r, rs. split; [exact Ha|]. split; [exact Hj|].
  split; [intros ->; now destruct rs|].
  split; [intros ->; now destruct rs as [|? [|? ?]]|].
  intros H1 H2. rewrite H1, H2. cbn [negb].
  destruct rs as [|latest [|previous rest]]; cbn [nth_error].
  - rewrite H1. cbn. split; [discriminate|].
    intros (? & ? & ? & ? & ? & [=] & _).
  - rewrite H2, andb_false_r. split; [discriminate|].
    intros (? & ? & ? & ? & ? & [=] & _).
  - unfold VersionComparison.given, Comparison.get.
    destruct latest as [[tag1|]], previous as [[tag2|]];
      cbn [VersionComparison.tag_name].
    + destruct (String.eqb_spec tag1 ""), (String.eqb_spec tag2 ""); cbn;
        (split; [try discriminate; intros _;
                 exists (VersionComparison.mkRelease (Some tag1)),
                   (VersionComparison.mkRelease (Some tag2)), rest, tag1, tag2;
                 now repeat split
                |intros (? & ? & ? & t1 & t2 & [= <- <- <-] & [= <-] & Hn1
                           & [= <-] & Hn2);
                 try reflexivity; congruence]).
    + cbn. rewrite andb_false_r. split; [discriminate|].
      intros (? & ? & ? & t1 & t2 & [= <- <- <-] & _ & _ & [=] & _).
    + cbn. split; [discriminate|].
      intros (? & ? & ? & t1 & t2 & [= <- <- <-] & [=] & _).
    + cbn. split; [discriminate|].
      intros (? & ? & ? & t1 & t2 & [= <- <- <-] & [=] & _).
Qed.

Lemma compared_versions_witness :
  exists res,
    snd (VersionComparison.compare_release_versions
           (VersionSample.world flaky_upstream) "org" "one"
           (Some "v9.9.9") (Some "v0.0.1")) = inr res /\
    VersionComparison.comparison_available
      (VersionComparison.structured_content res) = true.
Proof.
  eexists. split; [reflexivity|].
  refine (proj1 (proj2 (proj2
            (compared_versions (VersionSample.world flaky_upstream) "org" "one"
               (Some "v9.9.9") (Some "v0.0.1") _ eq_refl))) eq_refl eq_refl).
Defined.

Lemma github_timestamps_are_read_as_utc_witness :
  Comparison.parse_github_datetime Sample.scenario_commit_today
    (Some "2024-02-01T00:00:00Z")
  = Comparison.fromisoformat Sample.scenario_commit_today
      "2024-02-01T00:00:00+00:00".
Proof.
  apply (proj1 (proj2 (proj2
           (github_timestamps_are_read_as_utc Sample.scenario_commit_today)))
           "2024-02-01T00:00:00").
  reflexivity.
Defined.

Lemma progress_reaches_100_only_on_success_witness :
  ComparisonObs.progress_of
    (fst (Comparison.compare_repositories Sample.scenario_two_targets
            Sample.with_token Sample.two_targets None))
  = [0; 10; 20; 70; 80; 95; 100].
Proof.
  apply (proj1 (progress_reaches_100_only_on_success Sample.scenario_two_targets
                  Sample.with_token Sample.two_targets None)
           _ eq_refl).
Defined.

Lemma comparison_call_budget_witness :
  ComparisonObs.gathers
    (fst (Comparison.compare_repositories Sample.scenario_all_fail
            Sample.with_token Sample.two_targets None))
  = [[[Comparison.repo_call "org" "one"]; [Comparison.repo_call "org" "two"]]].
Proof.
  apply (proj1 (proj2 (proj2 (proj2
           (comparison_call_budget Sample.scenario_all_fail Sample.with_token
              Sample.two_targets None)))
           [("org", "one"); ("org", "two")] eq_refl)).
Defined.

(* ================================================================= *)
(** ** [get_repository_contributors] *)

(** The run of a call with a budget that is not empty, in [mcp-server-1]. *)
Lemma server1_run request ctx N :
  1 <= N <= FLOAT_MAX_EXP + 1 ->
  exists k,
    0 <= k < N /\
    (forall i, 0 <= i < k -> transient (request i)) /\
    (k = N - 1 \/ ~ transient (request k)) /\
    ran Server1.retry_github_request request ctx N k (verdict (request k)).
Proof.
  intros HN.
  destruct (run_within_float_range request ctx N HN)
    as (k & Hk & Hpre & Hlast & H1 & H6).
  exists k. split; [exact Hk|]. split; [exact Hpre|].
  split; [exact Hlast|exact H1].
Qed.

(** The code of the [McpError] of [mcp-server-1], by the exception. *)
Lemma errors1_code R e ctx operation :
  Comparison.code (snd (Errors1.handle_github_error R e ctx operation))
    = match e with
      | HTTPStatusError (Some r) =>
          if caller_fault (status_code r) then -32602 else -32603
      | _ => -32603
      end.
Proof.
  destruct e as [[r|]| | | | | |]; try reflexivity.
  cbn [Errors1.handle_github_error snd Comparison.code status_or_zero].
  unfold Errors1.error_code, caller_fault.
  destruct (status_code r =? 400), (status_code r =? 401),
    (status_code r =? 403), (status_code r =? 404), (status_code r =? 429);
    reflexivity.
Qed.

Section ContributorsFacts.
Import Tool Contributors.

Lemma contributors_on_exception W owner repo log e :
  snd (on_exception W owner repo log e)
    = inl (snd (Errors1.handle_github_error (reading W) e (Some TheContext)
                  (operation_of owner repo))) /\
  upstream (fst (on_exception W owner repo log e)) = upstream log /\
  progress_of (fst (on_exception W owner repo log e)) = progress_of log.
Proof.
  unfold on_exception. cbn [fst snd]. split; [reflexivity|].
  rewrite upstream_app, upstream_errors, version_progress_app,
    version_progress_errors, !app_nil_r.
  split; reflexivity.
Qed.

(** The tool by cases: the token, the outcome of the retried call, the
    body of the answer. *)
Lemma contributors_cases W owner repo top_n :
  let run := get_repository_contributors W owner repo top_n in
  let answer :=
    Server1.retry_github_request (client W (contributors_call owner repo top_n))
      (Some TheContext) MAX_RETRIES in
  (environ W "GITHUB_TOKEN" = None /\
   upstream (fst run) = [] /\ progress_of (fst run) = [0] /\
   snd run
     = inl (snd (Errors1.handle_github_error (reading W)
                   (ValueError
                      "Отсутствуют обязательные переменные окружения: GITHUB_TOKEN")
                   (Some TheContext) (operation_of owner repo)))) \/
  (environ W "GITHUB_TOKEN" <> None /\
   upstream (fst run) = fst answer /\
   ((exists e,
       (snd answer = Raises e \/
        exists response,
          snd answer = Returns response /\ contributors_json W response = inl e) /\
       progress_of (fst run) = [0; 20; 40] /\
       snd run
         = inl (snd (Errors1.handle_github_error (reading W) e (Some TheContext)
                       (operation_of owner repo)))) \/
    (exists response data,
       snd answer = Returns response /\
       contributors_json W response = inr data /\
       progress_of (fst run) = [0; 20; 40; 60; 80; 95; 100] /\
       snd run
         = inr {| content :=
                    String.concat Comparison.newline
                      (text_lines owner repo (Z.of_nat (List.length data)) top_n
                         (map listed (slice_to top_n data)));
                  structured_content :=
                    {| owner := owner;
                       repo := repo;
                       total_contributors := Z.of_nat (List.length data);
                       top_contributors := map listed (slice_to top_n data) |};
                  meta_owner := owner;
                  meta_repo := repo;
                  operation := "get_repository_contributors" |}))).
Proof.
  cbv zeta. unfold get_repository_contributors. rewrite require_token.
  destruct (environ W "GITHUB_TOKEN") as [token|] eqn:Htok.
  - right. split; [discriminate|].
    destruct (Server1.retry_github_request _ _ _) as [tr [response|e]];
      cbn [fst snd].
    + destruct (contributors_json W response) as [e|data] eqn:Hj.
      * match goal with
        | |- context [on_exception W owner repo ?log e] =>
            destruct (contributors_on_exception W owner repo log e)
              as (Hs & Hu & Hp)
        end.
        rewrite Hs, Hu, Hp.
        rewrite !upstream_app, upstream_events, !version_progress_app,
          version_progress_events.
        split; [reflexivity|]. left. exists e. split; [right; eauto|].
        split; reflexivity.
      * cbn [fst snd].
        rewrite !upstream_app, upstream_events, !version_progress_app,
          version_progress_events.
        split; [cbn; now rewrite app_nil_r|]. right. exists response, data.
        split; [reflexivity|]. split; [exact Hj|]. split; reflexivity.
    + match goal with
      | |- context [on_exception W owner repo ?log e] =>
          destruct (contributors_on_exception W owner repo log e)
            as (Hs & Hu & Hp)
      end.
      rewrite Hs, Hu, Hp.
      rewrite !upstream_app, upstream_events, !version_progress_app,
        version_progress_events.
      split; [reflexivity|]. left. exists e. split; [left; reflexivity|].
      split; reflexivity.
  - left. split; [reflexivity|].
    match goal with
    | |- context [on_exception W owner repo ?log ?e] =>
        destruct (contributors_on_exception W owner repo log e)
          as (Hs & Hu & Hp)
    end.
    rewrite Hs, Hu, Hp. repeat split; reflexivity.
Qed.

Lemma slice_to_map {A B} (f : A -> B) n l :
  slice_to n (map f l) = map f (slice_to n l).
Proof.
  unfold slice_to. rewrite length_map. destruct (n <? 0); apply firstn_map.
Qed.

Lemma slice_to_idempotent {A} n (l : list A) :
  0 <= n -> slice_to n (slice_to n l) = slice_to n l.
Proof.
  intros Hn. unfold slice_to. destruct (Z.ltb_spec n 0); [lia|].
  rewrite firstn_firstn. now rewrite Nat.min_id.
Qed.

Lemma text_lines_split owner repo total n l :
  0 <= n ->
  text_lines owner repo total n (slice_to n l)
    = text_lines owner repo total n [] ++
      map (fun ic =>
             (Comparison.str_int (fst ic) ++ ". **" ++ listed_login (snd ic)
                ++ "** - " ++ Comparison.str_int (listed_contributions (snd ic))
                ++ " коммитов")%string)
        (enumerate (slice_to n l) 1).
Proof.
  intros Hn. unfold text_lines. rewrite slice_to_idempotent by exact Hn.
  assert (Hnil : slice_to n (@nil Listed) = []).
  { unfold slice_to. destruct (n <? 0); apply firstn_nil. }
  rewrite Hnil. cbn [enumerate map]. rewrite app_nil_r. reflexivity.
Qed.

End ContributorsFacts.

(** The errors of [get_repository_contributors].  Without [GITHUB_TOKEN]
    the tool sends nothing and raises the internal-error [McpError]
    (-32603).  With it, the tool makes one call of [retry_github_request]
    with the budget [MAX_RETRIES = 3], which ends at a deciding attempt
    [k < 3] reached through transient failures only; the outcome follows the
    reply to attempt [k]: a 2xx response whose body can be read gives a
    result; a response with status 400, 401, 403 or 404 is blamed on the
    caller (-32602); every other response that is not 2xx, a timeout, a
    network failure and any other exception give -32603. *)
Theorem contributors_errors_follow_status (W : Contributors.World)
  (owner repo : string) (top_n : Z) :
  (Contributors.environ W "GITHUB_TOKEN" = None ->
   Tool.upstream
     (fst (Contributors.get_repository_contributors W owner repo top_n)) = [] /\
   exists err,
     snd (Contributors.get_repository_contributors W owner repo top_n) = inl err /\
     Comparison.code err = -32603) /\
  (Contributors.environ W "GITHUB_TOKEN" <> None ->
   exists k,
     0 <= k < 3 /\
     (forall i, 0 <= i < k ->
        transient (Contributors.client W
                     (Contributors.contributors_call owner repo top_n) i)) /\
     requests
       (Tool.upstream
          (fst (Contributors.get_repository_contributors W owner repo top_n)))
       = range (k + 1) /\
     match Contributors.client W
             (Contributors.contributors_call owner repo top_n) k
     with
     | Responds response =>
         if is_success (status_code response) then
           match Contributors.contributors_json W response with
           | inr data =>
               exists res,
                 snd (Contributors.get_repository_contributors W owner repo top_n)
                   = inr res
           | inl e =>
               snd (Contributors.get_repository_contributors W owner repo top_n)
                 = inl (snd (Errors1.handle_github_error (Contributors.reading W)
                               e (Some TheContext)
                               (Contributors.operation_of owner repo)))
           end
         else
           exists err,
             snd (Contributors.get_repository_contributors W owner repo top_n)
               = inl err /\
             Comparison.code err
               = (if caller_fault (status_code response) then -32602 else -32603)
     | _ =>
         exists err,
           snd (Contributors.get_repository_contributors W owner repo top_n)
             = inl err /\
           Comparison.code err = -32603
     end).
Proof.
  destruct (contributors_cases W owner repo top_n)
    as [(Htok & Hu & _ & Hs)|(Htok & Hu & Hcases)]; split;
    try (intros H; congruence).
  - intros _. split; [exact Hu|]. eexists. split; [exact Hs|reflexivity].
  - intros _.
    destruct (server1_run
                (Contributors.client W
                   (Contributors.contributors_call owner repo top_n))
                (Some TheContext) MAX_RETRIES ltac:(unfold MAX_RETRIES, FLOAT_MAX_EXP; lia))
      as (k & Hk & Hpre & _ & Ho & _ & Hreq & _).
    exists k. split; [exact Hk|]. split; [exact Hpre|].
    rewrite Hu. split; [exact Hreq|].
    unfold verdict in Ho.
    destruct (Contributors.client W
                (Contributors.contributors_call owner repo top_n) k)
      as [r| | |name].
    + destruct (is_success (status_code r)).
      * destruct Hcases
          as [(e & [Ha|(r' & Ha & Hj)] & _ & Hs)|(r' & data & Ha & Hj & _ & Hs)];
          rewrite Ha in Ho; try discriminate; injection Ho as ->; rewrite Hj.
        -- exact Hs.
        -- eexists. exact Hs.
      * destruct Hcases
          as [(e & [Ha|(r' & Ha & Hj)] & _ & Hs)|(r' & data & Ha & Hj & _ & Hs)];
          rewrite Ha in Ho; try discriminate; injection Ho as ->.
        eexists. split; [exact Hs|]. rewrite errors1_code. reflexivity.
    + destruct Hcases
        as [(e & [Ha|(r' & Ha & Hj)] & _ & Hs)|(r' & data & Ha & Hj & _ & Hs)];
        rewrite Ha in Ho; try discriminate; injection Ho as ->.
      eexists. split; [exact Hs|]. rewrite errors1_code. reflexivity.
    + destruct Hcases
        as [(e & [Ha|(r' & Ha & Hj)] & _ & Hs)|(r' & data & Ha & Hj & _ & Hs)];
        rewrite Ha in Ho; try discriminate; injection Ho as ->.
      eexists. split; [exact Hs|]. rewrite errors1_code. reflexivity.
    + destruct Hcases
        as [(e & [Ha|(r' & Ha & Hj)] & _ & Hs)|(r' & data & Ha & Hj & _ & Hs)];
        rewrite Ha in Ho; try discriminate; injection Ho as ->.
      eexists. split; [exact Hs|]. rewrite errors1_code. reflexivity.
Qed.

Lemma contributors_errors_follow_status_witness :
  exists k,
    0 <= k < 3 /\
    (forall i, 0 <= i < k -> transient (missing_upstream i)) /\
    requests
      (Tool.upstream
         (fst (Contributors.get_repository_contributors
                 (ContributorsSample.world missing_upstream) "org" "one" 10)))
      = range (k + 1) /\
    match missing_upstream k with
    | Responds response =>
        if is_success (status_code response) then
          match ContributorsSample.three_contributors response with
          | inr data =>
              exists res,
                snd (Contributors.get_repository_contributors
                       (ContributorsSample.world missing_upstream) "org" "one" 10)
                  = inr res
          | inl e =>
              snd (Contributors.get_repository_contributors
                     (ContributorsSample.world missing_upstream) "org" "one" 10)
                = inl (snd (Errors1.handle_github_error
                              VersionSample.sample_reading e (Some TheContext)
                              (Contributors.operation_of "org" "one")))
          end
        else
          exists err,
            snd (Contributors.get_repository_contributors
                   (ContributorsSample.world missing_upstream) "org" "one" 10)
              = inl err /\
            Comparison.code err
              = (if caller_fault (status_code response) then -32602 else -32603)
    | _ =>
        exists err,
          snd (Contributors.get_repository_contributors
                 (ContributorsSample.world missing_upstream) "org" "one" 10)
            = inl err /\
          Comparison.code err = -32603
    end.
Proof.
  apply (proj2 (contributors_errors_follow_status
                  (ContributorsSample.world missing_upstream) "org" "one" 10)).
  discriminate.
Defined.

(** The list that [get_repository_contributors] returns.
    [total_contributors] counts the contributors received, and
    [top_contributors] holds the first [top_n] of them (all of them when
    fewer were received), in the order received, each with the defaults of
    the missing keys; the text numbers the same contributors from 1. *)
Theorem contributors_are_the_first_top_n (W : Contributors.World)
  (owner repo : string) (top_n : Z) (res : Contributors.Result) :
  0 <= top_n ->
  snd (Contributors.get_repository_contributors W owner repo top_n) = inr res ->
  exists response data,
    snd (Server1.retry_github_request
           (Contributors.client W
              (Contributors.contributors_call owner repo top_n))
           (Some TheContext) MAX_RETRIES) = Returns response /\
    Contributors.contributors_json W response = inr data /\
    Contributors.total_contributors (Contributors.structured_content res)
      = Z.of_nat (List.length data) /\
    Contributors.top_contributors (Contributors.structured_content res)
      = map Contributors.listed (firstn (Z.to_nat top_n) data) /\
    Z.of_nat
      (List.length
         (Contributors.top_contributors (Contributors.structured_content res)))
      = Z.min top_n (Z.of_nat (List.length data)) /\
    Contributors.content res
      = String.concat Comparison.newline
          (Contributors.text_lines owner repo (Z.of_nat (List.length data)) top_n
             [] ++
           map (fun ic =>
                  (Comparison.str_int (fst ic) ++ ". **"
                     ++ Contributors.listed_login (snd ic) ++ "** - "
                     ++ Comparison.str_int
                          (Contributors.listed_contributions (snd ic))
                     ++ " коммитов")%string)
             (Contributors.enumerate
                (Contributors.top_contributors
                   (Contributors.structured_content res)) 1)).
Proof.
  intros Hn Hres.
  destruct (contributors_cases W owner repo top_n)
    as [(_ & _ & _ & Hs)|(_ & _ & [(e & _ & _ & Hs)|(r & data & Ha & Hj & _ & Hs)])];
    rewrite Hs in Hres; try discriminate.
  injection Hres as <-. exists r, data.
  split; [exact Ha|]. split; [exact Hj|].
  cbn [Contributors.structured_content Contributors.total_contributors
       Contributors.top_contributors Contributors.content].
  assert (Hslice : Contributors.slice_to top_n data = firstn (Z.to_nat top_n) data).
  { unfold Contributors.slice_to. destruct (Z.ltb_spec top_n 0); [lia|reflexivity]. }
  split; [reflexivity|]. split; [now rewrite Hslice|]. split.
  - rewrite Hslice, length_map, length_firstn. lia.
  - match goal with
    | |- _ = ?rhs =>
        change (String.concat Comparison.newline
                  (Contributors.text_lines owner repo
                     (Z.of_nat (List.length data)) top_n
                     (map Contributors.listed (Contributors.slice_to top_n data)))
                = rhs)
    end.
    rewrite <- slice_to_map. f_equal. apply text_lines_split. exact Hn.
Qed.

Lemma contributors_are_the_first_top_n_witness :
  exists res,
    snd (Contributors.get_repository_contributors
           (ContributorsSample.world flaky_upstream) "org" "one" 2) = inr res /\
    Contributors.total_contributors (Contributors.structured_content res) = 3 /\
    Z.of_nat
      (List.length
         (Contributors.top_contributors (Contributors.structured_content res)))
      = 2.
Proof.
  eexists. split; [reflexivity|].
  destruct (contributors_are_the_first_top_n
              (ContributorsSample.world flaky_upstream) "org" "one" 2 _
              ltac:(lia) eq_refl)
    as (response & data & Ha & Hj & Ht & _ & Hl & _).
  injection Hj as <-. split; [exact Ht|exact Hl].
Defined.

(* ================================================================= *)
(** ** [get_repository_health] *)

Lemma permits_app t1 t2 : permits (t1 ++ t2) = (permits t1 + permits t2)%nat.
Proof.
  induction t1 as [|e t1 IH]; [reflexivity|].
  destruct e; cbn; rewrite IH; reflexivity.
Qed.

Lemma permits_effects tr : permits (effects tr) = permits tr.
Proof.
  unfold effects. induction tr as [|e tr IH]; [reflexivity|].
  destruct e; cbn; rewrite IH; reflexivity.
Qed.

Lemma permits_retried a k : permits (retried a k) = k.
Proof.
  revert a. induction k as [|k IH]; intros a; [reflexivity|].
  cbn. now rewrite IH.
Qed.

(** A call of [retry_github_request] enters the limiter once for each
    request that it sends. *)
Lemma server1_permits request ctx N :
  permits (fst (Server1.retry_github_request request ctx N))
    = List.length (requests (fst (Server1.retry_github_request request ctx N))).
Proof.
  destruct (Z_le_gt_dec N 0) as [HN|HN].
  - destruct (empty_budget request ctx N HN) as [-> _]. reflexivity.
  - destruct (deciding_attempt request N ltac:(lia)) as (k & Hk & Hpre & Hend).
    destruct (ran_to_deciding_attempt request ctx N k Hk Hpre Hend)
      as [(_ & He & Hreq & _) _].
    rewrite <- permits_effects, He, Hreq, permits_app, permits_retried.
    unfold range. rewrite length_range_from. cbn. lia.
Qed.

Section HealthFacts.
Import Tool Health.
Context {Dump : Type}.
Variable W : World Dump.
Variables owner repo : string.

Lemma direct_app l1 l2 : direct (l1 ++ l2) = direct l1 ++ direct l2.
Proof.
  induction l1 as [|e l1 IH]; [reflexivity|].
  destruct e; cbn; rewrite IH; reflexivity.
Qed.

Lemma direct_events c tr : direct (map (Upstream c) tr) = [].
Proof. induction tr as [|e tr IH]; [reflexivity|exact IH]. Qed.

Lemma direct_errors texts : direct (map ErrorNote texts) = [].
Proof. induction texts as [|t texts IH]; [reflexivity|exact IH]. Qed.

Lemma health_on_exception log e :
  snd (on_exception W owner repo log e)
    = inl (snd (Errors1.handle_github_error (reading W) e (Some TheContext)
                  (operation_of owner repo))) /\
  upstream (fst (on_exception W owner repo log e)) = upstream log /\
  direct (fst (on_exception W owner repo log e)) = direct log /\
  progress_of (fst (on_exception W owner repo log e)) = progress_of log.
Proof.
  unfold on_exception. cbn [fst snd]. split; [reflexivity|].
  rewrite upstream_app, upstream_errors, direct_app, direct_errors,
    version_progress_app, version_progress_errors, !app_nil_r.
  repeat split; reflexivity.
Qed.

(** The last stage sends nothing, and its outcome does not depend on what
    was logged before. *)
Lemma health_finish log repo_data prs commits_data :
  upstream (fst (finish W owner repo log repo_data prs commits_data))
    = upstream log /\
  direct (fst (finish W owner repo log repo_data prs commits_data))
    = direct log /\
  snd (finish W owner repo log repo_data prs commits_data)
    = snd (finish W owner repo [] repo_data prs commits_data).
Proof.
  unfold finish.
  destruct (build_metrics W owner repo repo_data prs _) as [e|metrics_dict].
  - destruct (health_on_exception
                (log ++ [Progress 80; Note "📄 Обрабатываем полученные результаты"])
                e) as (Hs & Hu & Hd & _).
    rewrite Hs, Hu, Hd, upstream_app, direct_app, !app_nil_r.
    repeat split; reflexivity.
  - destruct (model W metrics_dict _) as [e|dump].
    + destruct (health_on_exception
                  (log ++ [Progress 80;
                           Note "📄 Обрабатываем полученные результаты"])
                  e) as (Hs & Hu & Hd & _).
      rewrite Hs, Hu, Hd, upstream_app, direct_app, !app_nil_r.
      repeat split; reflexivity.
    + cbn [fst snd]. rewrite !upstream_app, !direct_app, !app_nil_r.
      repeat split; reflexivity.
Qed.

(** The stage that follows a metadata answer that was read. *)
Lemma health_gather log repo_data :
  direct (fst (gather W owner repo log repo_data))
    = direct log ++ [issues_call owner repo] /\
  match get_raises (client W (issues_call owner repo) 0) with
  | Some e =>
      upstream (fst (gather W owner repo log repo_data)) = upstream log /\
      progress_of (fst (gather W owner repo log repo_data))
        = progress_of log ++ [50] /\
      snd (gather W owner repo log repo_data)
        = inl (snd (Errors1.handle_github_error (reading W) e (Some TheContext)
                      (operation_of owner repo)))
  | None =>
      upstream (fst (gather W owner repo log repo_data))
        = upstream log
            ++ fst (with_retry W (Comparison.search_call owner repo))
            ++ fst (with_retry W (Comparison.commits_call owner repo)) /\
      match snd (with_retry W (Comparison.commits_call owner repo)) with
      | Raises e =>
          snd (gather W owner repo log repo_data)
            = inl (snd (Errors1.handle_github_error (reading W) e
                          (Some TheContext) (operation_of owner repo)))
      | Returns commits_response =>
          match commits_json W commits_response with
          | inl e =>
              snd (gather W owner repo log repo_data)
                = inl (snd (Errors1.handle_github_error (reading W) e
                              (Some TheContext) (operation_of owner repo)))
          | inr commits_data =>
              snd (gather W owner repo log repo_data)
                = snd (finish W owner repo [] repo_data
                         (count_open_prs W
                            (snd (with_retry W
                                    (Comparison.search_call owner repo))))
                         commits_data)
          end
      end
  end.
Proof.
  unfold gather.
  destruct (get_raises (client W (issues_call owner repo) 0)) as [e|].
  - match goal with
    | |- context [on_exception W owner repo ?l e] =>
        destruct (health_on_exception l e) as (Hs & Hu & Hd & Hp)
    end.
    rewrite Hs, Hu, Hd, Hp, upstream_app, direct_app, version_progress_app.
    cbn [upstream direct progress_of]. rewrite app_nil_r.
    repeat split; reflexivity.
  - destruct (snd (with_retry W (Comparison.commits_call owner repo)))
      as [commits_response|e].
    + destruct (commits_json W commits_response) as [e|commits_data].
      * match goal with
        | |- context [on_exception W owner repo ?l e] =>
            destruct (health_on_exception l e) as (Hs & Hu & Hd & Hp)
        end.
        rewrite Hs, Hu, Hd.
        rewrite !upstream_app, !direct_app, !upstream_events, !direct_events.
        cbn [upstream direct app]. rewrite !app_nil_r.
        repeat split; reflexivity.
      * match goal with
        | |- context [finish W owner repo ?l ?d ?p ?c] =>
            destruct (health_finish l d p c) as (Hu & Hd & Hs)
        end.
        rewrite Hs, Hu, Hd.
        rewrite !upstream_app, !direct_app, !upstream_events, !direct_events.
        cbn [upstream direct app]. rewrite !app_nil_r.
        repeat split; reflexivity.
    + match goal with
      | |- context [on_exception W owner repo ?l e] =>
          destruct (health_on_exception l e) as (Hs & Hu & Hd & Hp)
      end.
      rewrite Hs, Hu, Hd.
      rewrite !upstream_app, !direct_app, !upstream_events, !direct_events.
      cbn [upstream direct app]. rewrite !app_nil_r.
      repeat split; reflexivity.
Qed.

(** The tool up to the metadata answer. *)
Lemma health_start :
  (environ W "GITHUB_TOKEN" = None /\
   upstream (fst (get_repository_health W owner repo)) = [] /\
   direct (fst (get_repository_health W owner repo)) = [] /\
   snd (get_repository_health W owner repo)
     = inl (snd (Errors1.handle_github_error (reading W)
                   (ValueError
                      "Отсутствуют обязательные переменные окружения: GITHUB_TOKEN")
                   (Some TheContext) (operation_of owner repo)))) \/
  (environ W "GITHUB_TOKEN" <> None /\
   ((exists e,
       (snd (with_retry W (Comparison.repo_call owner repo)) = Raises e \/
        exists r,
          snd (with_retry W (Comparison.repo_call owner repo)) = Returns r /\
          repo_json W r = inl e) /\
       upstream (fst (get_repository_health W owner repo))
         = fst (with_retry W (Comparison.repo_call owner repo)) /\
       direct (fst (get_repository_health W owner repo)) = [] /\
       snd (get_repository_health W owner repo)
         = inl (snd (Errors1.handle_github_error (reading W) e
                       (Some TheContext) (operation_of owner repo)))) \/
    (exists r repo_data log,
       snd (with_retry W (Comparison.repo_call owner repo)) = Returns r /\
       repo_json W r = inr repo_data /\
       upstream log = fst (with_retry W (Comparison.repo_call owner repo)) /\
       direct log = [] /\ progress_of log = [0; 20; 40] /\
       get_repository_health W owner repo = gather W owner repo log repo_data))).
Proof.
  unfold get_repository_health. rewrite require_token.
  destruct (environ W "GITHUB_TOKEN") as [token|] eqn:Htok.
  - right. split; [discriminate|].
    destruct (snd (with_retry W (Comparison.repo_call owner repo)))
      as [r|e] eqn:Hm.
    + destruct (repo_json W r) as [e|repo_data] eqn:Hj.
      * left. exists e. split; [right; eauto|].
        match goal with
        | |- context [on_exception W owner repo ?l e] =>
            destruct (health_on_exception l e) as (Hs & Hu & Hd & Hp)
        end.
        rewrite Hs, Hu, Hd.
        rewrite !upstream_app, !direct_app, upstream_events, direct_events.
        repeat split; reflexivity.
      * right. eexists r, repo_data, _. split; [reflexivity|].
        split; [exact Hj|]. split; [|split; [|split; [|reflexivity]]].
        -- rewrite !upstream_app, upstream_events. reflexivity.
        -- rewrite !direct_app, direct_events. reflexivity.
        -- rewrite !version_progress_app, version_progress_events. reflexivity.
    + left. exists e. split; [now left|].
      match goal with
      | |- context [on_exception W owner repo ?l e] =>
          destruct (health_on_exception l e) as (Hs & Hu & Hd & Hp)
      end.
      rewrite Hs, Hu, Hd.
      rewrite !upstream_app, !direct_app, upstream_events, direct_events.
      repeat split; reflexivity.
  - left. split; [reflexivity|].
    match goal with
    | |- context [on_exception W owner repo ?l ?e] =>
        destruct (health_on_exception l e) as (Hs & Hu & Hd & Hp)
    end.
    rewrite Hs, Hu, Hd. repeat split; reflexivity.
Qed.

End HealthFacts.

(** [get_repository_health] sends one request without a permit.  In every
    run the calls of [retry_github_request] enter [GITHUB_RATE_LIMITER] once
    for each request they send; but whenever the metadata answer was read
    (the token is set, the metadata call returned and its body was read),
    the tool has sent one more request, the one for the issues, with
    [client.get]: outside [retry_github_request], so that it is neither
    limited nor retried.  In every other run no such request is sent. *)
Theorem health_sends_one_unlimited_request {Dump : Type} (W : Health.World Dump)
  (owner repo : string) :
  permits (Tool.upstream (fst (Health.get_repository_health W owner repo)))
    = List.length
        (requests (Tool.upstream (fst (Health.get_repository_health W owner repo)))) /\
  ((Health.environ W "GITHUB_TOKEN" <> None /\
    exists r repo_data,
      snd (Health.with_retry W (Comparison.repo_call owner repo)) = Returns r /\
      Health.repo_json W r = inr repo_data) ->
   Tool.direct (fst (Health.get_repository_health W owner repo))
     = [Health.issues_call owner repo]) /\
  (~ (Health.environ W "GITHUB_TOKEN" <> None /\
      exists r repo_data,
        snd (Health.with_retry W (Comparison.repo_call owner repo)) = Returns r /\
        Health.repo_json W r = inr repo_data) ->
   Tool.direct (fst (Health.get_repository_health W owner repo)) = []).
Proof.
  destruct (health_start W owner repo)
    as [(Htok & Hu & Hd & _)
       |(Htok & [(e & Hwhy & Hu & Hd & _)
                |(r & repo_data & log & Hm & Hj & Hu & Hd & _ & Hrun)])].
  - rewrite Hu, Hd. split; [reflexivity|]. split; [|reflexivity].
    intros [H _]. contradiction.
  - rewrite Hu, Hd. split; [apply server1_permits|]. split; [|reflexivity].
    intros (_ & r & repo_data & Hm & Hj).
    destruct Hwhy as [Hr|(r' & Hr & Hj')]; [congruence|].
    rewrite Hm in Hr. injection Hr as <-. congruence.
  - rewrite Hrun.
    destruct (health_gather W owner repo log repo_data) as [Hdirect Hrest].
    rewrite Hdirect, Hd. split.
    + destruct (Health.get_raises _) as [e|].
      * destruct Hrest as (Hup & _). rewrite Hup, Hu. apply server1_permits.
      * destruct Hrest as (Hup & _). rewrite Hup, Hu.
        rewrite !permits_app, !requests_app, !length_app.
        unfold Health.with_retry. rewrite !server1_permits. reflexivity.
    + split; [reflexivity|]. intros Hno. exfalso. apply Hno.
      split; [exact Htok|]. now exists r, repo_data.
Qed.

Lemma health_sends_one_unlimited_request_witness :
  Tool.direct
    (fst (Health.get_repository_health (HealthSample.world HealthSample.ok)
            "org" "one"))
  = [Health.issues_call "org" "one"].
Proof.
  apply (proj1 (proj2 (health_sends_one_unlimited_request
                         (HealthSample.world HealthSample.ok) "org" "one"))).
  split; [discriminate|]. eexists _, _. split; reflexivity.
Defined.

(** A failure of the request for the issues ends [get_repository_health] at
    once.  When the metadata answer was read and the request sent with
    [client.get] fails (a response that is not 2xx, a timeout, a network
    failure, any other exception), the tool raises the [McpError] that
    [handle_github_error] builds from this failure and sends nothing more:
    the request is not retried, also when it failed with a status or an
    exception that [retry_github_request] retries, and the last progress
    reported is 50. *)
Theorem health_issues_failure_is_final {Dump : Type} (W : Health.World Dump)
  (owner repo : string) (r : Response) (repo_data : Health.RepoJson)
  (e : Exception) :
  Health.environ W "GITHUB_TOKEN" <> None ->
  snd (Health.with_retry W (Comparison.repo_call owner repo)) = Returns r ->
  Health.repo_json W r = inr repo_data ->
  Health.get_raises (Health.client W (Health.issues_call owner repo) 0) = Some e ->
  snd (Health.get_repository_health W owner repo)
    = inl (snd (Errors1.handle_github_error (Health.reading W) e
                  (Some TheContext) (Health.operation_of owner repo))) /\
  Tool.upstream (fst (Health.get_repository_health W owner repo))
    = fst (Health.with_retry W (Comparison.repo_call owner repo)) /\
  Tool.progress_of (fst (Health.get_repository_health W owner repo))
    = [0; 20; 40; 50].
Proof.
  intros Htok Hm Hj Hget.
  destruct (health_start W owner repo)
    as [(Hno & _)
       |(_ & [(e' & Hwhy & _)
             |(r' & repo_data' & log & Hm' & Hj' & Hu & Hd & Hp & Hrun)])].
  - contradiction.
  - destruct Hwhy as [Hr|(r' & Hr & Hj')]; [congruence|].
    rewrite Hm in Hr. injection Hr as <-. congruence.
  - rewrite Hrun.
    destruct (health_gather W owner repo log repo_data') as [_ Hrest].
    rewrite Hget in Hrest. destruct Hrest as (Hup & Hprog & Hs).
    rewrite Hs, Hup, Hprog, Hu, Hp. repeat split; reflexivity.
Qed.

Lemma health_issues_failure_is_final_witness :
  snd (Health.get_repository_health
         (HealthSample.world (Responds (mkResponse 503 None Payload.JOther)))
         "org" "one")
    = inl (snd (Errors1.handle_github_error VersionSample.sample_reading
                  (HTTPStatusError (Some (mkResponse 503 None Payload.JOther)))
                  (Some TheContext) (Health.operation_of "org" "one"))) /\
  Tool.upstream
    (fst (Health.get_repository_health
            (HealthSample.world (Responds (mkResponse 503 None Payload.JOther)))
            "org" "one"))
    = fst (Health.with_retry
             (HealthSample.world (Responds (mkResponse 503 None Payload.JOther)))
             (Comparison.repo_call "org" "one")) /\
  Tool.progress_of
    (fst (Health.get_repository_health
            (HealthSample.world (Responds (mkResponse 503 None Payload.JOther)))
            "org" "one"))
    = [0; 20; 40; 50].
Proof.
  apply (health_issues_failure_is_final
           (HealthSample.world (Responds (mkResponse 503 None Payload.JOther)))
           "org" "one" (mkResponse 200 (Some 4000) Payload.JOther)
           (Health.mkRepoJson (Some 12) (Some 100) (Some 10) (Some 3) (Some false)
              (Some false) (Some "main") (Some "Python") None None None)).
  - discriminate.
  - reflexivity.
  - reflexivity.
  - reflexivity.
Defined.

(** In [get_repository_health] a failure of the latest-commit call fails
    the tool, and a failure of the open-PR search does not.  When the
    metadata answer was read and the request for the issues succeeded, the
    outcome is decided by the commits call whatever the search does: an
    exception of the commits call, or of reading its body, is raised through
    [handle_github_error]; otherwise the result is built with
    [open_prs_count = 0] when the search raised or its body could not be
    read.  ([fetch_repository_data] of the comparison tool swallows both
    failures.) *)
Theorem health_commits_failure_is_fatal {Dump : Type} (W : Health.World Dump)
  (owner repo : string) (r : Response) (repo_data : Health.RepoJson) :
  Health.environ W "GITHUB_TOKEN" <> None ->
  snd (Health.with_retry W (Comparison.repo_call owner repo)) = Returns r ->
  Health.repo_json W r = inr repo_data ->
  Health.get_raises (Health.client W (Health.issues_call owner repo) 0) = None ->
  match snd (Health.with_retry W (Comparison.commits_call owner repo)) with
  | Raises e =>
      snd (Health.get_repository_health W owner repo)
        = inl (snd (Errors1.handle_github_error (Health.reading W) e
                      (Some TheContext) (Health.operation_of owner repo)))
  | Returns commits_response =>
      match Health.commits_json W commits_response with
      | inl e =>
          snd (Health.get_repository_health W owner repo)
            = inl (snd (Errors1.handle_github_error (Health.reading W) e
                          (Some TheContext) (Health.operation_of owner repo)))
      | inr commits_data =>
          exists open_prs_count,
            snd (Health.get_repository_health W owner repo)
              = snd (Health.finish W owner repo [] repo_data open_prs_count
                       commits_data) /\
            (forall e,
               snd (Health.with_retry W (Comparison.search_call owner repo))
                 = Raises e ->
               open_prs_count = 0) /\
            (forall search_response e,
               snd (Health.with_retry W (Comparison.search_call owner repo))
                 = Returns search_response ->
               Health.search_json W search_response = inl e ->
               open_prs_count = 0)
      end
  end.
Proof.
  intros Htok Hm Hj Hget.
  destruct (health_start W owner repo)
    as [(Hno & _)
       |(_ & [(e' & Hwhy & _)
             |(r' & repo_data' & log & Hm' & Hj' & Hu & Hd & Hp & Hrun)])].
  - contradiction.
  - destruct Hwhy as [Hr|(r' & Hr & Hj')]; [congruence|].
    rewrite Hm in Hr. injection Hr as <-. congruence.
  - rewrite Hm in Hm'. injection Hm' as <-. rewrite Hj in Hj'.
    injection Hj' as <-. rewrite Hrun.
    destruct (health_gather W owner repo log repo_data) as [_ Hrest].
    rewrite Hget in Hrest. destruct Hrest as (_ & Hrest).
    destruct (snd (Health.with_retry W (Comparison.commits_call owner repo)))
      as [commits_response|e]; [|exact Hrest].
    destruct (Health.commits_json W commits_response) as [e|commits_data];
      [exact Hrest|].
    eexists. split; [exact Hrest|]. split.
    + intros e He. now rewrite He.
    + intros search_response e He Hs. rewrite He. cbn. now rewrite Hs.
Qed.

Lemma health_commits_failure_is_fatal_witness :
  exists open_prs_count,
    snd (Health.get_repository_health (HealthSample.world HealthSample.ok)
           "org" "one")
      = snd (Health.finish (HealthSample.world HealthSample.ok) "org" "one" []
               (Health.mkRepoJson (Some 12) (Some 100) (Some 10) (Some 3)
                  (Some false) (Some false) (Some "main") (Some "Python")
                  None None None)
               open_prs_count
               [Payload.mkCommitJson (Some "2024-01-30T00:00:00Z")]).
Proof.
  destruct (health_commits_failure_is_fatal (HealthSample.world HealthSample.ok)
              "org" "one" (mkResponse 200 (Some 4000) Payload.JOther)
              (Health.mkRepoJson (Some 12) (Some 100) (Some 10) (Some 3)
                 (Some false) (Some false) (Some "main") (Some "Python")
                 None None None)
              ltac:(discriminate) eq_refl eq_refl eq_refl)
    as (open_prs_count & H & _).
  exists open_prs_count. exact H.
Defined.
